(** * Gyo Gai Do asset scripts: a shallow embedding

    The development follows two scripts of the repository:
    - [scripts/fish_data_extractor.py], class [FishDataExtractor]
      (module [FishDataExtractor] below);
    - [scripts/fix_and_resize_images.py], class [ImageFixerResizer]
      (module [ImageFixerResizer] below).

    Conventions.
    - A Python [str] is a [string], one [ascii] per character, read as
      the code point of its number; the text the scripts build
      themselves (ids, file names, captions) is ASCII.
    - Python integers are [Z].
    - [Optional[Dict]] with text values is [option (gmap string string)];
      the record of FishBase, which also carries numbers, has a type of
      its own.
    - The images directory is a finite map from a path relative to
      [images_dir] (folder, slash, file name) to the file stored there;
      its folders exist.
    - The network and Pillow are outside the repository; they enter as
      oracles (records of functions) that say what each request or call
      answers, including the case where it raises. *)

From Stdlib Require Import ZArith Ascii String Lia DecimalString.
From Stdlib Require DecimalPos DecimalZ.
From Stdlib Require Import Init.Byte Strings.Byte.
From stdpp Require Import gmap strings list.

Local Open Scope Z_scope.

(** ** Python string primitives *)

Module Py.

(** [str.lower] on one character, read as the code point of its number:
    below 256 the characters with a lower-case form are A to Z
    (65..90) and the capital letters of Latin-1 (192..214 and 216..222,
    that is all of 192..222 but the multiplication sign 215); the
    lower-case form is 32 further on. *)
Definition lower_char (c : ascii) : ascii :=
  let n := N_of_ascii c in
  if (((65 <=? n) && (n <=? 90))
      || ((192 <=? n) && (n <=? 222) && negb (n =? 215)))%N
  then ascii_of_N (n + 32) else c.

Definition upper_char (c : ascii) : ascii :=
  let n := N_of_ascii c in
  if ((97 <=? n) && (n <=? 122))%N then ascii_of_N (n - 32) else c.

Definition is_cased (c : ascii) : bool :=
  let n := N_of_ascii c in
  (((65 <=? n) && (n <=? 90)) || ((97 <=? n) && (n <=? 122)))%N.

Fixpoint map_chars (f : ascii -> ascii) (s : string) : string :=
  match s with
  | EmptyString => EmptyString
  | String c s' => String (f c) (map_chars f s')
  end.

Definition lower (s : string) : string := map_chars lower_char s.

(** [str.title]: a cased character is upper-cased after an uncased one
    (or at the start) and lower-cased after a cased one.  The script
    applies it to the ASCII names of its list; [upper_char] and
    [is_cased] are those of the ASCII letters. *)
Fixpoint title_from (previous_is_cased : bool) (s : string) : string :=
  match s with
  | EmptyString => EmptyString
  | String c s' =>
      String (if previous_is_cased then lower_char c else upper_char c)
             (title_from (is_cased c) s')
  end.

Definition title (s : string) : string := title_from false s.

(** [s[:n]] for [n >= 0]. *)
Fixpoint take (n : nat) (s : string) : string :=
  match n, s with
  | S n', String c s' => String c (take n' s')
  | _, _ => EmptyString
  end.

Definition len (s : string) : Z := Z.of_nat (String.length s).

(** [sub in s]. *)
Fixpoint contains (sub s : string) : bool :=
  String.prefix sub s ||
  match s with
  | EmptyString => false
  | String _ s' => contains sub s'
  end.

(** [s.replace(old, new)]: leftmost, non-overlapping occurrences.
    [skip] counts the characters of a matched [old] still to drop. *)
Fixpoint replace_from (old new : string) (skip : nat) (s : string) : string :=
  match s with
  | EmptyString => EmptyString
  | String c s' =>
      match skip with
      | S k => replace_from old new k s'
      | O =>
          if String.prefix old s
          then new +:+ replace_from old new (Nat.pred (String.length old)) s'
          else String c (replace_from old new O s')
      end
  end.

(** With an empty [old], Python puts [new] before every character and
    at the end. *)
Fixpoint intersperse (new s : string) : string :=
  match s with
  | EmptyString => new
  | String c s' => new +:+ String c (intersperse new s')
  end.

Definition replace (old new s : string) : string :=
  match old with
  | EmptyString => intersperse new s
  | _ => replace_from old new O s
  end.

(** [str(n)] and the [{n}] of an f-string. *)
Definition str_of_int (n : Z) : string := NilZero.string_of_int (Z.to_int n).

(** A string is truthy when it is not empty. *)
Definition truthy (s : string) : bool :=
  match s with EmptyString => false | _ => true end.

Definition newline : string := String "010"%char EmptyString.

(** [s.split(sep)] for a separator of one character. *)
Fixpoint split (sep : ascii) (s : string) : list string :=
  match s with
  | EmptyString => [EmptyString]
  | String c s' =>
      if Ascii.eqb c sep then EmptyString :: split sep s'
      else
        match split sep s' with
        | first :: rest => String c first :: rest
        | [] => [String c EmptyString]
        end
  end.

Fixpoint drop (n : nat) (s : string) : string :=
  match n, s with
  | S n', String _ s' => drop n' s'
  | _, _ => s
  end.

(** [s.endswith(suffix)] *)
Definition endswith (suffix s : string) : bool :=
  (String.length suffix <=? String.length s)%nat &&
  String.eqb (drop (String.length s - String.length suffix) s) suffix.

End Py.

(** ** Files of the images directory *)

Abbreviation rgb := (Z * Z * Z)%type (only parsing).

(** What was drawn on a Pillow image.  Font metrics and the float
    arithmetic of the gradient are not computed: a drawing step is
    recorded by its arguments. *)
Inductive drawing :=
| Gradient (base : rgb)
| Ellipse (box : list Z) (fill : option rgb) (outline : rgb) (width : Z)
| Line (xy : list Z) (fill : rgb) (width : Z)
| Caption (text : string) (fill : list Z).

Inductive pixels :=
| Blank (color : rgb)
| FromBytes (data : list byte)
| Draw (d : drawing) (p : pixels)
| ToRGB (p : pixels)
| PasteOnWhite (p : pixels)
| Resample (p : pixels) (to : Z * Z).

Record image := Image {
  size : Z * Z;
  mode : string;
  raster : pixels
}.

(** A file holds either the bytes written through [open(path, 'wb')] or
    the JPEG that [img.save(path, "JPEG", ...)] encoded. *)
Inductive file :=
| RawBytes (data : list byte)
| JpegOf (img : image).

#[global] Instance byte_eq_dec : EqDecision byte := Strings.Byte.byte_eq_dec.
#[global] Instance drawing_eq_dec : EqDecision drawing.
Proof. solve_decision. Defined.
#[global] Instance pixels_eq_dec : EqDecision pixels.
Proof. solve_decision. Defined.
#[global] Instance image_eq_dec : EqDecision image.
Proof. solve_decision. Defined.
#[global] Instance file_eq_dec : EqDecision file.
Proof. solve_decision. Defined.

(** ** fish_data_extractor.py *)

Module FishDataExtractor.

(** One entry of [get_top_20_fish_species].  The kanji name is carried
    to the JSON file untouched and is left out. *)
Record species_info := Species {
  common_name : string;
  scientific_name : string;
  japanese_romaji : string
}.

Definition get_top_20_fish_species : list species_info :=
  [ Species "Bluefin Tuna" "Thunnus thynnus" "Kuro-maguro";
    Species "Yellowfin Tuna" "Thunnus albacares" "Kihada";
    Species "Atlantic Salmon" "Salmo salar" "Sake";
    Species "Japanese Amberjack" "Seriola quinqueradiata" "Hamachi";
    Species "Red Sea Bream" "Pagrus major" "Madai";
    Species "Atlantic Mackerel" "Scomber scombrus" "Saba";
    Species "Horse Mackerel" "Trachurus japonicus" "Aji";
    Species "Japanese Sardine" "Sardinops melanostictus" "Iwashi";
    Species "Japanese Sea Bass" "Lateolabrax japonicus" "Suzuki";
    Species "Olive Flounder" "Paralichthys olivaceus" "Hirame";
    Species "Red Snapper" "Lutjanus campechanus" "Tai";
    Species "Japanese Eel" "Anguilla japonica" "Unagi";
    Species "Conger Eel" "Conger myriaster" "Anago";
    Species "Japanese Flying Squid" "Todarodes pacificus" "Ika";
    Species "Giant Pacific Octopus" "Enteroctopus dofleini" "Tako";
    Species "Kuruma Prawn" "Penaeus japonicus" "Ebi";
    Species "Japanese Scallop" "Patinopecten yessoensis" "Hotate";
    Species "Sea Urchin" "Strongylocentrotus nudus" "Uni";
    Species "Greater Amberjack" "Seriola dumerili" "Kanpachi";
    Species "Pacific Saury" "Cololabis saira" "Sanma" ].

Definition generate_fish_id (common_name : string) : string :=
  Py.replace "-" "_" (Py.replace " " "_" (Py.lower common_name)).

(** *** build_description *)

Definition fallback_descriptions : gmap string string :=
  list_to_map
    [ ("Bluefin Tuna",
       "Large, powerful fish prized for its rich, fatty flesh. Highly valued in sushi cuisine for its complex flavor profile ranging from lean akami to fatty otoro.");
      ("Atlantic Salmon",
       "Popular fish with distinctive pink flesh. Commonly farm-raised and wild-caught, known for its rich flavor and high omega-3 content.");
      ("Japanese Amberjack",
       "Premium fish with buttery texture and clean taste. Young yellowtail (hamachi) is especially prized for sushi and sashimi.") ].

Definition generic_description : string :=
  "A species of fish commonly used in Japanese cuisine, particularly sushi and sashimi preparation.".

(** [data and key in data], then [data[key]]. *)
Definition field (data : option (gmap string string)) (key : string)
  : option string :=
  match data with
  | Some d => d !! key
  | None => None
  end.

Definition append_if_present (o : option string) (l : list string)
  : list string :=
  match o with
  | Some text => l ++ [text]
  | None => l
  end.

(** The last line of [build_description]:
    [d[:200] + "..." if len(d) > 200 else d]. *)
Definition truncate_description (d : string) : string :=
  if 200 <? Py.len d then Py.take 200 d +:+ "..." else d.

(** [None] stands for the [IndexError] of [descriptions[0]] on an empty
    list. *)
Definition build_description (common_name : string)
    (fishbase_data wikipedia_data : option (gmap string string))
  : option string :=
  let descriptions := [] in
  let descriptions :=
    append_if_present (field wikipedia_data "extract") descriptions in
  let descriptions :=
    append_if_present (field fishbase_data "Comments") descriptions in
  let descriptions :=
    match descriptions with
    | [] => append_if_present (fallback_descriptions !! common_name) descriptions
    | _ => descriptions
    end in
  let descriptions :=
    match descriptions with
    | [] => descriptions ++ [generic_description]
    | _ => descriptions
    end in
  truncate_description <$> descriptions !! 0%nat.

(** *** JSON values *)

(** A scalar of a JSON document as [response.json()] decodes it.
    Nothing is computed with a float: it is kept as the text Python
    prints for it. *)
Inductive json :=
| JNull
| JBool (b : bool)
| JInt (n : Z)
| JFloat (printed : string)
| JText (s : string).

(** [f"{v}"] *)
Definition format (v : json) : string :=
  match v with
  | JNull => "None"
  | JBool true => "True"
  | JBool false => "False"
  | JInt n => Py.str_of_int n
  | JFloat printed => printed
  | JText s => s
  end.

(** Whether [v * x] has a value for a float [x].  A bool or a float
    times a float is a float.  An int is first converted to a float,
    which raises [OverflowError] from 2^1024 - 2^970 on: there rounding
    to the nearest float reaches 2^1024.  Text and [None] raise
    [TypeError]. *)
Definition times_float (v : json) : bool :=
  match v with
  | JBool _ => true
  | JFloat _ => true
  | JInt n => Z.abs n <? 2 ^ 1024 - 2 ^ 970
  | JNull => false
  | JText _ => false
  end.

(** A species record of FishBase, by the entries the code reads, each a
    scalar of any kind (FishBase fills many of them with null). *)
Record fishbase_record := FishBaseRecord {
  Comments : option json;
  LongevityWild : option json;
  Length : option json;
  Weight : option json;
  FamCode : option json
}.

(** The text entries of the record, as the dictionary that
    [build_description] reads. *)
Definition text_entries (r : fishbase_record) : gmap string string :=
  match Comments r with
  | Some (JText comments) => {[ "Comments" := comments ]}
  | _ => ∅
  end.

(** *** The outside world *)

(** The answer to a request that carries a decoded payload.  [Fails]
    is any exception raised by the request or by decoding its answer. *)
Inductive reply (A : Type) :=
| Fails
| Http (status : Z) (payload : A).
Arguments Fails {A}.
Arguments Http {A} status payload.

(** The body of a streamed response: [iter_content] yields [chunks] in
    order and then, when [breaks] is set, raises. *)
Record body := Body {
  chunks : list (list byte);
  breaks : bool
}.

Inductive fetched :=
| FetchFails
| Fetched (status : Z) (content_type : option string) (content : body).

Record imageinfo := ImageInfo {
  thumburl : option string;
  url : option string
}.

Record media_item := Media {
  media_type : option string;
  identifier : option string
}.

(** One field per kind of request.  An HTML page is given by the list
    that [re.findall] extracts from it with the pattern of the function
    that fetches it; a JSON document by the fields the code reads. *)
Record network := Network {
  get_image : string -> fetched;
  commons_search : string -> reply (option (list string));
  commons_imageinfo : string -> reply (list (option imageinfo));
  page_matches : string -> reply (list string);
  gbif_species : string -> reply (list (option string));
  gbif_occurrences : option string -> reply (list (list media_item));
  inaturalist_observations : string -> reply (list (list (option string)));
  fishbase_species : string -> reply (list fishbase_record);
  wikipedia_summary : string -> reply (gmap string string)
}.

(** Pillow: absent ([from PIL import ...] raises [ImportError]), or
    present, and then drawing or saving the placeholder for a path may
    raise some other exception. *)
Inductive pillow :=
| NotInstalled
| Installed (render_raises : string -> bool).

Inductive event :=
| SourceFailed
| CreatingPlaceholders (image_type : string) (start_index count : Z)
| CreatedPlaceholder (path : string)
| ErrorCreatingPlaceholders
| Completed (unique_name : string)
| Failed (common_name : string).

(** The images directory and the trace of the calls and messages the
    properties below speak of. *)
Record world := World {
  files : gmap string file;
  events : list event
}.

Definition write (path : string) (f : file) (w : world) : world :=
  World (<[path := f]> (files w)) (events w).

Definition emit (e : event) (w : world) : world :=
  World (files w) (events w ++ [e]).

(** *** download_image_from_url *)

Definition nonempty (chunk : list byte) : bool :=
  match chunk with [] => false | _ => true end.

(** What [f.write] has put in the file when the loop over
    [iter_content] ends or raises. *)
Definition received (content : body) : list byte :=
  concat (List.filter nonempty (chunks content)).

Definition download_image_from_url (net : network) (url filepath : string)
    (fs : gmap string file) : gmap string file * bool :=
  match get_image net url with
  | FetchFails => (fs, false)
  | Fetched status content_type content =>
      if status =? 200 then
        let content_type := default "" content_type in
        if Py.contains "image" content_type then
          let fs := <[filepath := RawBytes (received content)]> fs in
          if breaks content then (fs, false) else (fs, true)
        else (fs, false)
      else (fs, false)
  end.

(** *** File names *)

Definition get_filename (fish_id image_type : string) (index : Z) : string :=
  if decide (image_type = "natural") then
    fish_id +:+ "_natural_" +:+ Py.str_of_int (index + 1) +:+ ".jpg"
  else if decide (image_type = "scientific") then
    fish_id +:+ "_diagram.jpg"
  else if decide (image_type = "maps") then
    fish_id +:+ "_habitat.jpg"
  else if decide (image_type = "sushi") then
    fish_id +:+ "_" +:+ (if index =? 0 then "nigiri" else "sashimi") +:+ ".jpg"
  else
    fish_id +:+ "_" +:+ image_type +:+ "_" +:+ Py.str_of_int (index + 1) +:+ ".jpg".

Definition folder_map : gmap string string :=
  list_to_map [ ("natural", "natural"); ("scientific", "scientific");
                ("maps", "maps"); ("sushi", "sushi") ].

Definition get_image_folder (image_type : string) : string :=
  default "natural" (folder_map !! image_type).

(** [self.images_dir / folder / filename], relative to [images_dir]. *)
Definition image_path (folder filename : string) : string :=
  folder +:+ "/" +:+ filename.

Definition target_path (fish_id image_type : string) (index : Z) : string :=
  image_path (get_image_folder image_type)
             (get_filename fish_id image_type index).

Definition get_wikimedia_search_terms
    (search_term scientific_name image_type : string) : list string :=
  let base_terms := [search_term; scientific_name] in
  if decide (image_type = "natural") then
    base_terms ++ map (fun term => term +:+ " fish") base_terms
  else if decide (image_type = "scientific") then
    [ search_term +:+ " anatomy"; search_term +:+ " diagram";
      search_term +:+ " illustration";
      scientific_name +:+ " anatomy"; scientific_name +:+ " diagram";
      scientific_name +:+ " illustration" ]
  else if decide (image_type = "maps") then
    [ search_term +:+ " distribution"; search_term +:+ " habitat";
      search_term +:+ " range map";
      scientific_name +:+ " distribution"; scientific_name +:+ " habitat";
      scientific_name +:+ " range map" ]
  else if decide (image_type = "sushi") then
    [ search_term +:+ " sushi"; search_term +:+ " sashimi";
      search_term +:+ " nigiri";
      scientific_name +:+ " sushi"; scientific_name +:+ " sashimi";
      scientific_name +:+ " nigiri" ]
  else base_terms.

(** *** Wikimedia Commons *)

(** [a or b] on optional strings. *)
Definition py_or (a b : option string) : option string :=
  match a with
  | Some s => if Py.truthy s then a else b
  | None => b
  end.

Fixpoint first_imageinfo (pages : list (option imageinfo)) : option string :=
  match pages with
  | [] => None
  | Some info :: _ => py_or (thumburl info) (url info)
  | None :: rest => first_imageinfo rest
  end.

Definition get_wikimedia_image_url (net : network) (file_title : string)
  : option string :=
  match commons_imageinfo net file_title with
  | Fails => None
  | Http status pages =>
      if status =? 200 then first_imageinfo pages else None
  end.

(** [if image_url:] *)
Definition usable (o : option string) : option string :=
  match o with
  | Some s => if Py.truthy s then Some s else None
  | None => None
  end.

(** The loop over the results of one search. *)
Fixpoint wikimedia_results (net : network) (fish_id image_type : string)
    (target_count : Z) (titles : list string)
    (images_downloaded : Z) (fs : gmap string file) : gmap string file * Z :=
  match titles with
  | [] => (fs, images_downloaded)
  | file_title :: rest =>
      if target_count <=? images_downloaded then (fs, images_downloaded)
      else
        match usable (get_wikimedia_image_url net file_title) with
        | Some image_url =>
            let filepath := target_path fish_id image_type images_downloaded in
            match download_image_from_url net image_url filepath fs with
            | (fs, true) =>
                wikimedia_results net fish_id image_type target_count rest
                                  (images_downloaded + 1) fs
            | (fs, false) =>
                wikimedia_results net fish_id image_type target_count rest
                                  images_downloaded fs
            end
        | None =>
            wikimedia_results net fish_id image_type target_count rest
                              images_downloaded fs
        end
  end.

(** The loop over the search queries. *)
Fixpoint wikimedia_queries (net : network) (fish_id image_type : string)
    (target_count : Z) (search_queries : list string)
    (images_downloaded : Z) (fs : gmap string file) : gmap string file * Z :=
  match search_queries with
  | [] => (fs, images_downloaded)
  | query :: rest =>
      if target_count <=? images_downloaded then (fs, images_downloaded)
      else
        match commons_search net ("filetype:bitmap " +:+ query) with
        | Http status (Some titles) =>
            if status =? 200 then
              let '(fs, n) := wikimedia_results net fish_id image_type
                               target_count titles images_downloaded fs in
              wikimedia_queries net fish_id image_type target_count rest n fs
            else
              wikimedia_queries net fish_id image_type target_count rest
                                images_downloaded fs
        | _ =>
            wikimedia_queries net fish_id image_type target_count rest
                              images_downloaded fs
        end
  end.

Definition download_wikimedia_images (net : network)
    (fish_id search_term scientific_name image_type : string)
    (fs : gmap string file) : gmap string file * Z :=
  let target_count := if decide (image_type = "natural") then 2 else 1 in
  let search_queries :=
    get_wikimedia_search_terms search_term scientific_name image_type in
  wikimedia_queries net fish_id image_type target_count search_queries 0 fs.

(** *** The other sources *)

Definition per_source_target (image_type : string) : Z :=
  if decide (image_type = "natural") then 2 else 1.

(** [for url in urls: if download(...): images_downloaded += 1], each
    file named after the count reached so far in this call. *)
Fixpoint download_each (net : network) (fish_id image_type : string)
    (urls : list string) (images_downloaded : Z) (fs : gmap string file) : gmap string file * Z :=
  match urls with
  | [] => (fs, images_downloaded)
  | u :: rest =>
      let filepath := target_path fish_id image_type images_downloaded in
      match download_image_from_url net u filepath fs with
      | (fs, true) =>
          download_each net fish_id image_type rest (images_downloaded + 1) fs
      | (fs, false) =>
          download_each net fish_id image_type rest images_downloaded fs
      end
  end.

Definition download_fishbase_images (net : network)
    (fish_id common_name scientific_name image_type : string)
    (fs : gmap string file) : gmap string file * Z :=
  let search_url :=
    "https://www.fishbase.se/photos/PicturesSummary.php?resultPage=1&what=species&ID="
      +:+ scientific_name in
  match page_matches net search_url with
  | Fails => (fs, 0)
  | Http status image_urls =>
      if status =? 200 then
        let target := per_source_target image_type in
        download_each net fish_id image_type
                      (take (Z.to_nat target) image_urls) 0 fs
      else (fs, 0)
  end.

(** The inner loop of the GBIF source: the first still image with a
    usable identifier is tried, then the loop is left. *)
Fixpoint first_still_image (media : list media_item) : option string :=
  match media with
  | [] => None
  | item :: rest =>
      if decide (media_type item = Some "StillImage") then
        match usable (identifier item) with
        | Some u => Some u
        | None => first_still_image rest
        end
      else first_still_image rest
  end.

Definition download_gbif_images (net : network)
    (fish_id scientific_name image_type : string)
    (fs : gmap string file) : gmap string file * Z :=
  match gbif_species net scientific_name with
  | Http status (first :: _) =>
      if status =? 200 then
        let species_key := first in
        match gbif_occurrences net species_key with
        | Http status occurrences =>
            if status =? 200 then
              let target := per_source_target image_type in
              download_each net fish_id image_type
                (omap first_still_image (take (Z.to_nat target) occurrences))
                0 fs
            else (fs, 0)
        | Fails => (fs, 0)
        end
      else (fs, 0)
  | _ => (fs, 0)
  end.

(** The first photo with a usable url, at medium size. *)
Fixpoint first_photo (photos : list (option string)) : option string :=
  match photos with
  | [] => None
  | photo :: rest =>
      match usable photo with
      | Some u => Some (Py.replace "square" "medium" u)
      | None => first_photo rest
      end
  end.

Definition download_inaturalist_images (net : network)
    (fish_id scientific_name image_type : string)
    (fs : gmap string file) : gmap string file * Z :=
  match inaturalist_observations net scientific_name with
  | Fails => (fs, 0)
  | Http status observations =>
      if status =? 200 then
        let target := per_source_target image_type in
        download_each net fish_id image_type
          (omap first_photo (take (Z.to_nat target) observations)) 0 fs
      else (fs, 0)
  end.

(** [for url in urls[:1]: if download(url, filepath): return 1]. *)
Definition download_first (net : network) (urls : list string)
    (filepath : string) (fs : gmap string file) : gmap string file * Z :=
  match urls with
  | u :: _ =>
      match download_image_from_url net u filepath fs with
      | (fs, true) => (fs, 1)
      | (fs, false) => (fs, 0)
      end
  | [] => (fs, 0)
  end.

Definition download_fishbase_diagrams (net : network)
    (fish_id scientific_name : string) (fs : gmap string file) : gmap string file * Z :=
  let species_url :=
    "https://www.fishbase.se/summary/"
      +:+ Py.replace " " "-" scientific_name +:+ ".html" in
  match page_matches net species_url with
  | Fails => (fs, 0)
  | Http status diagram_urls =>
      if status =? 200 then
        download_first net diagram_urls
          (image_path "scientific" (fish_id +:+ "_diagram.jpg")) fs
      else (fs, 0)
  end.

(** Every branch of [download_fao_diagrams] returns 0. *)
Definition download_fao_diagrams (net : network)
    (fish_id scientific_name : string) (fs : gmap string file) : gmap string file * Z :=
  (fs, 0).

Definition download_fishbase_maps (net : network)
    (fish_id scientific_name : string) (fs : gmap string file) : gmap string file * Z :=
  let map_url :=
    "https://www.fishbase.se/Country/CountrySpeciesSummary.php?c_code=&id="
      +:+ scientific_name in
  match page_matches net map_url with
  | Fails => (fs, 0)
  | Http status map_urls =>
      if status =? 200 then
        download_first net map_urls
          (image_path "maps" (fish_id +:+ "_habitat.jpg")) fs
      else (fs, 0)
  end.

(** [{species_key}] in an f-string prints [None] for a missing key. *)
Definition format_key (species_key : option string) : string :=
  default "None" species_key.

Definition download_gbif_maps (net : network)
    (fish_id scientific_name : string) (fs : gmap string file) : gmap string file * Z :=
  match gbif_species net scientific_name with
  | Http status (first :: _) =>
      if status =? 200 then
        let map_url :=
          "https://api.gbif.org/v2/map/occurrence/density/0/0/0@1x.png?taxonKey="
            +:+ format_key first in
        download_first net [map_url]
          (image_path "maps" (fish_id +:+ "_habitat.jpg")) fs
      else (fs, 0)
  | _ => (fs, 0)
  end.

Definition download_aquamaps_data (net : network)
    (fish_id scientific_name : string) (fs : gmap string file) : gmap string file * Z :=
  (fs, 0).

(** The two nested loops of [download_wikimedia_sushi_images]; the
    inner one returns the running count and stops at the first term
    that gave an image. *)
Fixpoint sushi_terms (net : network) (fish_id common_name sushi_type : string)
    (search_terms : list string) (images_downloaded : Z) (fs : gmap string file)
  : gmap string file * Z :=
  match search_terms with
  | [] => (fs, images_downloaded)
  | term :: rest =>
      if 2 <=? images_downloaded then (fs, images_downloaded)
      else
        let '(fs, result) :=
          download_wikimedia_images net fish_id (term +:+ " " +:+ sushi_type)
                                    common_name "sushi" fs in
        let images_downloaded := images_downloaded + result in
        if 0 <? result then (fs, images_downloaded)
        else sushi_terms net fish_id common_name sushi_type rest
                         images_downloaded fs
  end.

Fixpoint sushi_types (net : network) (fish_id common_name : string)
    (types search_terms : list string) (images_downloaded : Z) (fs : gmap string file)
  : gmap string file * Z :=
  match types with
  | [] => (fs, images_downloaded)
  | sushi_type :: rest =>
      let '(fs, n) := sushi_terms net fish_id common_name sushi_type
                                 search_terms images_downloaded fs in
      sushi_types net fish_id common_name rest search_terms n fs
  end.

Definition download_wikimedia_sushi_images (net : network)
    (fish_id common_name japanese_romaji : string) (fs : gmap string file) : gmap string file * Z :=
  let '(fs, images_downloaded) :=
    sushi_types net fish_id common_name ["nigiri"; "sashimi"]
                [common_name; japanese_romaji] 0 fs in
  (fs, Z.min images_downloaded 2).

Definition download_unsplash_sushi_images (net : network)
    (fish_id common_name japanese_romaji : string) (fs : gmap string file) : gmap string file * Z :=
  (fs, 0).

Definition download_pexels_sushi_images (net : network)
    (fish_id common_name japanese_romaji : string) (fs : gmap string file) : gmap string file * Z :=
  (fs, 0).

(** *** The fallback loop over the sources *)

Inductive outcome :=
| Returned (n : Z)
| Raised.

(** A source closure: it may change the images directory, and returns a
    count or raises. *)
Definition source : Type := gmap string file -> gmap string file * outcome.

Definition returning (f : gmap string file -> gmap string file * Z) : source :=
  fun fs => let '(fs, n) := f fs in (fs, Returned n).

(** The loop shared by the four [download_*] functions:
<<
    for source_func in sources:
        if images_downloaded >= target_count: break
        try: images_downloaded += source_func()
        except Exception as e: print(warning); continue
>> *)
Fixpoint run_sources (target_count : Z) (sources : list source)
    (images_downloaded : Z) (w : world) : world * Z :=
  match sources with
  | [] => (w, images_downloaded)
  | source_func :: rest =>
      if target_count <=? images_downloaded then (w, images_downloaded)
      else
        match source_func (files w) with
        | (fs, Returned n) =>
            run_sources target_count rest (images_downloaded + n)
                        (World fs (events w))
        | (fs, Raised) =>
            run_sources target_count rest images_downloaded
                        (emit SourceFailed (World fs (events w)))
        end
  end.

Definition natural_sources (net : network)
    (fish_id common_name scientific_name : string) : list source :=
  [ returning (download_wikimedia_images net fish_id common_name
                                         scientific_name "natural");
    returning (download_fishbase_images net fish_id common_name
                                        scientific_name "natural");
    returning (download_gbif_images net fish_id scientific_name "natural");
    returning (download_inaturalist_images net fish_id scientific_name
                                           "natural") ].

Definition download_natural_images (net : network)
    (fish_id common_name scientific_name : string) (w : world) : world * Z :=
  run_sources 2 (natural_sources net fish_id common_name scientific_name) 0 w.

Definition scientific_sources (net : network)
    (fish_id common_name scientific_name : string) : list source :=
  [ returning (download_fishbase_diagrams net fish_id scientific_name);
    returning (download_wikimedia_images net fish_id
                 (scientific_name +:+ " anatomy") scientific_name "scientific");
    returning (download_wikimedia_images net fish_id
                 (common_name +:+ " diagram") scientific_name "scientific");
    returning (download_fao_diagrams net fish_id scientific_name) ].

Definition download_scientific_diagrams (net : network)
    (fish_id common_name scientific_name : string) (w : world) : world * Z :=
  run_sources 1 (scientific_sources net fish_id common_name scientific_name) 0 w.

Definition map_sources (net : network)
    (fish_id common_name scientific_name : string) : list source :=
  [ returning (download_fishbase_maps net fish_id scientific_name);
    returning (download_gbif_maps net fish_id scientific_name);
    returning (download_aquamaps_data net fish_id scientific_name);
    returning (download_wikimedia_images net fish_id
                 (scientific_name +:+ " distribution") scientific_name "maps") ].

Definition download_habitat_maps (net : network)
    (fish_id common_name scientific_name : string) (w : world) : world * Z :=
  run_sources 1 (map_sources net fish_id common_name scientific_name) 0 w.

Definition sushi_sources (net : network)
    (fish_id common_name japanese_romaji : string) : list source :=
  [ returning (download_wikimedia_sushi_images net fish_id common_name
                                               japanese_romaji);
    returning (download_unsplash_sushi_images net fish_id common_name
                                              japanese_romaji);
    returning (download_pexels_sushi_images net fish_id common_name
                                            japanese_romaji) ].

Definition download_sushi_images (net : network)
    (fish_id common_name japanese_romaji : string) (w : world) : world * Z :=
  run_sources 2 (sushi_sources net fish_id common_name japanese_romaji) 0 w.

(** *** Placeholders *)

Definition minimal_jpeg : list byte :=
  [
    xff; xd8; xff; xe0; x00; x10; x4a; x46; x49; x46; x00; x01;
    x01; x01; x00; x48; x00; x48; x00; x00; xff; xdb; x00; x43;
    x00; x08; x06; x06; x07; x06; x05; x08; x07; x07; x07; x09;
    x09; x08; x0a; x0c; x14; x0d; x0c; x0b; x0b; x0c; x19; x12;
    x13; x0f; x14; x1d; x1a; x1f; x1e; x1d; x1a; x1c; x1c; x20;
    x24; x2e; x27; x20; x22; x2c; x23; x1c; x1c; x28; x37; x29;
    x2c; x30; x31; x34; x34; x34; x1f; x27; x39; x3d; x38; x32;
    x3c; x2e; x33; x34; x32; xff; xc0; x00; x11; x08; x00; x64;
    x00; x64; x03; x01; x22; x00; x02; x11; x01; x03; x11; x01;
    xff; xc4; x00; x14; x00; x01; x00; x00; x00; x00; x00; x00;
    x00; x00; x00; x00; x00; x00; x00; x00; x00; x08; xff; xc4;
    x00; x14; x10; x01; x00; x00; x00; x00; x00; x00; x00; x00;
    x00; x00; x00; x00; x00; x00; x00; x00; xff; xda; x00; x0c;
    x03; x01; x00; x02; x11; x03; x11; x00; x3f; x00; x9f; xff;
    xd9 ]%list.

Definition color_map : gmap string (Z * Z * Z) :=
  list_to_map [ ("natural", (70, 130, 180)); ("scientific", (147, 112, 219));
                ("maps", (32, 178, 170)); ("sushi", (255, 160, 122)) ].

Definition text_map (common_name scientific_name : string)
  : gmap string string :=
  list_to_map
    [ ("natural", common_name +:+ Py.newline +:+ "(Natural Photo)");
      ("scientific", scientific_name +:+ Py.newline +:+ "(Diagram)");
      ("maps", common_name +:+ Py.newline +:+ "(Habitat Map)");
      ("sushi", common_name +:+ Py.newline +:+ "(Sushi)") ].

(** [Image.new('RGB', (600, 400), color)], the caption drawn twice
    (shadow, then text). *)
Definition placeholder_image (color : Z * Z * Z) (text : string) : image :=
  Image (600, 400) "RGB"
        (Draw (Caption text [255; 255; 255])
              (Draw (Caption text [0; 0; 0; 128]) (Blank color))).

(** [range(count)] *)
Definition range (count : Z) : list Z := seqZ 0 count.

Fixpoint basic_loop (fish_id image_type : string) (start_index : Z)
    (indices : list Z) (w : world) : world :=
  match indices with
  | [] => w
  | i :: rest =>
      let filepath := target_path fish_id image_type (start_index + i) in
      let w := write filepath (RawBytes minimal_jpeg) w in
      basic_loop fish_id image_type start_index rest
                 (emit (CreatedPlaceholder filepath) w)
  end.

Definition create_basic_type_placeholders (fish_id image_type : string)
    (start_index count : Z) (w : world) : world :=
  basic_loop fish_id image_type start_index (range count) w.

(** The loop inside the [try] of [create_type_specific_placeholders].
    An exception leaves the loop; the handler prints a message and the
    function returns. *)
Fixpoint render_loop (render_raises : string -> bool)
    (fish_id image_type : string) (color : Z * Z * Z) (text : string)
    (start_index : Z) (indices : list Z) (w : world) : world :=
  match indices with
  | [] => w
  | i :: rest =>
      let filepath := target_path fish_id image_type (start_index + i) in
      if render_raises filepath then emit ErrorCreatingPlaceholders w
      else
        let w := write filepath (JpegOf (placeholder_image color text)) w in
        render_loop render_raises fish_id image_type color text start_index
                    rest (emit (CreatedPlaceholder filepath) w)
  end.

Definition create_type_specific_placeholders (pil : pillow)
    (fish_id common_name scientific_name image_type : string)
    (start_index count : Z) (w : world) : world :=
  let w := emit (CreatingPlaceholders image_type start_index count) w in
  match pil with
  | Installed render_raises =>
      let color := default (128, 128, 128) (color_map !! image_type) in
      let text :=
        default common_name
                (text_map common_name scientific_name !! image_type) in
      render_loop render_raises fish_id image_type color text start_index
                  (range count) w
  | NotInstalled =>
      create_basic_type_placeholders fish_id image_type start_index count w
  end.

Definition targets : list (string * Z) :=
  [ ("natural", 2); ("scientific", 1); ("maps", 1); ("sushi", 2) ].

Fixpoint missing_loop (pil : pillow)
    (fish_id common_name scientific_name : string)
    (success_counts : gmap string Z) (items : list (string * Z))
    (w : world) : world :=
  match items with
  | [] => w
  | (image_type, target_count) :: rest =>
      let downloaded := default 0 (success_counts !! image_type) in
      let missing := target_count - downloaded in
      let w :=
        if 0 <? missing then
          create_type_specific_placeholders pil fish_id common_name
            scientific_name image_type downloaded missing w
        else w in
      missing_loop pil fish_id common_name scientific_name success_counts
                   rest w
  end.

Definition create_missing_placeholders (pil : pillow)
    (fish_id common_name scientific_name : string)
    (success_counts : gmap string Z) (w : world) : world :=
  missing_loop pil fish_id common_name scientific_name success_counts
               targets w.

(** *** Records and the two top-level passes *)

(** The fields of [FishData] that the image passes read or that name
    image files.  Aliases, lifespan, size, weight, habitats and ways to
    eat are left out of the record (the sizes are formatted with float
    arithmetic); [extract_fish_data] below still evaluates the ones
    that can raise.
    The field [scientific_name] is [fish_scientific_name] here, the
    shorter name being the one of [species_info]. *)
Record FishData := {
  id : string;
  unique_name : string;
  description : string;
  fish_scientific_name : string;
  japanese_name_romaji : string;
  sushi_images : list string;
  wild_images : list string;
  habitat_map_image : string
}.

Definition get_image_paths (fish_id image_type : string) : list string :=
  if decide (image_type = "sushi") then
    [ "assets/images/sushi/" +:+ fish_id +:+ "_nigiri.jpg";
      "assets/images/sushi/" +:+ fish_id +:+ "_sashimi.jpg" ]
  else if decide (image_type = "natural") then
    [ "assets/images/natural/" +:+ fish_id +:+ "_natural_1.jpg";
      "assets/images/natural/" +:+ fish_id +:+ "_natural_2.jpg" ]
  else [].

(** [dict[key] += n] *)
Definition add_count (key : string) (n : Z) (counts : gmap string Z)
  : gmap string Z :=
  <[key := default 0 (counts !! key) + n]> counts.

(** The body of the loop of [download_free_images]; the success counts
    are returned with the world. *)
Definition download_images_for (net : network) (pil : pillow)
    (fish : FishData) (w : world) : world * gmap string Z :=
  let fish_id := id fish in
  let common_name := unique_name fish in
  let scientific_name := fish_scientific_name fish in
  let japanese_romaji := japanese_name_romaji fish in
  let success_counts : gmap string Z :=
    list_to_map [ ("natural", 0); ("scientific", 0);
                  ("maps", 0); ("sushi", 0) ] in
  let '(w, n) :=
    download_natural_images net fish_id common_name scientific_name w in
  let success_counts := add_count "natural" n success_counts in
  let '(w, n) :=
    download_scientific_diagrams net fish_id common_name scientific_name w in
  let success_counts := add_count "scientific" n success_counts in
  let '(w, n) :=
    download_habitat_maps net fish_id common_name scientific_name w in
  let success_counts := add_count "maps" n success_counts in
  let '(w, n) :=
    download_sushi_images net fish_id common_name japanese_romaji w in
  let success_counts := add_count "sushi" n success_counts in
  (create_missing_placeholders pil fish_id common_name scientific_name
                               success_counts w,
   success_counts).

Fixpoint download_free_images (net : network) (pil : pillow)
    (fish_list : list FishData) (w : world) : world :=
  match fish_list with
  | [] => w
  | fish :: rest =>
      download_free_images net pil rest
                           (fst (download_images_for net pil fish w))
  end.

Definition fetch_fishbase_data (net : network) (scientific_name : string)
  : option fishbase_record :=
  match fishbase_species net scientific_name with
  | Http status (first :: _) => if status =? 200 then Some first else None
  | _ => None
  end.

Definition fetch_wikipedia_data (net : network) (common_name : string)
  : option (gmap string string) :=
  match wikipedia_summary net common_name with
  | Http status data => if status =? 200 then Some data else None
  | Fails => None
  end.

Definition alias_map : gmap string (list string) :=
  list_to_map
    [ ("Bluefin Tuna", ["Maguro"; "Hon-maguro"; "Kuro-maguro"]);
      ("Yellowfin Tuna", ["Ahi"; "Kihada"]);
      ("Atlantic Salmon", ["Sake"; "Norwegian Salmon"]);
      ("Japanese Amberjack", ["Hamachi"; "Yellowtail"; "Buri"]);
      ("Red Sea Bream", ["Tai"; "Madai"; "Sea Bream"]) ].

(** [list(set(aliases))]: the order of the result is that of the set. *)
Definition get_aliases (common_name japanese_romaji : string) : list string :=
  let aliases := [japanese_romaji] in
  let aliases :=
    match alias_map !! common_name with
    | Some more => aliases ++ more
    | None => aliases
    end in
  elements (list_to_set aliases : gset string).

Definition preparation_map : gmap string (list string) :=
  list_to_map
    [ ("Bluefin Tuna", ["Sashimi"; "Nigiri"; "Seared"; "Tataki"]);
      ("Atlantic Salmon", ["Sashimi"; "Nigiri"; "Grilled"; "Smoked"]);
      ("Japanese Amberjack", ["Sashimi"; "Nigiri"; "Grilled"; "Teriyaki"]);
      ("Red Sea Bream", ["Sashimi"; "Nigiri"; "Steamed"; "Grilled"]);
      ("Atlantic Mackerel", ["Sashimi"; "Nigiri"; "Grilled"; "Pickled"]);
      ("Japanese Eel", ["Unagi"; "Kabayaki"; "Grilled"; "Rice Bowl"]) ].

Definition get_ways_to_eat (common_name : string) : list string :=
  default ["Sashimi"; "Nigiri"; "Grilled"; "Steamed"]
          (preparation_map !! common_name).

(** [data and key in data], then [data[key]], for an entry of the
    FishBase record. *)
Definition entry {A : Type} (data : option fishbase_record)
    (key : fishbase_record -> option A) : option A :=
  match data with
  | Some d => key d
  | None => None
  end.

Definition extract_lifespan (fishbase_data : option fishbase_record)
  : string :=
  match entry fishbase_data LongevityWild with
  | Some years => format years +:+ " years"
  | None => "5-15 years"
  end.

(** The text of a size or a weight.  The converted figure is a rounded
    float product; it is not computed, and the text is kept as the
    value it is made from:
    [Inches cm] is [f"{round(cm * 0.393701, 1)} in ({cm} cm)"] and
    [Pounds kg] is [f"{round(kg * 2.20462, 1)} lbs ({kg} kg)"]. *)
Inductive measure :=
| Fallback (text : string)
| Inches (cm : json)
| Pounds (kg : json).

(** [None] is the exception of [cm * 0.393701]. *)
Definition extract_size (fishbase_data : option fishbase_record)
  : option measure :=
  match entry fishbase_data Length with
  | Some cm => if times_float cm then Some (Inches cm) else None
  | None => Some (Fallback "12-24 in (30-60 cm)")
  end.

(** [None] is the exception of [kg * 2.20462]. *)
Definition extract_weight (fishbase_data : option fishbase_record)
  : option measure :=
  match entry fishbase_data Weight with
  | Some kg => if times_float kg then Some (Pounds kg) else None
  | None => Some (Fallback "2-10 lbs (1-4.5 kg)")
  end.

Definition extract_habitats (fishbase_data : option fishbase_record)
  : list string :=
  let default_habitats :=
    ["Pacific Ocean"; "Atlantic Ocean"; "Coastal Waters"] in
  match entry fishbase_data FamCode with
  | Some _ => take 2 default_habitats
  | None => take 2 default_habitats
  end.

(** [self.build_description(common_name, fishbase_data, wikipedia_data)]
    on the record of FishBase.  [build_description] above reads text
    entries.  The code appends the value under [Comments] to its list
    whatever it is, and reads the first of the list only: a value that
    is not text is never read when an extract comes before it, and
    makes [len] raise ([None]) when it comes first. *)
Definition describe (common_name : string)
    (fishbase_data : option fishbase_record)
    (wikipedia_data : option (gmap string string)) : option string :=
  match entry fishbase_data Comments, field wikipedia_data "extract" with
  | Some (JText _), _ | None, _ | Some _, Some _ =>
      build_description common_name (text_entries <$> fishbase_data)
                        wikipedia_data
  | Some _, None => None
  end.

(** [None] is an exception raised while the record is built: by the
    description, or by the size or the weight among the arguments of
    [FishData(...)], which are evaluated in this order.  The aliases,
    the lifespan, the size, the weight, the habitats and the ways to
    eat go to fields the record here leaves out. *)
Definition extract_fish_data (net : network) (species : species_info)
  : option FishData :=
  let fish_id := generate_fish_id (common_name species) in
  let fishbase_data := fetch_fishbase_data net (scientific_name species) in
  let wikipedia_data := fetch_wikipedia_data net (common_name species) in
  text ← describe (common_name species) fishbase_data wikipedia_data;
  let common_aliases :=
    get_aliases (common_name species) (japanese_romaji species) in
  let lifespan := extract_lifespan fishbase_data in
  size ← extract_size fishbase_data;
  weight ← extract_weight fishbase_data;
  let habitats := extract_habitats fishbase_data in
  let ways_to_eat := get_ways_to_eat (common_name species) in
  Some {| id := fish_id;
          unique_name := common_name species;
          description := text;
          fish_scientific_name := scientific_name species;
          japanese_name_romaji := japanese_romaji species;
          sushi_images := get_image_paths fish_id "sushi";
          wild_images := get_image_paths fish_id "natural";
          habitat_map_image :=
            "assets/images/maps/" +:+ fish_id +:+ "_habitat.jpg" |}.

(** The loop of [run_extraction]: a species whose extraction raises is
    reported and skipped. *)
Fixpoint extract_all (extract : species_info -> option FishData)
    (species_list : list species_info) (fish_data_list : list FishData)
    (w : world) : world * list FishData :=
  match species_list with
  | [] => (w, fish_data_list)
  | species :: rest =>
      match extract species with
      | Some fish_data =>
          extract_all extract rest (fish_data_list ++ [fish_data])
                      (emit (Completed (unique_name fish_data)) w)
      | None =>
          extract_all extract rest fish_data_list
                      (emit (Failed (common_name species)) w)
      end
  end.

Record dataset := {
  fish_database : list FishData;
  version : string;
  total_species : Z
}.

Definition generate_json_dataset (fish_list : list FishData) : dataset :=
  {| fish_database := fish_list;
     version := "1.0";
     total_species := Z.of_nat (length fish_list) |}.

(** [extract] stands for [self.extract_fish_data]: the fields left out
    of [FishData] above are computed there too and may raise. *)
Definition run_extraction (extract : species_info -> option FishData)
    (net : network) (pil : pillow) (w : world) : world * dataset :=
  let species_list := get_top_20_fish_species in
  let '(w, fish_data_list) := extract_all extract species_list [] w in
  let w := download_free_images net pil fish_data_list w in
  (w, generate_json_dataset fish_data_list).

(** *** Functions outside the image passes *)

(** [create_basic_placeholders]: the six files of an entity, each written
    only [if not filepath.exists()]. *)
Definition files_to_create (fish_id : string) : list (string * string) :=
  [ ("natural", fish_id +:+ "_natural_1.jpg");
    ("natural", fish_id +:+ "_natural_2.jpg");
    ("sushi", fish_id +:+ "_nigiri.jpg");
    ("sushi", fish_id +:+ "_sashimi.jpg");
    ("maps", fish_id +:+ "_habitat.jpg");
    ("scientific", fish_id +:+ "_diagram.jpg") ].

Fixpoint create_if_absent (items : list (string * string)) (w : world)
  : world :=
  match items with
  | [] => w
  | (folder, filename) :: rest =>
      let filepath := image_path folder filename in
      match files w !! filepath with
      | Some _ => create_if_absent rest w
      | None =>
          create_if_absent rest
            (emit (CreatedPlaceholder filepath)
                  (write filepath (RawBytes minimal_jpeg) w))
      end
  end.

Definition create_basic_placeholders
    (fish_id common_name scientific_name : string) (w : world) : world :=
  create_if_absent (files_to_create fish_id) w.

End FishDataExtractor.

(** ** fix_and_resize_images.py *)

Module ImageFixerResizer.

Import FishDataExtractor.

Definition target_size : Z * Z := (400, 300).

Definition broken_images : list string :=
  [ "natural/red_snapper_natural_2.jpg";
    "scientific/atlantic_mackerel_diagram.jpg";
    "scientific/bluefin_tuna_diagram.jpg";
    "scientific/yellowfin_tuna_diagram.jpg";
    "maps/atlantic_salmon_habitat.jpg";
    "maps/horse_mackerel_habitat.jpg" ].

(** Pillow and the file system as this script meets them:
    - [decode] is what [Image.open] finds in raw bytes (size and mode,
      or [None] when it raises);
    - [resize_raises] says for which images the conversion or the
      resampling raises, before anything is written;
    - [save_raises] says which images the JPEG encoder refuses (a mode
      JPEG cannot hold, such as LA): [save] has then already opened the
      file for writing;
    - [placeholder_raises] says for which paths drawing or saving a
      placeholder raises (for instance a Pillow without [textbbox]). *)
Record pillow := Pillow {
  decode : list byte -> option (Z * Z * string);
  resize_raises : image -> bool;
  save_raises : image -> bool;
  placeholder_raises : string -> bool
}.

(** *** Placeholders *)

Definition white : Z * Z * Z := (255, 255, 255).

(** [add_text_to_image]: the shadow copy, then the text. *)
Definition add_text_to_image (text : string) (color : Z * Z * Z) (p : pixels)
  : pixels :=
  let '(r, g, b) := color in
  Draw (Caption text [r; g; b]) (Draw (Caption text [0; 0; 0; 128]) p).

Definition natural_placeholder (fish_name : string) : image :=
  Image target_size "RGB"
    (add_text_to_image (fish_name +:+ Py.newline +:+ "(Natural Photo)") white
       (Draw (Gradient (70, 130, 180)) (Blank (70, 130, 180)))).

Definition scientific_placeholder (fish_name : string) : image :=
  Image target_size "RGB"
    (add_text_to_image
       (fish_name +:+ Py.newline +:+ "(Scientific Diagram)") white
       (Draw (Line [300; 150; 320; 120] white 2)
          (Draw (Line [100; 150; 80; 120] white 2)
             (Draw (Ellipse [50; 100; 350; 200] None white 3)
                (Blank (147, 112, 219)))))).

Definition map_placeholder (fish_name : string) : image :=
  Image target_size "RGB"
    (add_text_to_image (fish_name +:+ Py.newline +:+ "(Habitat Map)") white
       (Draw (Ellipse [220; 100; 380; 200] (Some (0, 100, 150)) white 1)
          (Draw (Ellipse [20; 50; 180; 150] (Some (0, 100, 150)) white 1)
             (Blank (32, 178, 170))))).

(** Each [create_*_placeholder] draws on a fresh RGB image and ends
    with [img.save(filepath, "JPEG", quality=90)].  Neither the function
    nor [fix_broken_images] has a handler: [None] is an exception raised
    while the placeholder is drawn or saved, and it ends the run. *)
Definition create_natural_placeholder (pil : pillow)
    (filepath fish_name : string) (fs : gmap string file)
  : option (gmap string file) :=
  if placeholder_raises pil filepath then None
  else Some (<[filepath := JpegOf (natural_placeholder fish_name)]> fs).

Definition create_scientific_placeholder (pil : pillow)
    (filepath fish_name : string) (fs : gmap string file)
  : option (gmap string file) :=
  if placeholder_raises pil filepath then None
  else Some (<[filepath := JpegOf (scientific_placeholder fish_name)]> fs).

Definition create_map_placeholder (pil : pillow)
    (filepath fish_name : string) (fs : gmap string file)
  : option (gmap string file) :=
  if placeholder_raises pil filepath then None
  else Some (<[filepath := JpegOf (map_placeholder fish_name)]> fs).

(** [filename.replace(suffix, '').replace('_', ' ').title()] *)
Definition fish_name_of (filename suffix : string) : string :=
  Py.title (Py.replace "_" " " (Py.replace suffix "" filename)).

(** The body of the loop of [fix_broken_images].  [None] is an
    exception: the [IndexError] of [parts[1]] on a name without a slash,
    or one raised by the placeholder function. *)
Definition fix_one (pil : pillow) (broken_image : string)
    (fs : gmap string file) : option (gmap string file) :=
  let image_path := broken_image in
  let parts := Py.split "/" broken_image in
  folder ← parts !! 0%nat;
  filename ← parts !! 1%nat;
  if decide (folder = "natural") then
    create_natural_placeholder pil image_path
      (fish_name_of filename "_natural_2.jpg") fs
  else if decide (folder = "scientific") then
    create_scientific_placeholder pil image_path
      (fish_name_of filename "_diagram.jpg") fs
  else if decide (folder = "maps") then
    create_map_placeholder pil image_path
      (fish_name_of filename "_habitat.jpg") fs
  else Some fs.

Fixpoint fix_each (pil : pillow) (images : list string)
    (fs : gmap string file) : option (gmap string file) :=
  match images with
  | [] => Some fs
  | broken_image :: rest =>
      fs ← fix_one pil broken_image fs; fix_each pil rest fs
  end.

Definition fix_broken_images (pil : pillow) (fs : gmap string file)
  : option (gmap string file) :=
  fix_each pil broken_images fs.

(** *** Replacement downloads *)

Definition download_image_from_url (net : network) (url filepath : string)
    (fs : gmap string file) : gmap string file * bool :=
  match get_image net url with
  | FetchFails => (fs, false)
  | Fetched status content_type content =>
      if status =? 200 then
        let content_type := default "" content_type in
        if Py.contains "image" content_type then
          let fs := <[filepath := RawBytes (received content)]> fs in
          if breaks content then (fs, false) else (fs, true)
        else (fs, false)
      else (fs, false)
  end.

Definition get_wikimedia_image_url (net : network) (file_title : string)
  : option string :=
  match commons_imageinfo net file_title with
  | Fails => None
  | Http status pages =>
      if status =? 200 then first_imageinfo pages else None
  end.

(** [for result in results: if image_url and download(...): return True] *)
Fixpoint try_each (net : network) (filepath : string) (titles : list string)
    (fs : gmap string file) : gmap string file * bool :=
  match titles with
  | [] => (fs, false)
  | file_title :: rest =>
      match usable (get_wikimedia_image_url net file_title) with
      | Some image_url =>
          match download_image_from_url net image_url filepath fs with
          | (fs, true) => (fs, true)
          | (fs, false) => try_each net filepath rest fs
          end
      | None => try_each net filepath rest fs
      end
  end.

Definition try_wikimedia_download (net : network)
    (search_term filepath image_type : string) (fs : gmap string file)
  : gmap string file * bool :=
  let search_term :=
    if decide (image_type = "scientific") then
      search_term +:+ " anatomy diagram"
    else if decide (image_type = "maps") then
      search_term +:+ " distribution habitat map"
    else if decide (image_type = "natural") then
      search_term +:+ " fish"
    else search_term in
  match commons_search net ("filetype:bitmap " +:+ search_term) with
  | Http status (Some titles) =>
      if status =? 200 then try_each net filepath titles fs else (fs, false)
  | _ => (fs, false)
  end.

Definition fish_search_terms : gmap string string :=
  list_to_map
    [ ("red_snapper", "red snapper fish");
      ("atlantic_mackerel", "atlantic mackerel fish anatomy");
      ("bluefin_tuna", "bluefin tuna fish anatomy");
      ("yellowfin_tuna", "yellowfin tuna fish anatomy");
      ("atlantic_salmon", "atlantic salmon habitat distribution");
      ("horse_mackerel", "horse mackerel habitat distribution") ].

(** The body of the loop of [download_better_replacement_images].
    [fish_key] is assigned only for the three known folders; for another
    folder it keeps the value of the previous iteration, and reading it
    unassigned raises.  [None] is an exception. *)
Definition replace_one (net : network) (broken_image : string)
    (previous_key : option string) (fs : gmap string file)
  : option (gmap string file * string) :=
  let parts := Py.split "/" broken_image in
  folder ← parts !! 0%nat;
  filename ← parts !! 1%nat;
  fish_key ←
    (if decide (folder = "natural") then
       Some (Py.replace "_natural_2.jpg" "" filename)
     else if decide (folder = "scientific") then
       Some (Py.replace "_diagram.jpg" "" filename)
     else if decide (folder = "maps") then
       Some (Py.replace "_habitat.jpg" "" filename)
     else previous_key);
  let search_term :=
    default (Py.replace "_" " " fish_key) (fish_search_terms !! fish_key) in
  Some (fst (try_wikimedia_download net search_term broken_image folder fs),
        fish_key).

Fixpoint replace_each (net : network) (images : list string)
    (previous_key : option string) (fs : gmap string file)
  : option (gmap string file) :=
  match images with
  | [] => Some fs
  | broken_image :: rest =>
      '(fs, fish_key) ← replace_one net broken_image previous_key fs;
      replace_each net rest (Some fish_key) fs
  end.

Definition download_better_replacement_images (net : network)
    (fs : gmap string file) : option (gmap string file) :=
  replace_each net broken_images None fs.

(** *** Resizing *)

(** [Image.open]: a JPEG saved by Pillow opens with the size and mode it
    was saved with; an empty file has no format and cannot be opened;
    other raw bytes open as [decode] says. *)
Definition open_image (pil : pillow) (f : file) : option image :=
  match f with
  | JpegOf img => Some img
  | RawBytes [] => None
  | RawBytes data =>
      match decode pil data with
      | Some (dims, m) => Some (Image dims m (FromBytes data))
      | None => None
      end
  end.

(** The [if img.mode in ('RGBA', 'P')] block. *)
Definition to_rgb (img : image) : image :=
  if decide (mode img = "P") then
    Image (size img) "RGB" (ToRGB (raster img))
  else if decide (mode img = "RGBA") then
    Image (size img) "RGB" (PasteOnWhite (raster img))
  else img.

(** [img.resize(self.target_size, Image.Resampling.LANCZOS)] *)
Definition resized (img : image) : image :=
  Image target_size (mode img) (Resample (raster img) target_size).

Inductive message :=
| RESIZED (path : string) (current_size : Z * Z)
| OK (path : string)
| ERROR (path : string).

Record pass := Pass {
  files : gmap string file;
  total_resized : Z;
  messages : list message
}.

(** The body of the loop over the files of a folder.  The whole body is
    inside the [try]: an exception of [Image.open], of the conversion or
    of [resize] leaves the file as it was; [save] opens the file for
    writing, which empties it, before it hands the image to the
    encoder, so an image the encoder refuses leaves the file empty. *)
Definition resize_one (pil : pillow) (st : pass) (image_file : string) : pass :=
  match files st !! image_file with
  | None => st
  | Some f =>
      match open_image pil f with
      | None => Pass (files st) (total_resized st)
                     (messages st ++ [ERROR image_file])
      | Some img =>
          let current_size := size img in
          if decide (current_size ≠ target_size) then
            if resize_raises pil img then
              Pass (files st) (total_resized st)
                   (messages st ++ [ERROR image_file])
            else
              let resized_img := resized (to_rgb img) in
              if save_raises pil resized_img then
                Pass (<[image_file := RawBytes []]> (files st))
                     (total_resized st)
                     (messages st ++ [ERROR image_file])
              else
                Pass (<[image_file := JpegOf resized_img]> (files st))
                     (total_resized st + 1)
                     (messages st ++ [RESIZED image_file current_size])
          else
            Pass (files st) (total_resized st)
                 (messages st ++ [OK image_file])
      end
  end.

(** [folder_path.glob('*.jpg')]: the paths directly under [folder] whose
    name ends in [.jpg].  A folder that does not exist has none. *)
Definition in_folder (folder path : string) : bool :=
  match Py.split "/" path with
  | [d; name] => bool_decide (d = folder) && Py.endswith ".jpg" name
  | _ => false
  end.

Definition glob (fs : gmap string file) (folder : string) : list string :=
  List.filter (in_folder folder) (map fst (map_to_list fs)).

Definition folders : list string := ["natural"; "scientific"; "maps"; "sushi"].

Definition resize_folder (pil : pillow) (st : pass) (folder : string) : pass :=
  foldl (resize_one pil) st (glob (files st) folder).

Definition resize_all_images (pil : pillow) (fs : gmap string file) : pass :=
  foldl (resize_folder pil) (Pass fs 0 []) folders.

(** [None]: one of the first two steps raised and the run stopped. *)
Definition run_fix_and_resize (net : network) (pil : pillow)
    (fs : gmap string file) : option pass :=
  fs ← download_better_replacement_images net fs;
  fs ← fix_broken_images pil fs;
  Some (resize_all_images pil fs).

End ImageFixerResizer.

(** * Vocabulary of the properties *)

(** [replace] on one character. *)
Definition replace_char (a b c : ascii) : ascii :=
  if decide (c = a) then b else c.

(** The character-wise reading of the id: lower-case, then space and
    hyphen become an underscore. *)
Definition id_char (c : ascii) : ascii :=
  let l := Py.lower_char c in
  if decide (l = " "%char) then "_"%char
  else if decide (l = "-"%char) then "_"%char
  else l.

(** The text [build_description] selects before truncation. *)
Definition selected_description (common_name : string)
    (fishbase_data wikipedia_data : option (gmap string string)) : string :=
  match FishDataExtractor.field wikipedia_data "extract" with
  | Some extract => extract
  | None =>
      match FishDataExtractor.field fishbase_data "Comments" with
      | Some comments => comments
      | None =>
          match FishDataExtractor.fallback_descriptions !! common_name with
          | Some text => text
          | None => FishDataExtractor.generic_description
          end
      end
  end.

(** The two checks made before the payload is treated as an image. *)
Definition passes_check (r : FishDataExtractor.fetched) : bool :=
  match r with
  | FishDataExtractor.FetchFails => false
  | FishDataExtractor.Fetched status content_type _ =>
      (status =? 200) && Py.contains "image" (default "" content_type)
  end.

(** An exception is raised inside the [try]: by the request, or by the
    stream once the file is open. *)
Definition raises (r : FishDataExtractor.fetched) : bool :=
  match r with
  | FishDataExtractor.FetchFails => true
  | FishDataExtractor.Fetched _ _ content =>
      passes_check r && FishDataExtractor.breaks content
  end.

(** A JPEG whose stream breaks after the first chunk. *)
Definition truncated_jpeg : FishDataExtractor.fetched :=
  FishDataExtractor.Fetched 200 (Some "image/jpeg")
    (FishDataExtractor.Body [[xff; xd8; xff]] true).

(** A network that answers every image request with [r] and fails every
    other request. *)
Definition always (r : FishDataExtractor.fetched) : FishDataExtractor.network :=
  {| FishDataExtractor.get_image := fun _ => r;
     FishDataExtractor.commons_search := fun _ => FishDataExtractor.Fails;
     FishDataExtractor.commons_imageinfo := fun _ => FishDataExtractor.Fails;
     FishDataExtractor.page_matches := fun _ => FishDataExtractor.Fails;
     FishDataExtractor.gbif_species := fun _ => FishDataExtractor.Fails;
     FishDataExtractor.gbif_occurrences := fun _ => FishDataExtractor.Fails;
     FishDataExtractor.inaturalist_observations :=
       fun _ => FishDataExtractor.Fails;
     FishDataExtractor.fishbase_species := fun _ => FishDataExtractor.Fails;
     FishDataExtractor.wikipedia_summary := fun _ => FishDataExtractor.Fails |}.

(** The same source, with a raise turned into a return of zero. *)
Definition as_zero (s : FishDataExtractor.source) : FishDataExtractor.source :=
  fun fs =>
    match s fs with
    | (fs', FishDataExtractor.Raised) => (fs', FishDataExtractor.Returned 0)
    | r => r
    end.

(** What the loop of [run_extraction] prints for a species. *)
Definition report (extract : FishDataExtractor.species_info ->
                             option FishDataExtractor.FishData)
    (species : FishDataExtractor.species_info) : FishDataExtractor.event :=
  match extract species with
  | Some fish_data =>
      FishDataExtractor.Completed (FishDataExtractor.unique_name fish_data)
  | None => FishDataExtractor.Failed (FishDataExtractor.common_name species)
  end.

(** The calls to [create_type_specific_placeholders] in a trace, as
    (image type, start index, count). *)
Definition calls_of (evs : list FishDataExtractor.event)
  : list (string * Z * Z) :=
  omap (fun e => match e with
                 | FishDataExtractor.CreatingPlaceholders t s c => Some (t, s, c)
                 | _ => None
                 end) evs.

(** The placeholder files reported as created, in order. *)
Definition created_of (evs : list FishDataExtractor.event) : list string :=
  omap (fun e => match e with
                 | FishDataExtractor.CreatedPlaceholder p => Some p
                 | _ => None
                 end) evs.

(** The call owed to one image type: start at the number downloaded, for
    the number missing. *)
Definition shortfall (success_counts : gmap string Z) (item : string * Z)
  : option (string * Z * Z) :=
  let downloaded := default 0 (success_counts !! item.1) in
  if 0 <? item.2 - downloaded
  then Some (item.1, downloaded, item.2 - downloaded)
  else None.

(** The source never reports an image: it returns 0 or raises. *)
Definition returns_zero (s : FishDataExtractor.source) : Prop :=
  forall fs, snd (s fs) = FishDataExtractor.Returned 0 \/
             snd (s fs) = FishDataExtractor.Raised.

(** No placeholder rendering raises (a missing Pillow only selects the
    fallback writer). *)
Definition never_raises (pil : FishDataExtractor.pillow) : Prop :=
  match pil with
  | FishDataExtractor.NotInstalled => True
  | FishDataExtractor.Installed render_raises =>
      forall p, render_raises p = false
  end.

(** The files of a folder. *)
Definition saved_in (folder : string) (fs : gmap string file) : list string :=
  List.filter (String.prefix (folder +:+ "/")) (map fst (map_to_list fs)).

(** A complete JPEG answer, in three chunks of which one is empty. *)
Definition good_jpeg : FishDataExtractor.fetched :=
  FishDataExtractor.Fetched 200 (Some "image/jpeg")
    (FishDataExtractor.Body [[xff; xd8]; []; [xff; xd9]] false).

(** FishBase lists one photo, GBIF one occurrence with a still image,
    Commons answers the searches that mention nigiri or sashimi, and
    every image URL serves a JPEG. *)
Definition overlapping : FishDataExtractor.network :=
  {| FishDataExtractor.get_image := fun _ => good_jpeg;
     FishDataExtractor.commons_search :=
       fun q => if Py.contains "nigiri" q || Py.contains "sashimi" q
                then FishDataExtractor.Http 200 (Some ["File:Maguro.jpg"])
                else FishDataExtractor.Fails;
     FishDataExtractor.commons_imageinfo :=
       fun _ => FishDataExtractor.Http 200
                  [ Some (FishDataExtractor.ImageInfo
                            (Some "https://upload.wikimedia.org/thumb.jpg")
                            None) ];
     FishDataExtractor.page_matches :=
       fun u => if Py.contains "PicturesSummary" u
                then FishDataExtractor.Http 200
                       ["https://www.fishbase.se/photos/a.jpg"]
                else FishDataExtractor.Http 404 [];
     FishDataExtractor.gbif_species :=
       fun _ => FishDataExtractor.Http 200 [Some "2374149"];
     FishDataExtractor.gbif_occurrences :=
       fun _ => FishDataExtractor.Http 200
                  [[ FishDataExtractor.Media (Some "StillImage")
                       (Some "https://api.gbif.org/image/1.jpg") ]];
     FishDataExtractor.inaturalist_observations :=
       fun _ => FishDataExtractor.Fails;
     FishDataExtractor.fishbase_species := fun _ => FishDataExtractor.Fails;
     FishDataExtractor.wikipedia_summary := fun _ => FishDataExtractor.Fails |}.

(** The record [extract_fish_data] builds for the first species. *)
Definition bluefin_tuna : FishDataExtractor.FishData :=
  {| FishDataExtractor.id := "bluefin_tuna";
     FishDataExtractor.unique_name := "Bluefin Tuna";
     FishDataExtractor.description :=
       "Large, powerful fish prized for its rich, fatty flesh. Highly valued in sushi cuisine for its complex flavor profile ranging from lean akami to fatty otoro.";
     FishDataExtractor.fish_scientific_name := "Thunnus thynnus";
     FishDataExtractor.japanese_name_romaji := "Kuro-maguro";
     FishDataExtractor.sushi_images :=
       FishDataExtractor.get_image_paths "bluefin_tuna" "sushi";
     FishDataExtractor.wild_images :=
       FishDataExtractor.get_image_paths "bluefin_tuna" "natural";
     FishDataExtractor.habitat_map_image :=
       "assets/images/maps/bluefin_tuna_habitat.jpg" |}.

Import ImageFixerResizer.

(** A file the resize pass leaves alone: it cannot be opened, or it has
    the target size, or resizing it raises. *)
Definition settled (pil : pillow) (f : file) : Prop :=
  match open_image pil f with
  | None => True
  | Some img => size img = target_size \/ resize_raises pil img = true
  end.

(** The message is a [RESIZED] line for [path]. *)
Definition mentions_resized (path : string) (m : message) : Prop :=
  exists current_size, m = RESIZED path current_size.

(** A Pillow for which every raw file that is not empty decodes as an
    RGB image of size [dims], and nothing raises. *)
Definition readable_as (dims : Z * Z) : pillow :=
  Pillow (fun _ => Some (dims, "RGB")) (fun _ => false) (fun _ => false)
         (fun _ => false).

(** A name of the form folder/file in one of the three folders
    [fix_broken_images] knows. *)
Definition known (broken_image : string) : bool :=
  match Py.split "/" broken_image with
  | folder :: filename :: _ =>
      bool_decide (folder = "natural") || bool_decide (folder = "scientific")
      || bool_decide (folder = "maps")
  | _ => false
  end.

(** The placeholder [fix_broken_images] draws for a listed name. *)
Definition placeholder_for (broken_image : string) : option image :=
  match Py.split "/" broken_image with
  | folder :: filename :: _ =>
      if decide (folder = "natural") then
        Some (natural_placeholder (fish_name_of filename "_natural_2.jpg"))
      else if decide (folder = "scientific") then
        Some (scientific_placeholder (fish_name_of filename "_diagram.jpg"))
      else if decide (folder = "maps") then
        Some (map_placeholder (fish_name_of filename "_habitat.jpg"))
      else None
  | _ => None
  end.

(** Commons finds a file for every search and every URL serves a JPEG. *)
Definition all_found : FishDataExtractor.network :=
  {| FishDataExtractor.get_image := fun _ => good_jpeg;
     FishDataExtractor.commons_search :=
       fun _ => FishDataExtractor.Http 200 (Some ["File:Fish.jpg"]);
     FishDataExtractor.commons_imageinfo :=
       fun _ => FishDataExtractor.Http 200
                  [ Some (FishDataExtractor.ImageInfo
                            (Some "https://upload.wikimedia.org/thumb.jpg")
                            None) ];
     FishDataExtractor.page_matches := fun _ => FishDataExtractor.Fails;
     FishDataExtractor.gbif_species := fun _ => FishDataExtractor.Fails;
     FishDataExtractor.gbif_occurrences := fun _ => FishDataExtractor.Fails;
     FishDataExtractor.inaturalist_observations :=
       fun _ => FishDataExtractor.Fails;
     FishDataExtractor.fishbase_species := fun _ => FishDataExtractor.Fails;
     FishDataExtractor.wikipedia_summary := fun _ => FishDataExtractor.Fails |}.

(** What the download step alone leaves at a path of an empty
    directory. *)
Definition downloaded_at (net : FishDataExtractor.network) (path : string)
  : option file :=
  fs ← download_better_replacement_images net ∅; fs !! path.

(** A download function that keeps the files that exist, reports between
    0 and [bound] images, and has written [path] whenever it reports at
    least one. *)
Definition adapter_ok (path : string) (bound : Z)
    (f : gmap string file -> gmap string file * Z) : Prop :=
  forall fs,
    dom fs ⊆ dom (f fs).1 /\
    0 <= (f fs).2 <= bound /\
    (0 < (f fs).2 -> path ∈ dom (f fs).1).

(** The same for a source closure, which moreover never raises. *)
Definition source_ok (path : string) (bound : Z)
    (s : FishDataExtractor.source) : Prop :=
  forall fs,
    exists n,
      (s fs).2 = FishDataExtractor.Returned n /\
      dom fs ⊆ dom (s fs).1 /\
      0 <= n <= bound /\
      (0 < n -> path ∈ dom (s fs).1).

(** The success counts [download_free_images] hands to the backfill. *)
Definition counts_of (natural scientific maps sushi : Z) : gmap string Z :=
  FishDataExtractor.add_count "sushi" sushi
    (FishDataExtractor.add_count "maps" maps
       (FishDataExtractor.add_count "scientific" scientific
          (FishDataExtractor.add_count "natural" natural
             (list_to_map [ ("natural", 0); ("scientific", 0);
                            ("maps", 0); ("sushi", 0) ])))).

(** Commons finds one file for the plain name only, FishBase lists two
    photos, and every image URL serves a JPEG. *)
Definition overshooting : FishDataExtractor.network :=
  {| FishDataExtractor.get_image := fun _ => good_jpeg;
     FishDataExtractor.commons_search :=
       fun q => if String.eqb q "filetype:bitmap Bluefin Tuna"
                then FishDataExtractor.Http 200 (Some ["File:Maguro.jpg"])
                else FishDataExtractor.Fails;
     FishDataExtractor.commons_imageinfo :=
       fun _ => FishDataExtractor.Http 200
                  [ Some (FishDataExtractor.ImageInfo
                            (Some "https://upload.wikimedia.org/thumb.jpg")
                            None) ];
     FishDataExtractor.page_matches :=
       fun _ => FishDataExtractor.Http 200
                  [ "https://www.fishbase.se/photos/a.jpg";
                    "https://www.fishbase.se/photos/b.jpg";
                    "https://www.fishbase.se/photos/c.jpg" ];
     FishDataExtractor.gbif_species := fun _ => FishDataExtractor.Fails;
     FishDataExtractor.gbif_occurrences := fun _ => FishDataExtractor.Fails;
     FishDataExtractor.inaturalist_observations :=
       fun _ => FishDataExtractor.Fails;
     FishDataExtractor.fishbase_species := fun _ => FishDataExtractor.Fails;
     FishDataExtractor.wikipedia_summary := fun _ => FishDataExtractor.Fails |}.

(** The paths rendered before the first one for which rendering
    raises. *)
Fixpoint until_failure (render_raises : string -> bool) (paths : list string)
  : list string :=
  match paths with
  | [] => []
  | p :: rest =>
      if render_raises p then [] else p :: until_failure render_raises rest
  end.

(** The six paths [create_basic_placeholders] looks at. *)
Definition basic_paths (fish_id : string) : list string :=
  map (fun item => FishDataExtractor.image_path item.1 item.2)
      (FishDataExtractor.files_to_create fish_id).



(** The path is in none of the four folders the resize pass visits. *)
Definition out_of_scope (path : string) : Prop :=
  forall folder, folder ∈ folders -> in_folder folder path = false.

(** A download function that writes nowhere but at the paths [P]. *)
Definition writes_only (P : string -> Prop)
    (f : gmap string file -> gmap string file * Z) : Prop :=
  forall fs p, ~ P p -> (f fs).1 !! p = fs !! p.

(** The same for a source closure. *)
Definition source_writes_only (P : string -> Prop)
    (s : FishDataExtractor.source) : Prop :=
  forall fs p, ~ P p -> (s fs).1 !! p = fs !! p.

(** The target paths of the indices 0, ..., [k - 1] of a category. *)
Definition names_below (fish_id image_type : string) (k : Z) (p : string)
  : Prop :=
  exists i, 0 <= i < k /\
            p = FishDataExtractor.target_path fish_id image_type i.

(** The file names of one entity: the target paths of the indices below
    the target of each of the four categories. *)
Definition own_names (fish_id : string) (p : string) : Prop :=
  exists image_type target_count i,
    (image_type, target_count) ∈ FishDataExtractor.targets /\
    0 <= i < target_count /\
    p = FishDataExtractor.target_path fish_id image_type i.

(** The entry is absent, or a value that can be multiplied by a float. *)
Definition measurable (v : option FishDataExtractor.json) : bool :=
  match v with
  | Some x => FishDataExtractor.times_float x
  | None => true
  end.

(** The description can be read: the comment of FishBase is absent or
    text, or an extract of Wikipedia comes before it. *)
Definition describable
    (fishbase_data : option FishDataExtractor.fishbase_record)
    (wikipedia_data : option (gmap string string)) : bool :=
  match FishDataExtractor.entry fishbase_data FishDataExtractor.Comments with
  | None => true
  | Some (FishDataExtractor.JText _) => true
  | Some _ =>
      bool_decide (is_Some (FishDataExtractor.field wikipedia_data "extract"))
  end.

(** The species whose extraction does not raise: its description can be
    read, and the [Length] and the [Weight] of its FishBase record, if
    any, are measurable. *)
Definition extractable (net : FishDataExtractor.network)
    (species : FishDataExtractor.species_info) : bool :=
  let fishbase_data :=
    FishDataExtractor.fetch_fishbase_data net
      (FishDataExtractor.scientific_name species) in
  let wikipedia_data :=
    FishDataExtractor.fetch_wikipedia_data net
      (FishDataExtractor.common_name species) in
  describable fishbase_data wikipedia_data
  && measurable (FishDataExtractor.entry fishbase_data FishDataExtractor.Length)
  && measurable (FishDataExtractor.entry fishbase_data
                   FishDataExtractor.Weight).




(** The paths of one call of the generator: the indices [start_index] to
    [start_index + count - 1] of the category. *)
Definition call_paths (fish_id : string) (call : string * Z * Z)
  : list string :=
  map (fun i => FishDataExtractor.target_path fish_id call.1.1 (call.1.2 + i))
      (seqZ 0 call.2).

(** The paths one call renders: all of them through the fallback writer
    when Pillow is missing; with Pillow, those before the first one for
    which rendering raises. *)
Definition rendered (pil : FishDataExtractor.pillow) (paths : list string)
  : list string :=
  match pil with
  | FishDataExtractor.NotInstalled => paths
  | FishDataExtractor.Installed render_raises =>
      until_failure render_raises paths
  end.

(** The placeholders owed to an entity: the paths of the calls of the
    backfill, category by category. *)
Definition owed_paths (fish_id : string) (success_counts : gmap string Z)
  : list string :=
  concat (map (call_paths fish_id)
              (omap (shortfall success_counts) FishDataExtractor.targets)).

(** The placeholders the backfill renders. *)
Definition rendered_paths (pil : FishDataExtractor.pillow) (fish_id : string)
    (success_counts : gmap string Z) : list string :=
  concat (map (fun call => rendered pil (call_paths fish_id call))
              (omap (shortfall success_counts) FishDataExtractor.targets)).

(** A Pillow for which every raw file that is not empty decodes as a
    grey image with alpha (mode LA) of 800x600, which the JPEG encoder
    refuses. *)
Definition refusing_alpha : pillow :=
  Pillow (fun _ => Some ((800, 600), "LA")) (fun _ => false)
         (fun img => bool_decide (mode img = "LA")) (fun _ => false).

(** A Pillow that decodes like [readable_as] but raises on every
    placeholder. *)
Definition without_textbbox : pillow :=
  Pillow (fun _ => Some ((800, 600), "RGB")) (fun _ => false)
         (fun _ => false) (fun _ => true).

(** * Properties *)

(** ** String primitives *)

Lemma take_length (n : nat) (s : string) :
  (String.length (Py.take n s) <= n)%nat.
Proof.
  revert s; induction n as [|n IH]; intros [|c s]; simpl; try lia.
  specialize (IH s); lia.
Qed.

Lemma append_length (s t : string) :
  String.length (s +:+ t) = (String.length s + String.length t)%nat.
Proof. induction s as [|c s IH]; simpl; [done | by rewrite IH]. Qed.

Lemma take_all (n : nat) (s : string) :
  (String.length s <= n)%nat -> Py.take n s = s.
Proof.
  revert s; induction n as [|n IH]; intros [|c s]; simpl; intros H;
    try done; try lia.
  f_equal; apply IH; lia.
Qed.

Lemma replace_single (a b : ascii) (s : string) :
  Py.replace (String a "") (String b "") s = Py.map_chars (replace_char a b) s.
Proof.
  unfold Py.replace.
  induction s as [|c s IH]; [done|].
  cbn [Py.replace_from Py.map_chars String.prefix String.length Nat.pred].
  unfold replace_char at 1.
  destruct (ascii_dec a c) as [->|Hne].
  - rewrite decide_True by done.
    destruct s; cbn [String.prefix]; rewrite IH; done.
  - rewrite decide_False by congruence. by rewrite IH.
Qed.

Lemma map_chars_compose (f g : ascii -> ascii) (s : string) :
  Py.map_chars f (Py.map_chars g s) = Py.map_chars (fun c => f (g c)) s.
Proof. induction s as [|c s IH]; simpl; [done | by rewrite IH]. Qed.

Lemma map_chars_ext (f g : ascii -> ascii) (s : string) :
  (forall c, f c = g c) -> Py.map_chars f s = Py.map_chars g s.
Proof. intros H; induction s as [|c s IH]; simpl; [done | by rewrite H, IH]. Qed.

Lemma generate_fish_id_chars (name : string) :
  FishDataExtractor.generate_fish_id name = Py.map_chars id_char name.
Proof.
  unfold FishDataExtractor.generate_fish_id, Py.lower.
  rewrite !(replace_single _ _), !map_chars_compose.
  apply map_chars_ext; intros c. unfold id_char, replace_char.
  repeat case_decide; congruence.
Qed.

Lemma id_char_idem (c : ascii) : id_char (id_char c) = id_char c.
Proof.
  destruct c as [[] [] [] [] [] [] [] []]; vm_compute; reflexivity.
Qed.

(** C5.  The id of an entity is a function of its display name alone:
    every character is lower-cased and every space or hyphen becomes an
    underscore.  "Bluefin Tuna" gives "bluefin_tuna", applying the
    function to its own result changes nothing, and the twenty ids of the
    sample list are pairwise distinct. *)
Theorem generate_fish_id_spec :
  (forall name,
     FishDataExtractor.generate_fish_id name = Py.map_chars id_char name) /\
  FishDataExtractor.generate_fish_id "Bluefin Tuna" = "bluefin_tuna" /\
  (forall name,
     FishDataExtractor.generate_fish_id (FishDataExtractor.generate_fish_id name)
     = FishDataExtractor.generate_fish_id name) /\
  length FishDataExtractor.get_top_20_fish_species = 20%nat /\
  NoDup (map (fun s => FishDataExtractor.generate_fish_id
                         (FishDataExtractor.common_name s))
             FishDataExtractor.get_top_20_fish_species).
Proof.
  split; [apply generate_fish_id_chars|].
  split; [by vm_compute|].
  split.
  { intros name. rewrite !generate_fish_id_chars, map_chars_compose.
    apply map_chars_ext, id_char_idem. }
  split; [done|].
  apply (bool_decide_unpack _). by vm_compute.
Qed.

(** ** Descriptions *)

Lemma take_exact (n : nat) (s : string) :
  (n <= String.length s)%nat -> String.length (Py.take n s) = n.
Proof.
  revert s; induction n as [|n IH]; intros [|c s]; simpl; intros H;
    try done; try lia.
  f_equal; apply IH; lia.
Qed.

Lemma take_is_prefix (n : nat) (s : string) :
  exists rest, s = Py.take n s +:+ rest.
Proof.
  revert s; induction n as [|n IH]; intros [|c s];
    try (by eexists).
  destruct (IH s) as [rest Hrest]. exists rest.
  change (String c s = String c (Py.take n s +:+ rest)). by f_equal.
Qed.

(** C6.  The truncation step of [build_description] returns a description
    of at most 200 characters unchanged; a longer one becomes its first
    200 characters followed by "...", so the result never has more than
    203 characters. *)
Theorem truncate_description_spec (d : string) :
  (Py.len d <= 200 -> FishDataExtractor.truncate_description d = d) /\
  (200 < Py.len d ->
     exists first rest,
       d = first +:+ rest /\ Py.len first = 200 /\
       FishDataExtractor.truncate_description d = first +:+ "..." /\
       Py.len (FishDataExtractor.truncate_description d) = 203) /\
  Py.len (FishDataExtractor.truncate_description d) <= 203.
Proof.
  unfold FishDataExtractor.truncate_description, Py.len.
  split; [|split].
  - intros H. by rewrite (proj2 (Z.ltb_ge _ _)).
  - intros H. rewrite (proj2 (Z.ltb_lt _ _)) by done.
    destruct (take_is_prefix 200 d) as [rest Hrest].
    assert (String.length (Py.take 200 d) = 200%nat) as Hlen
      by (apply take_exact; lia).
    exists (Py.take 200 d), rest.
    rewrite append_length, Hlen. repeat split; done.
  - destruct (Z.ltb_spec 200 (Z.of_nat (String.length d))) as [H|H]; [|lia].
    rewrite append_length. pose proof (take_length 200 d).
    change (String.length "...") with 3%nat. lia.
Qed.

Lemma truncate_description_witness :
  FishDataExtractor.truncate_description "Sake" = "Sake".
Proof.
  apply (proj1 (truncate_description_spec "Sake")). by vm_compute.
Defined.

(** C7, as the claim states it: with both sources answering, the FishBase
    text would be the description.  The code takes the Wikipedia
    extract. *)
Lemma fishbase_first_counterexample :
  ~ (forall common_name fishbase_data wikipedia_data comments extract,
       FishDataExtractor.field fishbase_data "Comments" = Some comments ->
       FishDataExtractor.field wikipedia_data "extract" = Some extract ->
       FishDataExtractor.build_description
         common_name fishbase_data wikipedia_data
       = Some (FishDataExtractor.truncate_description comments)).
Proof.
  intros H.
  specialize (H "Bluefin Tuna"
                (Some {[ "Comments" := "from FishBase" ]})
                (Some {[ "extract" := "from Wikipedia" ]})
                "from FishBase" "from Wikipedia" eq_refl eq_refl).
  vm_compute in H. discriminate H.
Qed.

(** C7, amended.  The description is the truncation of the first text
    found in the order: Wikipedia extract, FishBase comments, static
    per-entity table, generic sentence.  In particular the Wikipedia
    extract is used when both sources answer, and the table and the
    generic sentence are reached only when neither field is present. *)
Theorem build_description_priority
    (common_name : string)
    (fishbase_data wikipedia_data : option (gmap string string)) :
  FishDataExtractor.build_description common_name fishbase_data wikipedia_data
  = Some (FishDataExtractor.truncate_description
            (selected_description common_name fishbase_data wikipedia_data)).
Proof.
  unfold FishDataExtractor.build_description, selected_description.
  destruct (FishDataExtractor.field wikipedia_data "extract") as [w|];
    destruct (FishDataExtractor.field fishbase_data "Comments") as [f|];
    try done.
  cbn [FishDataExtractor.append_if_present].
  destruct (FishDataExtractor.fallback_descriptions !! common_name); done.
Qed.

(** ** download_image_from_url *)

(** C8, as the claim states it: whenever an exception is raised the
    function returns False and nothing is written.  A stream that breaks
    after the file is opened leaves the bytes received so far. *)
Lemma no_file_on_exception_counterexample :
  ~ (forall net url filepath (fs : gmap string file),
       raises (FishDataExtractor.get_image net url) = true ->
       FishDataExtractor.download_image_from_url net url filepath fs
       = (fs, false)).
Proof.
  intros H.
  specialize (H (always truncated_jpeg) "u" "natural/x_natural_1.jpg" ∅ eq_refl).
  apply (f_equal (fun r => fst r !! "natural/x_natural_1.jpg")) in H.
  vm_compute in H. discriminate H.
Qed.

(** C8, amended.  The target path is written exactly when the status is
    200 and the declared content type contains "image": then the file
    holds the non-empty chunks received, and the result is True when the
    stream ended and False when it raised part-way.  In every other case
    (another status, another content type, a request that raises) the
    result is False and the directory is unchanged.  So no path other
    than the target is touched, and the target only after the check. *)
Theorem download_image_from_url_gate
    (net : FishDataExtractor.network) (url filepath : string)
    (fs : gmap string file) :
  let r := FishDataExtractor.get_image net url in
  let res := FishDataExtractor.download_image_from_url net url filepath fs in
  (passes_check r = false -> res = (fs, false)) /\
  (passes_check r = true ->
     exists status content_type content,
       r = FishDataExtractor.Fetched status content_type content /\
       res = (<[filepath := RawBytes (FishDataExtractor.received content)]> fs,
              negb (FishDataExtractor.breaks content))) /\
  (forall p, fst res !! p <> fs !! p -> p = filepath /\ passes_check r = true) /\
  (snd res = true -> passes_check r = true /\ raises r = false).
Proof.
  intros r res. subst r res.
  unfold FishDataExtractor.download_image_from_url, raises, passes_check.
  destruct (FishDataExtractor.get_image net url) as [|status ct content];
    cbn [fst snd].
  { by repeat split. }
  destruct (status =? 200); cbn [andb fst snd].
  2: { by repeat split. }
  destruct (Py.contains "image" (default "" ct)); cbn [fst snd].
  2: { by repeat split. }
  split; [done|]. split.
  { intros _. exists status, ct, content. split; [done|].
    by destruct (FishDataExtractor.breaks content). }
  split.
  - intros p Hp. split; [|done].
    destruct (decide (filepath = p)) as [->|Hne]; [done|].
    destruct (FishDataExtractor.breaks content); cbn [fst] in Hp;
      by rewrite lookup_insert_ne in Hp.
  - destruct (FishDataExtractor.breaks content); cbn [snd]; done.
Qed.

Lemma download_image_from_url_gate_witness :
  FishDataExtractor.download_image_from_url
    (always (FishDataExtractor.Fetched 200 (Some "text/html")
               (FishDataExtractor.Body [[x3c]] false)))
    "u" "maps/x_habitat.jpg" ∅
  = (∅, false).
Proof.
  apply (proj1 (download_image_from_url_gate
                  (always (FishDataExtractor.Fetched 200 (Some "text/html")
                             (FishDataExtractor.Body [[x3c]] false)))
                  "u" "maps/x_habitat.jpg" ∅)).
  reflexivity.
Defined.

(** ** The fallback loop and the extraction loop *)

Lemma run_sources_as_zero (target : Z) (sources : list FishDataExtractor.source) :
  forall (n : Z) (w1 w2 : FishDataExtractor.world),
    FishDataExtractor.files w1 = FishDataExtractor.files w2 ->
    let r1 := FishDataExtractor.run_sources target sources n w1 in
    let r2 := FishDataExtractor.run_sources target (map as_zero sources) n w2 in
    snd r1 = snd r2 /\
    FishDataExtractor.files (fst r1) = FishDataExtractor.files (fst r2) /\
    FishDataExtractor.events (fst r2) = FishDataExtractor.events w2 /\
    exists k, FishDataExtractor.events (fst r1)
              = FishDataExtractor.events w1
                ++ replicate k FishDataExtractor.SourceFailed.
Proof.
  induction sources as [|s rest IH]; intros n w1 w2 Hfiles; cbn zeta.
  { cbn. repeat split; try done. exists 0%nat. by rewrite app_nil_r. }
  cbn [map FishDataExtractor.run_sources].
  destruct (target <=? n).
  { cbn. repeat split; try done. exists 0%nat. by rewrite app_nil_r. }
  rewrite <- Hfiles.
  change (as_zero s (FishDataExtractor.files w1))
    with (match s (FishDataExtractor.files w1) with
          | (fs', FishDataExtractor.Raised) =>
              (fs', FishDataExtractor.Returned 0)
          | r => r
          end).
  destruct (s (FishDataExtractor.files w1)) as [fs' [m|]].
  - apply (IH (n + m) (FishDataExtractor.World fs' (FishDataExtractor.events w1))
              (FishDataExtractor.World fs' (FishDataExtractor.events w2))).
    done.
  - rewrite Z.add_0_r.
    destruct (IH n (FishDataExtractor.emit FishDataExtractor.SourceFailed
                      (FishDataExtractor.World fs' (FishDataExtractor.events w1)))
                 (FishDataExtractor.World fs' (FishDataExtractor.events w2))
                 eq_refl)
      as (Hn & Hf & He & k & Hk).
    repeat split; try done.
    exists (S k). rewrite Hk. cbn. by rewrite <- app_assoc.
Qed.

Lemma extract_all_spec
    (extract : FishDataExtractor.species_info ->
               option FishDataExtractor.FishData)
    (species_list : list FishDataExtractor.species_info) :
  forall (fish_data_list : list FishDataExtractor.FishData)
         (w : FishDataExtractor.world),
    let r := FishDataExtractor.extract_all extract species_list
                                           fish_data_list w in
    snd r = fish_data_list ++ omap extract species_list /\
    FishDataExtractor.events (fst r)
    = FishDataExtractor.events w ++ map (report extract) species_list /\
    FishDataExtractor.files (fst r) = FishDataExtractor.files w.
Proof.
  induction species_list as [|species rest IH]; intros acc w; cbn zeta.
  { cbn. by rewrite !app_nil_r. }
  cbn [FishDataExtractor.extract_all omap list_omap map].
  assert (report extract species
          = match extract species with
            | Some fish_data =>
                FishDataExtractor.Completed
                  (FishDataExtractor.unique_name fish_data)
            | None =>
                FishDataExtractor.Failed
                  (FishDataExtractor.common_name species)
            end) as -> by done.
  destruct (extract species) as [fish_data|].
  - destruct (IH (acc ++ [fish_data])
                 (FishDataExtractor.emit
                    (FishDataExtractor.Completed
                       (FishDataExtractor.unique_name fish_data)) w))
      as (H1 & H2 & H3).
    rewrite H1, H2, H3. cbn. by rewrite <- !app_assoc.
  - destruct (IH acc
                 (FishDataExtractor.emit
                    (FishDataExtractor.Failed
                       (FishDataExtractor.common_name species)) w))
      as (H1 & H2 & H3).
    rewrite H1, H2, H3. cbn. by rewrite <- !app_assoc.
Qed.


(** ** Placeholders *)

Lemma calls_of_app (l1 l2 : list FishDataExtractor.event) :
  calls_of (l1 ++ l2) = calls_of l1 ++ calls_of l2.
Proof. apply omap_app. Qed.

Lemma created_of_app (l1 l2 : list FishDataExtractor.event) :
  created_of (l1 ++ l2) = created_of l1 ++ created_of l2.
Proof. apply omap_app. Qed.

Lemma run_sources_all_zero (target : Z) (sources : list FishDataExtractor.source) :
  Forall returns_zero sources ->
  forall w, snd (FishDataExtractor.run_sources target sources 0 w) = 0.
Proof.
  induction 1 as [|s rest Hs _ IH]; intros w; [done|].
  cbn [FishDataExtractor.run_sources].
  destruct (target <=? 0); [done|].
  specialize (Hs (FishDataExtractor.files w)).
  destruct (s (FishDataExtractor.files w)) as [fs' [n|]]; cbn [snd] in Hs.
  - destruct Hs as [Hs|Hs]; [|done]. injection Hs as ->. apply IH.
  - apply IH.
Qed.

(** The fallback writer: every index is written, with the fixed bytes. *)
Lemma basic_loop_spec (fish_id image_type : string) (start_index : Z)
    (indices : list Z) :
  forall w,
    let w' := FishDataExtractor.basic_loop fish_id image_type start_index
                                           indices w in
    FishDataExtractor.events w'
    = FishDataExtractor.events w
      ++ map (fun i => FishDataExtractor.CreatedPlaceholder
                         (FishDataExtractor.target_path fish_id image_type
                                                        (start_index + i)))
             indices /\
    (forall p, FishDataExtractor.files w !! p
               = Some (RawBytes FishDataExtractor.minimal_jpeg) ->
               FishDataExtractor.files w' !! p
               = Some (RawBytes FishDataExtractor.minimal_jpeg)) /\
    (forall i, i ∈ indices ->
               FishDataExtractor.files w'
                 !! FishDataExtractor.target_path fish_id image_type
                                                  (start_index + i)
               = Some (RawBytes FishDataExtractor.minimal_jpeg)).
Proof.
  induction indices as [|i rest IH]; intros w; cbn zeta.
  { cbn. rewrite app_nil_r. repeat split; try done.
    intros i Hi. by apply elem_of_nil in Hi. }
  cbn [FishDataExtractor.basic_loop map].
  set (p0 := FishDataExtractor.target_path fish_id image_type (start_index + i)).
  set (w1 := FishDataExtractor.emit _ _).
  destruct (IH w1) as (He & Hkeep & Hnew).
  assert (FishDataExtractor.files w1 !! p0
          = Some (RawBytes FishDataExtractor.minimal_jpeg)) as Hp0
    by apply lookup_insert_eq.
  split; [|split].
  - rewrite He. subst w1. cbn. by rewrite <- app_assoc.
  - intros p Hp. apply Hkeep. subst w1. cbn.
    destruct (decide (p0 = p)) as [->|Hne];
      [apply lookup_insert_eq | by rewrite lookup_insert_ne].
  - intros j Hj. apply elem_of_cons in Hj as [->|Hj]; [by apply Hkeep | by apply Hnew].
Qed.

(** The Pillow writer, when no rendering raises. *)
Lemma render_loop_spec (render_raises : string -> bool)
    (fish_id image_type : string) (color : Z * Z * Z) (text : string)
    (start_index : Z) (indices : list Z) :
  (forall p, render_raises p = false) ->
  forall w,
    let content := JpegOf (FishDataExtractor.placeholder_image color text) in
    let w' := FishDataExtractor.render_loop render_raises fish_id image_type
                color text start_index indices w in
    FishDataExtractor.events w'
    = FishDataExtractor.events w
      ++ map (fun i => FishDataExtractor.CreatedPlaceholder
                         (FishDataExtractor.target_path fish_id image_type
                                                        (start_index + i)))
             indices /\
    (forall p, FishDataExtractor.files w !! p = Some content ->
               FishDataExtractor.files w' !! p = Some content) /\
    (forall i, i ∈ indices ->
               FishDataExtractor.files w'
                 !! FishDataExtractor.target_path fish_id image_type
                                                  (start_index + i)
               = Some content).
Proof.
  intros Hok.
  induction indices as [|i rest IH]; intros w; cbn zeta.
  { cbn. rewrite app_nil_r. repeat split; try done.
    intros i Hi. by apply elem_of_nil in Hi. }
  cbn [FishDataExtractor.render_loop map]. rewrite Hok.
  set (p0 := FishDataExtractor.target_path fish_id image_type (start_index + i)).
  set (w1 := FishDataExtractor.emit _ _).
  destruct (IH w1) as (He & Hkeep & Hnew).
  split; [|split].
  - rewrite He. subst w1. cbn. by rewrite <- app_assoc.
  - intros p Hp. apply Hkeep. subst w1. cbn.
    destruct (decide (p0 = p)) as [->|Hne];
      [apply lookup_insert_eq | by rewrite lookup_insert_ne].
  - intros j Hj. apply elem_of_cons in Hj as [->|Hj]; [|by apply Hnew].
    apply Hkeep. subst w1. cbn. apply lookup_insert_eq.
Qed.

(** Whatever Pillow does, the render loop makes no call of its own. *)
Lemma render_loop_calls (render_raises : string -> bool)
    (fish_id image_type : string) (color : Z * Z * Z) (text : string)
    (start_index : Z) (indices : list Z) :
  forall w,
    calls_of (FishDataExtractor.events
                (FishDataExtractor.render_loop render_raises fish_id image_type
                   color text start_index indices w))
    = calls_of (FishDataExtractor.events w).
Proof.
  induction indices as [|i rest IH]; intros w; [done|].
  cbn [FishDataExtractor.render_loop].
  destruct (render_raises _).
  - cbn. rewrite calls_of_app. cbn. by rewrite app_nil_r.
  - rewrite IH. cbn. rewrite calls_of_app. cbn. by rewrite app_nil_r.
Qed.

Lemma create_type_specific_placeholders_calls (pil : FishDataExtractor.pillow)
    (fish_id common_name scientific_name image_type : string)
    (start_index count : Z) (w : FishDataExtractor.world) :
  calls_of (FishDataExtractor.events
              (FishDataExtractor.create_type_specific_placeholders pil fish_id
                 common_name scientific_name image_type start_index count w))
  = calls_of (FishDataExtractor.events w) ++ [(image_type, start_index, count)].
Proof.
  unfold FishDataExtractor.create_type_specific_placeholders.
  destruct pil as [|render_raises].
  - unfold FishDataExtractor.create_basic_type_placeholders.
    destruct (basic_loop_spec fish_id image_type start_index
                (FishDataExtractor.range count)
                (FishDataExtractor.emit
                   (FishDataExtractor.CreatingPlaceholders image_type
                      start_index count) w)) as (He & _).
    rewrite He, calls_of_app. cbn [FishDataExtractor.emit FishDataExtractor.events].
    rewrite calls_of_app.
    assert (forall l : list Z,
              calls_of (map (fun i => FishDataExtractor.CreatedPlaceholder
                               (FishDataExtractor.target_path fish_id image_type
                                  (start_index + i))) l) = []) as ->
      by (induction l; done).
    by rewrite app_nil_r.
  - rewrite render_loop_calls. cbn [FishDataExtractor.emit FishDataExtractor.events].
    by rewrite calls_of_app.
Qed.

Lemma missing_loop_calls (pil : FishDataExtractor.pillow)
    (fish_id common_name scientific_name : string)
    (success_counts : gmap string Z) (items : list (string * Z)) :
  forall w,
    calls_of (FishDataExtractor.events
                (FishDataExtractor.missing_loop pil fish_id common_name
                   scientific_name success_counts items w))
    = calls_of (FishDataExtractor.events w)
      ++ omap (shortfall success_counts) items.
Proof.
  induction items as [|[image_type target_count] rest IH]; intros w.
  { cbn. by rewrite app_nil_r. }
  cbn [FishDataExtractor.missing_loop omap list_omap].
  rewrite IH. unfold shortfall at 2. cbn [fst snd].
  destruct (0 <? target_count - default 0 (success_counts !! image_type)).
  - rewrite create_type_specific_placeholders_calls. by rewrite <- app_assoc.
  - done.
Qed.

Lemma natural_path (fish_id : string) (index : Z) :
  FishDataExtractor.target_path fish_id "natural" index
  = "natural/" +:+ fish_id +:+ "_natural_"
      +:+ Py.str_of_int (index + 1) +:+ ".jpg".
Proof. reflexivity. Qed.

Lemma sushi_path (fish_id : string) (index : Z) :
  FishDataExtractor.target_path fish_id "sushi" index
  = "sushi/" +:+ fish_id +:+ "_"
      +:+ (if index =? 0 then "nigiri" else "sashimi") +:+ ".jpg".
Proof. reflexivity. Qed.

(** Within a category, the names given to indices below the number
    downloaded differ from those given to the indices from that number up
    to the target. *)
Lemma placeholder_names_fresh (fish_id image_type : string)
    (target_count downloaded i j : Z) :
  (image_type, target_count) ∈ FishDataExtractor.targets ->
  0 <= i < downloaded -> downloaded <= j < target_count ->
  FishDataExtractor.target_path fish_id image_type i
  <> FishDataExtractor.target_path fish_id image_type j.
Proof.
  intros Hin Hi Hj. unfold FishDataExtractor.targets in Hin.
  repeat (apply elem_of_cons in Hin as [Hin|Hin]; [injection Hin as -> ->|]);
    try (by apply elem_of_nil in Hin); try lia.
  - assert (i = 0) as -> by lia. assert (j = 1) as -> by lia.
    rewrite !natural_path. intros Heq.
    do 3 apply (inj (String.app _)) in Heq. discriminate Heq.
  - assert (i = 0) as -> by lia. assert (j = 1) as -> by lia.
    rewrite !sushi_path. intros Heq.
    do 3 apply (inj (String.app _)) in Heq. discriminate Heq.
Qed.

Lemma elem_of_range (count i : Z) :
  i ∈ FishDataExtractor.range count <-> 0 <= i < count.
Proof. unfold FishDataExtractor.range. rewrite elem_of_seqZ. lia. Qed.

(** When nothing raises, a call for [count] placeholders from
    [start_index] creates the files of the indices [start_index],
    ..., [start_index + count - 1], in that order. *)
Lemma create_type_specific_placeholders_creates
    (pil : FishDataExtractor.pillow)
    (fish_id common_name scientific_name image_type : string)
    (start_index count : Z) (w : FishDataExtractor.world) :
  never_raises pil ->
  let w' := FishDataExtractor.create_type_specific_placeholders pil fish_id
              common_name scientific_name image_type start_index count w in
  created_of (FishDataExtractor.events w')
  = created_of (FishDataExtractor.events w)
    ++ map (fun i => FishDataExtractor.target_path fish_id image_type
                       (start_index + i)) (seqZ 0 count) /\
  (forall i, 0 <= i < count ->
             is_Some (FishDataExtractor.files w'
                        !! FishDataExtractor.target_path fish_id image_type
                                                         (start_index + i))).
Proof.
  intros Hok. cbn zeta.
  assert (forall l : list Z,
            created_of (map (fun i => FishDataExtractor.CreatedPlaceholder
                               (FishDataExtractor.target_path fish_id image_type
                                  (start_index + i))) l)
            = map (fun i => FishDataExtractor.target_path fish_id image_type
                              (start_index + i)) l) as Hmap.
  { induction l as [|x l IHl]; [done|]. cbn. f_equal. apply IHl. }
  unfold FishDataExtractor.create_type_specific_placeholders.
  destruct pil as [|render_raises].
  - unfold FishDataExtractor.create_basic_type_placeholders.
    destruct (basic_loop_spec fish_id image_type start_index
                (FishDataExtractor.range count)
                (FishDataExtractor.emit
                   (FishDataExtractor.CreatingPlaceholders image_type
                      start_index count) w)) as (He & _ & Hnew).
    split.
    + rewrite He, created_of_app, Hmap.
      cbn [FishDataExtractor.emit FishDataExtractor.events].
      rewrite created_of_app. cbn. by rewrite app_nil_r.
    + intros i Hi. rewrite Hnew; [done | by apply elem_of_range].
  - destruct (render_loop_spec render_raises fish_id image_type
                (default (128, 128, 128)
                         (FishDataExtractor.color_map !! image_type))
                (default common_name
                         (FishDataExtractor.text_map common_name scientific_name
                            !! image_type))
                start_index (FishDataExtractor.range count) Hok
                (FishDataExtractor.emit
                   (FishDataExtractor.CreatingPlaceholders image_type
                      start_index count) w)) as (He & _ & Hnew).
    split.
    + rewrite He, created_of_app, Hmap.
      cbn [FishDataExtractor.emit FishDataExtractor.events].
      rewrite created_of_app. cbn. by rewrite app_nil_r.
    + intros i Hi. rewrite Hnew; [done | by apply elem_of_range].
Qed.


(** C4.  With Pillow installed, an exception raised while the first
    requested placeholder is drawn or saved is caught by the general
    handler, which only prints: the call returns with the images
    directory as it was, so a requested path that did not exist still
    does not.  (The [ImportError] handler, and the general handler of
    [create_enhanced_placeholders], write the fixed bytes instead.) *)
Theorem render_failure_leaves_no_file
    (render_raises : string -> bool)
    (fish_id common_name scientific_name image_type : string)
    (start_index count : Z) (w : FishDataExtractor.world) :
  0 < count ->
  render_raises (FishDataExtractor.target_path fish_id image_type start_index)
  = true ->
  let w' := FishDataExtractor.create_type_specific_placeholders
              (FishDataExtractor.Installed render_raises) fish_id common_name
              scientific_name image_type start_index count w in
  FishDataExtractor.files w' = FishDataExtractor.files w /\
  FishDataExtractor.events w'
  = FishDataExtractor.events w
    ++ [ FishDataExtractor.CreatingPlaceholders image_type start_index count;
         FishDataExtractor.ErrorCreatingPlaceholders ].
Proof.
  intros Hcount Hraises. cbn zeta.
  unfold FishDataExtractor.create_type_specific_placeholders,
    FishDataExtractor.range.
  rewrite seqZ_cons by lia.
  cbn [FishDataExtractor.render_loop].
  rewrite Z.add_0_r, Hraises. cbn. by rewrite <- app_assoc.
Qed.

Lemma render_failure_leaves_no_file_witness :
  let w' := FishDataExtractor.create_type_specific_placeholders
              (FishDataExtractor.Installed (fun _ => true))
              "bluefin_tuna" "Bluefin Tuna" "Thunnus thynnus" "natural" 0 2
              (FishDataExtractor.World ∅ []) in
  FishDataExtractor.files w' !! "natural/bluefin_tuna_natural_1.jpg" = None /\
  FishDataExtractor.files w' !! "natural/bluefin_tuna_natural_2.jpg" = None.
Proof.
  cbn zeta.
  rewrite (proj1 (render_failure_leaves_no_file (fun _ => true)
                    "bluefin_tuna" "Bluefin Tuna" "Thunnus thynnus" "natural"
                    0 2 (FishDataExtractor.World ∅ [])
                    ltac:(lia) eq_refl)).
  split; reflexivity.
Defined.

(** C3.  A source that raises is handled like one that returns zero: the
    loop goes on with the next source, and the count and the files at the
    end are those of the run in which every raise is a return of zero;
    only the warnings differ.  In [run_extraction] a species whose
    extraction raises is reported as failed and left out of the
    collection, and the species after it are still processed, in
    order.  Whatever Pillow does while placeholders are rendered, the
    backfill still reaches every category that is short. *)
Theorem failures_do_not_abort :
  (forall target s rest n w,
     n < target ->
     snd (s (FishDataExtractor.files w)) = FishDataExtractor.Raised ->
     FishDataExtractor.run_sources target (s :: rest) n w
     = FishDataExtractor.run_sources target rest n
         (FishDataExtractor.emit FishDataExtractor.SourceFailed
            (FishDataExtractor.World (fst (s (FishDataExtractor.files w)))
                                     (FishDataExtractor.events w)))) /\
  (forall target sources n w,
     let r1 := FishDataExtractor.run_sources target sources n w in
     let r2 := FishDataExtractor.run_sources target (map as_zero sources) n w in
     snd r1 = snd r2 /\
     FishDataExtractor.files (fst r1) = FishDataExtractor.files (fst r2) /\
     FishDataExtractor.events (fst r2) = FishDataExtractor.events w /\
     exists k, FishDataExtractor.events (fst r1)
               = FishDataExtractor.events w
                 ++ replicate k FishDataExtractor.SourceFailed) /\
  (forall extract species_list w,
     let r := FishDataExtractor.extract_all extract species_list [] w in
     snd r = omap extract species_list /\
     FishDataExtractor.events (fst r)
     = FishDataExtractor.events w ++ map (report extract) species_list) /\
  (forall extract net pil w,
     let d := snd (FishDataExtractor.run_extraction extract net pil w) in
     FishDataExtractor.fish_database d
     = omap extract FishDataExtractor.get_top_20_fish_species /\
     FishDataExtractor.total_species d
     = Z.of_nat (length (omap extract
                           FishDataExtractor.get_top_20_fish_species))) /\
  (forall pil fish_id common_name scientific_name success_counts w,
     calls_of (FishDataExtractor.events
                 (FishDataExtractor.create_missing_placeholders pil fish_id
                    common_name scientific_name success_counts w))
     = calls_of (FishDataExtractor.events w)
       ++ omap (shortfall success_counts) FishDataExtractor.targets).
Proof.
  split; [|split; [|split; [|split]]].
  - intros target s rest n w Hn Hs.
    cbn [FishDataExtractor.run_sources].
    rewrite (proj2 (Z.leb_gt _ _)) by lia.
    destruct (s (FishDataExtractor.files w)) as [fs' o]; cbn in Hs |- *.
    by subst o.
  - intros target sources n w. by apply run_sources_as_zero.
  - intros extract species_list w; cbn zeta.
    destruct (extract_all_spec extract species_list [] w) as (H1 & H2 & _).
    by rewrite H1, H2.
  - intros extract net pil w. unfold FishDataExtractor.run_extraction.
    generalize FishDataExtractor.get_top_20_fish_species.
    intros species_list.
    pose proof (extract_all_spec extract species_list [] w) as (H1 & _).
    destruct (FishDataExtractor.extract_all extract species_list [] w)
      as [w' l].
    cbn [snd app] in H1. subst l.
    cbn [snd FishDataExtractor.generate_json_dataset
         FishDataExtractor.fish_database FishDataExtractor.total_species].
    split; reflexivity.
  - intros. apply missing_loop_calls.
Qed.

(** A source that raises, followed by one that reports one image. *)
Lemma failures_do_not_abort_witness :
  FishDataExtractor.run_sources 2
    [ (fun fs => (fs, FishDataExtractor.Raised));
      (fun fs => (fs, FishDataExtractor.Returned 1)) ] 0
    (FishDataExtractor.World ∅ [])
  = (FishDataExtractor.World ∅ [FishDataExtractor.SourceFailed], 1).
Proof.
  rewrite (proj1 failures_do_not_abort 2
             (fun fs => (fs, FishDataExtractor.Raised))
             [fun fs => (fs, FishDataExtractor.Returned 1)] 0
             (FishDataExtractor.World ∅ [])); [reflexivity | lia | reflexivity].
Defined.

Lemma bluefin_tuna_extracted :
  FishDataExtractor.extract_fish_data overlapping
    (FishDataExtractor.Species "Bluefin Tuna" "Thunnus thynnus" "Kuro-maguro")
  = Some bluefin_tuna.
Proof. vm_compute. reflexivity. Qed.

(** C1.  A network in which FishBase lists one photo, GBIF has one
    occurrence with a still image, Wikimedia Commons answers the nigiri
    and the sashimi searches, and every image URL serves a JPEG.
    The natural count reaches 2 and the sushi count reaches 2, so no
    placeholder is made for either; but both natural downloads were named
    with index 0 and both sushi downloads too, so each folder holds one
    file where the record lists two. *)
Theorem overlapping_sources_leave_gaps :
  let r := FishDataExtractor.download_images_for overlapping
             (FishDataExtractor.Installed (fun _ => false)) bluefin_tuna
             (FishDataExtractor.World ∅ []) in
  r.2 !! "natural" = Some 2 /\
  r.2 !! "sushi" = Some 2 /\
  calls_of (FishDataExtractor.events r.1) = [("scientific", 0, 1)] /\
  saved_in "natural" (FishDataExtractor.files r.1)
  = ["natural/bluefin_tuna_natural_1.jpg"] /\
  saved_in "sushi" (FishDataExtractor.files r.1)
  = ["sushi/bluefin_tuna_nigiri.jpg"] /\
  FishDataExtractor.files r.1 !! "natural/bluefin_tuna_natural_2.jpg" = None /\
  FishDataExtractor.files r.1 !! "sushi/bluefin_tuna_sashimi.jpg" = None /\
  FishDataExtractor.wild_images bluefin_tuna
  = [ "assets/images/natural/bluefin_tuna_natural_1.jpg";
      "assets/images/natural/bluefin_tuna_natural_2.jpg" ] /\
  FishDataExtractor.sushi_images bluefin_tuna
  = [ "assets/images/sushi/bluefin_tuna_nigiri.jpg";
      "assets/images/sushi/bluefin_tuna_sashimi.jpg" ].
Proof. vm_compute. repeat split. Qed.

(** ** Resizing *)

Lemma elem_of_glob (fs : gmap string file) (folder path : string) :
  path ∈ glob fs folder <->
  in_folder folder path = true /\ is_Some (fs !! path).
Proof.
  unfold glob. rewrite list_elem_of_In, filter_In, <- list_elem_of_In.
  rewrite list_elem_of_fmap. split.
  - intros [[[p f] [-> Hin]] Hf]. split; [done|].
    apply elem_of_map_to_list in Hin. by exists f.
  - intros [Hf [f Hlook]]. split; [|done].
    exists (path, f). split; [done|]. by apply elem_of_map_to_list.
Qed.

(** One step keeps every file that already has the target size, and
    reports no resize for it. *)
Lemma resize_one_keeps (pil : pillow) (st : pass) (q p : string)
    (f : file) (img : image) :
  open_image pil f = Some img -> size img = target_size ->
  files st !! p = Some f ->
  Forall (fun m => ~ mentions_resized p m) (messages st) ->
  files (resize_one pil st q) !! p = Some f /\
  Forall (fun m => ~ mentions_resized p m) (messages (resize_one pil st q)).
Proof.
  intros Hopen Hsize Hp Hmsg. unfold resize_one.
  destruct (files st !! q) as [g|] eqn:Hq; [|done].
  destruct (open_image pil g) as [img'|] eqn:Hg; cbn.
  2: { split; [done|]. apply Forall_app. split; [done|].
       constructor; [|done]. intros [sz Hsz]. discriminate Hsz. }
  case_decide as Hne;
    [destruct (resize_raises pil img');
     [|destruct (save_raises pil (resized (to_rgb img')))]|]; cbn.
  - split; [done|]. apply Forall_app. split; [done|].
    constructor; [|done]. intros [sz Hsz]. discriminate Hsz.
  - destruct (decide (q = p)) as [->|Hqp].
    + rewrite Hp in Hq. injection Hq as <-. rewrite Hopen in Hg.
      injection Hg as <-. done.
    + split; [by rewrite lookup_insert_ne|].
      apply Forall_app. split; [done|].
      constructor; [|done]. intros [sz Hsz]. discriminate Hsz.
  - destruct (decide (q = p)) as [->|Hqp].
    + rewrite Hp in Hq. injection Hq as <-. rewrite Hopen in Hg.
      injection Hg as <-. done.
    + split; [by rewrite lookup_insert_ne|].
      apply Forall_app. split; [done|].
      constructor; [|done]. intros [sz Hsz]. injection Hsz as -> _. done.
  - split; [done|]. apply Forall_app. split; [done|].
    constructor; [|done]. intros [sz Hsz]. discriminate Hsz.
Qed.

Lemma resize_paths_keep (pil : pillow) (p : string) (f : file) (img : image)
    (paths : list string) :
  open_image pil f = Some img -> size img = target_size ->
  forall st,
    files st !! p = Some f ->
    Forall (fun m => ~ mentions_resized p m) (messages st) ->
    files (foldl (resize_one pil) st paths) !! p = Some f /\
    Forall (fun m => ~ mentions_resized p m)
           (messages (foldl (resize_one pil) st paths)).
Proof.
  intros Hopen Hsize.
  induction paths as [|q rest IH]; intros st Hp Hmsg; [done|].
  cbn [foldl].
  destruct (resize_one_keeps pil st q p f img Hopen Hsize Hp Hmsg) as [H1 H2].
  by apply IH.
Qed.

Lemma resize_folders_keep (pil : pillow) (p : string) (f : file) (img : image)
    (dirs : list string) :
  open_image pil f = Some img -> size img = target_size ->
  forall st,
    files st !! p = Some f ->
    Forall (fun m => ~ mentions_resized p m) (messages st) ->
    files (foldl (resize_folder pil) st dirs) !! p = Some f /\
    Forall (fun m => ~ mentions_resized p m)
           (messages (foldl (resize_folder pil) st dirs)).
Proof.
  intros Hopen Hsize.
  induction dirs as [|d rest IH]; intros st Hp Hmsg; [done|].
  cbn [foldl]. unfold resize_folder at 2 4.
  destruct (resize_paths_keep pil p f img (glob (files st) d) Hopen Hsize
              st Hp Hmsg) as [H1 H2].
  by apply IH.
Qed.

(** One step on a settled file changes neither the files nor the
    count. *)
Lemma resize_one_settled (pil : pillow) (st : pass) (q : string) :
  (forall f, files st !! q = Some f -> settled pil f) ->
  files (resize_one pil st q) = files st /\
  total_resized (resize_one pil st q) = total_resized st.
Proof.
  intros Hq. unfold resize_one.
  destruct (files st !! q) as [f|]; [|done].
  specialize (Hq f eq_refl). unfold settled in Hq.
  destruct (open_image pil f) as [img|]; [|done].
  case_decide as Hne; [|done].
  destruct Hq as [Hq|Hq]; [done|]. by rewrite Hq.
Qed.

Lemma resize_paths_settled (pil : pillow) (paths : list string) :
  forall st,
    (forall q f, q ∈ paths -> files st !! q = Some f -> settled pil f) ->
    files (foldl (resize_one pil) st paths) = files st /\
    total_resized (foldl (resize_one pil) st paths) = total_resized st.
Proof.
  induction paths as [|q rest IH]; intros st Hall; [done|].
  cbn [foldl].
  destruct (resize_one_settled pil st q) as [Hf Ht].
  { intros f. apply Hall. by left. }
  destruct (IH (resize_one pil st q)) as [Hf' Ht'].
  { intros q' f Hq'. rewrite Hf. apply Hall. by right. }
  split; congruence.
Qed.

Lemma resize_folders_settled (pil : pillow) (dirs : list string) :
  forall st,
    (forall d q f, d ∈ dirs -> in_folder d q = true ->
                   files st !! q = Some f -> settled pil f) ->
    files (foldl (resize_folder pil) st dirs) = files st /\
    total_resized (foldl (resize_folder pil) st dirs) = total_resized st.
Proof.
  induction dirs as [|d rest IH]; intros st Hall; [done|].
  cbn [foldl].
  destruct (resize_paths_settled pil (glob (files st) d) st) as [Hf Ht].
  { intros q f Hq. apply elem_of_glob in Hq as [Hq _].
    apply (Hall d); [by left | done]. }
  fold (resize_folder pil st d) in Hf, Ht.
  destruct (IH (resize_folder pil st d)) as [Hf' Ht'].
  { intros d' q f Hd'. rewrite Hf. apply Hall. by right. }
  split; congruence.
Qed.

(** One step leaves a settled file at the path it visits, keeps settled
    files elsewhere, and keeps the set of paths. *)
Lemma resize_one_settles (pil : pillow) (st : pass) (q : string) :
  (forall f, files (resize_one pil st q) !! q = Some f -> settled pil f) /\
  (forall p f, files st !! p = Some f -> settled pil f ->
               files (resize_one pil st q) !! p = Some f) /\
  (forall p, is_Some (files (resize_one pil st q) !! p)
             <-> is_Some (files st !! p)).
Proof.
  unfold resize_one.
  destruct (files st !! q) as [g|] eqn:Hq.
  2: { repeat split; try done. intros f Hf. congruence. }
  destruct (open_image pil g) as [img|] eqn:Hg; cbn.
  2: { repeat split; try done. intros f Hf. unfold settled.
       assert (f = g) as -> by congruence. by rewrite Hg. }
  case_decide as Hne;
    [destruct (resize_raises pil img) eqn:Hr;
     [|destruct (save_raises pil (resized (to_rgb img)))]|]; cbn.
  - repeat split; try done. intros f Hf. unfold settled.
    assert (f = g) as -> by congruence. rewrite Hg. by right.
  - split; [|split].
    + intros f Hf. rewrite lookup_insert_eq in Hf. by injection Hf as <-.
    + intros p f Hp Hs. destruct (decide (q = p)) as [->|Hqp];
        [|by rewrite lookup_insert_ne].
      exfalso. unfold settled in Hs.
      assert (f = g) as -> by congruence. rewrite Hg in Hs.
      destruct Hs as [Hs|Hs]; [done | congruence].
    + intros p. destruct (decide (q = p)) as [->|Hqp].
      * rewrite lookup_insert_eq, Hq. split; eauto.
      * by rewrite lookup_insert_ne.
  - split; [|split].
    + intros f Hf. rewrite lookup_insert_eq in Hf. injection Hf as <-.
      unfold settled. cbn. by left.
    + intros p f Hp Hs. destruct (decide (q = p)) as [->|Hqp];
        [|by rewrite lookup_insert_ne].
      exfalso. unfold settled in Hs.
      assert (f = g) as -> by congruence. rewrite Hg in Hs.
      destruct Hs as [Hs|Hs]; [done | congruence].
    + intros p. destruct (decide (q = p)) as [->|Hqp].
      * rewrite lookup_insert_eq, Hq. split; eauto.
      * by rewrite lookup_insert_ne.
  - repeat split; try done. intros f Hf. unfold settled.
    assert (f = g) as -> by congruence. rewrite Hg. left.
    by destruct (decide (size img = target_size)).
Qed.

Lemma resize_paths_settle (pil : pillow) (paths : list string) :
  forall st,
    let st' := foldl (resize_one pil) st paths in
    (forall q f, q ∈ paths -> files st' !! q = Some f -> settled pil f) /\
    (forall p f, files st !! p = Some f -> settled pil f ->
                 files st' !! p = Some f) /\
    (forall p, is_Some (files st' !! p) <-> is_Some (files st !! p)).
Proof.
  induction paths as [|q rest IH]; intros st; cbn zeta.
  { cbn. repeat split; try done. intros q f Hq. by apply elem_of_nil in Hq. }
  cbn [foldl].
  destruct (resize_one_settles pil st q) as (Hnew & Hkeep & Hdom).
  destruct (IH (resize_one pil st q)) as (Hnew' & Hkeep' & Hdom').
  split; [|split].
  - intros q' f Hq' Hf. apply elem_of_cons in Hq' as [->|Hq'].
    + destruct (proj1 (Hdom' q) (ex_intro _ f Hf)) as [g Hg].
      pose proof (Hnew g Hg) as Hs.
      rewrite (Hkeep' q g Hg Hs) in Hf. by injection Hf as <-.
    + by apply (Hnew' q').
  - intros p f Hp Hs. apply Hkeep'; [by apply Hkeep | done].
  - intros p. by rewrite Hdom', Hdom.
Qed.

Lemma resize_folders_settle (pil : pillow) (dirs : list string) :
  forall st,
    let st' := foldl (resize_folder pil) st dirs in
    (forall d q f, d ∈ dirs -> in_folder d q = true ->
                   files st' !! q = Some f -> settled pil f) /\
    (forall p f, files st !! p = Some f -> settled pil f ->
                 files st' !! p = Some f) /\
    (forall p, is_Some (files st' !! p) <-> is_Some (files st !! p)).
Proof.
  induction dirs as [|d rest IH]; intros st; cbn zeta.
  { cbn. repeat split; try done. intros d q f Hd. by apply elem_of_nil in Hd. }
  cbn [foldl].
  destruct (resize_paths_settle pil (glob (files st) d) st)
    as (Hnew & Hkeep & Hdom).
  fold (resize_folder pil st d) in Hnew, Hkeep, Hdom.
  destruct (IH (resize_folder pil st d)) as (Hnew' & Hkeep' & Hdom').
  split; [|split].
  - intros d' q f Hd' Hin Hf. apply elem_of_cons in Hd' as [->|Hd'].
    + destruct (proj1 (Hdom' q) (ex_intro _ f Hf)) as [g Hg].
      assert (q ∈ glob (files st) d) as Hq.
      { apply elem_of_glob. split; [done|]. apply Hdom. by exists g. }
      pose proof (Hnew q g Hq Hg) as Hs.
      rewrite (Hkeep' q g Hg Hs) in Hf. by injection Hf as <-.
    + by apply (Hnew' d' q).
  - intros p f Hp Hs. apply Hkeep'; [by apply Hkeep | done].
  - intros p. by rewrite Hdom', Hdom.
Qed.

(** C9.  An image that already measures 400x300 is left as it is by
    [resize_all_images], and no resize is reported for it.  After one
    pass, a second pass changes no file and resizes nothing. *)
Theorem resize_is_idempotent (pil : pillow) (fs : gmap string file) :
  (forall p f img,
     fs !! p = Some f -> open_image pil f = Some img ->
     size img = (400, 300) ->
     files (resize_all_images pil fs) !! p = Some f /\
     Forall (fun m => ~ mentions_resized p m)
            (messages (resize_all_images pil fs))) /\
  files (resize_all_images pil (files (resize_all_images pil fs)))
  = files (resize_all_images pil fs) /\
  total_resized (resize_all_images pil (files (resize_all_images pil fs))) = 0.
Proof.
  split.
  - intros p f img Hp Hopen Hsize. unfold resize_all_images.
    by apply (resize_folders_keep pil p f img folders Hopen Hsize).
  - destruct (resize_folders_settle pil folders (Pass fs 0 []))
      as (Hsettled & _ & _).
    fold (resize_all_images pil fs) in Hsettled.
    apply (resize_folders_settled pil folders
             (Pass (files (resize_all_images pil fs)) 0 [])).
    intros d q f Hd Hin Hf. by apply (Hsettled d q).
Qed.

Lemma resize_is_idempotent_witness :
  files (resize_all_images (readable_as (400, 300))
           {[ "maps/bluefin_tuna_habitat.jpg" := RawBytes [xff; xd8] ]})
    !! "maps/bluefin_tuna_habitat.jpg"
  = Some (RawBytes [xff; xd8]).
Proof.
  apply (proj1 (resize_is_idempotent (readable_as (400, 300))
                  {[ "maps/bluefin_tuna_habitat.jpg" := RawBytes [xff; xd8] ]})
               "maps/bluefin_tuna_habitat.jpg" (RawBytes [xff; xd8])
               (Image (400, 300) "RGB" (FromBytes [xff; xd8]))).
  - reflexivity.
  - reflexivity.
  - reflexivity.
Defined.

Example resize_example :
  let fs : gmap string file :=
    {[ "maps/bluefin_tuna_habitat.jpg" := RawBytes [xff; xd8];
       "notes/readme.jpg" := RawBytes [x00] ]} in
  let first := resize_all_images (readable_as (800, 600)) fs in
  let second := resize_all_images (readable_as (800, 600)) (files first) in
  files first !! "maps/bluefin_tuna_habitat.jpg"
  = Some (JpegOf (Image (400, 300) "RGB"
                    (Resample (FromBytes [xff; xd8]) (400, 300)))) /\
  files first !! "notes/readme.jpg" = Some (RawBytes [x00]) /\
  total_resized first = 1 /\
  messages first = [RESIZED "maps/bluefin_tuna_habitat.jpg" (800, 600)] /\
  messages second = [OK "maps/bluefin_tuna_habitat.jpg"].
Proof. vm_compute. repeat split. Qed.

(** A grey image with alpha of another size: it is resized, the JPEG
    encoder refuses its mode, and the file is left empty; the second
    pass cannot open it. *)
Example resize_refused_example :
  let fs : gmap string file :=
    {[ "maps/bluefin_tuna_habitat.jpg" := RawBytes [x89; x50] ]} in
  let first := resize_all_images refusing_alpha fs in
  let second := resize_all_images refusing_alpha (files first) in
  files first !! "maps/bluefin_tuna_habitat.jpg" = Some (RawBytes []) /\
  total_resized first = 0 /\
  messages first = [ERROR "maps/bluefin_tuna_habitat.jpg"] /\
  files second = files first /\
  messages second = [ERROR "maps/bluefin_tuna_habitat.jpg"].
Proof. vm_compute. repeat split. Qed.

(** ** Fixing the listed images *)

Lemma replace_one_total (net : FishDataExtractor.network) (p : string)
    (previous_key : option string) (fs : gmap string file) :
  known p = true -> is_Some (replace_one net p previous_key fs).
Proof.
  unfold known, replace_one.
  destruct (Py.split "/" p) as [|folder [|filename rest]]; try done.
  cbn. intros Hk.
  destruct (decide (folder = "natural")); [cbn; eauto|].
  destruct (decide (folder = "scientific")); [cbn; eauto|].
  destruct (decide (folder = "maps")); [cbn; eauto|].
  rewrite !bool_decide_eq_false_2 in Hk by done. done.
Qed.

Lemma replace_each_total (net : FishDataExtractor.network)
    (images : list string) :
  Forall (fun p => known p = true) images ->
  forall previous_key fs, is_Some (replace_each net images previous_key fs).
Proof.
  induction 1 as [|p rest Hp _ IH]; intros previous_key fs; [by eexists|].
  cbn [replace_each].
  destruct (replace_one_total net p previous_key fs Hp) as [[fs' key] ->].
  cbn. apply IH.
Qed.

Lemma fix_one_spec (pil : pillow) (p : string) (fs : gmap string file) :
  known p = true ->
  exists img, placeholder_for p = Some img /\ size img = target_size /\
              fix_one pil p fs
              = if placeholder_raises pil p then None
                else Some (<[p := JpegOf img]> fs).
Proof.
  unfold known, placeholder_for, fix_one, create_natural_placeholder,
    create_scientific_placeholder, create_map_placeholder.
  destruct (Py.split "/" p) as [|folder [|filename rest]]; try done.
  cbn. intros Hk.
  destruct (decide (folder = "natural")); [cbn; eauto|].
  destruct (decide (folder = "scientific")); [cbn; eauto|].
  destruct (decide (folder = "maps")); [cbn; eauto|].
  rewrite !bool_decide_eq_false_2 in Hk by done. done.
Qed.

Lemma fix_each_spec (pil : pillow) (images : list string) :
  Forall (fun p => known p = true) images -> NoDup images ->
  Forall (fun p => placeholder_raises pil p = false) images ->
  forall fs,
    exists fs',
      fix_each pil images fs = Some fs' /\
      (forall p, p ∈ images ->
                 exists img, placeholder_for p = Some img /\
                             size img = target_size /\
                             fs' !! p = Some (JpegOf img)) /\
      (forall p, p ∉ images -> fs' !! p = fs !! p).
Proof.
  induction 1 as [|q rest Hq _ IH]; intros Hnd Hok fs.
  { exists fs. repeat split; try done. intros p Hp. by apply elem_of_nil in Hp. }
  apply NoDup_cons in Hnd as [Hnotin Hnd].
  apply Forall_cons in Hok as [Hokq Hok].
  destruct (fix_one_spec pil q fs Hq) as (img & Himg & Hsize & Hfix).
  rewrite Hokq in Hfix.
  destruct (IH Hnd Hok (<[q := JpegOf img]> fs)) as (fs' & Heach & Hin & Hout).
  exists fs'. cbn [fix_each]. rewrite Hfix. cbn. split; [done|]. split.
  - intros p Hp. apply elem_of_cons in Hp as [->|Hp]; [|by apply Hin].
    exists img. repeat split; try done.
    rewrite (Hout q Hnotin). apply lookup_insert_eq.
  - intros p Hp. apply not_elem_of_cons in Hp as [Hpq Hp].
    rewrite (Hout p Hp). by rewrite lookup_insert_ne.
Qed.

(** A pass over the list that completes met no raising placeholder. *)
Lemma fix_each_completes (pil : pillow) (images : list string) :
  Forall (fun p => known p = true) images ->
  forall fs, is_Some (fix_each pil images fs) ->
             Forall (fun p => placeholder_raises pil p = false) images.
Proof.
  induction 1 as [|q rest Hq _ IH]; intros fs Hsome; [done|].
  cbn [fix_each] in Hsome.
  destruct (fix_one_spec pil q fs Hq) as (img & _ & _ & Hfix).
  rewrite Hfix in Hsome.
  destruct (placeholder_raises pil q) eqn:Hr.
  { cbn in Hsome. by destruct Hsome. }
  cbn in Hsome. constructor; [done|]. by eapply IH.
Qed.

Lemma broken_images_known : Forall (fun p => known p = true) broken_images.
Proof. repeat constructor. Qed.

Lemma broken_images_nodup : NoDup broken_images.
Proof. apply (bool_decide_unpack _). by vm_compute. Qed.

(** C10.  [run_fix_and_resize] runs [fix_broken_images] after the
    download step whatever that step did.  Whatever the network answers
    and whatever the directory held, the download step completes, and
    the run completes exactly when no placeholder of the list raises.
    After a run that completes, every listed path holds the placeholder
    drawn for it, at 400x300, which the resize step leaves alone; the
    drawings are the six of the table.  In particular, in a run where a
    replacement was downloaded to every listed path, none of them is
    left. *)
Theorem fix_overwrites_replacements :
  (forall net pil fs,
     exists fs1,
       download_better_replacement_images net fs = Some fs1 /\
       (is_Some (run_fix_and_resize net pil fs) <->
        Forall (fun p => placeholder_raises pil p = false) broken_images) /\
       forall r,
         run_fix_and_resize net pil fs = Some r ->
         exists fs2,
           fix_broken_images pil fs1 = Some fs2 /\
           r = resize_all_images pil fs2 /\
           forall p, p ∈ broken_images ->
             exists img,
               placeholder_for p = Some img /\
               files r !! p = Some (JpegOf img)) /\
  map placeholder_for broken_images
  = [ Some (natural_placeholder "Red Snapper");
      Some (scientific_placeholder "Atlantic Mackerel");
      Some (scientific_placeholder "Bluefin Tuna");
      Some (scientific_placeholder "Yellowfin Tuna");
      Some (map_placeholder "Atlantic Salmon");
      Some (map_placeholder "Horse Mackerel") ] /\
  Forall (fun p => downloaded_at all_found p
                   = Some (RawBytes [xff; xd8; xff; xd9])) broken_images.
Proof.
  split; [|split].
  - intros net pil fs.
    destruct (replace_each_total net broken_images broken_images_known None fs)
      as [fs1 Hfs1].
    exists fs1. split; [done|].
    assert (run_fix_and_resize net pil fs
            = resize_all_images pil <$> fix_broken_images pil fs1) as Hrun.
    { unfold run_fix_and_resize, download_better_replacement_images.
      rewrite Hfs1. cbn [mbind option_bind].
      by destruct (fix_broken_images pil fs1). }
    rewrite Hrun. split.
    + split.
      * intros Hsome. apply (fix_each_completes pil _ broken_images_known fs1).
        by apply fmap_is_Some in Hsome.
      * intros Hok.
        destruct (fix_each_spec pil broken_images broken_images_known
                    broken_images_nodup Hok fs1) as (fs2 & Hfs2 & _).
        unfold fix_broken_images. rewrite Hfs2. by eexists.
    + intros r Hr.
      destruct (fix_broken_images pil fs1) as [fs2|] eqn:Hfix; [|done].
      cbn [fmap option_fmap option_map] in Hr. injection Hr as <-.
      exists fs2. split; [done|]. split; [done|].
      assert (Forall (fun p => placeholder_raises pil p = false)
                     broken_images) as Hok.
      { apply (fix_each_completes pil _ broken_images_known fs1).
        unfold fix_broken_images in Hfix. rewrite Hfix. by eexists. }
      destruct (fix_each_spec pil broken_images broken_images_known
                  broken_images_nodup Hok fs1) as (fs2' & Hfs2 & Hin & _).
      unfold fix_broken_images in Hfix. rewrite Hfix in Hfs2.
      injection Hfs2 as <-.
      intros p Hp. destruct (Hin p Hp) as (img & Himg & Hsize & Hlook).
      exists img. split; [done|].
      apply (resize_folders_keep pil p (JpegOf img) img folders);
        try done.
  - vm_compute. reflexivity.
  - unfold broken_images.
    repeat (constructor; [vm_compute; reflexivity|]).
    constructor.
Qed.

(** Every replacement is found and downloaded, and the stored images
    would all need resizing: the tuna diagram is still the placeholder. *)
Lemma fix_overwrites_replacements_witness :
  exists r,
    run_fix_and_resize all_found (readable_as (800, 600)) ∅ = Some r /\
    files r !! "scientific/bluefin_tuna_diagram.jpg"
    = Some (JpegOf (scientific_placeholder "Bluefin Tuna")).
Proof.
  destruct (proj1 fix_overwrites_replacements all_found
              (readable_as (800, 600)) ∅)
    as (fs1 & _ & Hcompletes & Hall).
  destruct (proj2 Hcompletes) as [r Hrun].
  { unfold broken_images. repeat constructor. }
  exists r. split; [exact Hrun|].
  destruct (Hall r Hrun) as (fs2 & _ & _ & Hlisted).
  destruct (Hlisted "scientific/bluefin_tuna_diagram.jpg")
    as (img & Himg & Hlook).
  { unfold broken_images. do 2 (apply elem_of_cons; right).
    apply elem_of_cons. by left. }
  vm_compute in Himg. injection Himg as <-. exact Hlook.
Defined.

(** With a Pillow that raises on every placeholder the exception of the
    first one ends the run. *)
Example fix_raises_example :
  fix_broken_images without_textbbox ∅ = None /\
  run_fix_and_resize all_found without_textbbox ∅ = None.
Proof. vm_compute. split; reflexivity. Qed.

(** ** What the download pass keeps and bounds *)

Lemma download_image_from_url_dom (net : FishDataExtractor.network)
    (url filepath : string) (fs : gmap string file) :
  let r := FishDataExtractor.download_image_from_url net url filepath fs in
  dom fs ⊆ dom r.1 /\ (r.2 = true -> filepath ∈ dom r.1).
Proof.
  cbn zeta. unfold FishDataExtractor.download_image_from_url.
  destruct (FishDataExtractor.get_image net url) as [|status ct content];
    [done|].
  destruct (status =? 200); [|done].
  destruct (Py.contains "image" (default "" ct)); [|done].
  destruct (FishDataExtractor.breaks content); cbn [fst snd];
    rewrite dom_insert_L; (split; [apply union_subseteq_r|]);
    intros _; apply elem_of_union_l; by apply elem_of_singleton.
Qed.

Lemma download_each_spec (net : FishDataExtractor.network)
    (fish_id image_type : string) (urls : list string) :
  forall (n : Z) (fs : gmap string file),
    let r := FishDataExtractor.download_each net fish_id image_type urls n fs in
    dom fs ⊆ dom r.1 /\
    n <= r.2 <= n + Z.of_nat (length urls) /\
    (n < r.2 ->
     FishDataExtractor.target_path fish_id image_type n ∈ dom r.1).
Proof.
  induction urls as [|u rest IH]; intros n fs; cbn zeta.
  { cbn. split; [done|]. lia. }
  cbn [FishDataExtractor.download_each length].
  pose proof (download_image_from_url_dom net u
                (FishDataExtractor.target_path fish_id image_type n) fs)
    as [Hdom Hok].
  destruct (FishDataExtractor.download_image_from_url net u
              (FishDataExtractor.target_path fish_id image_type n) fs)
    as [fs1 [|]]; cbn [fst snd] in Hdom, Hok.
  - destruct (IH (n + 1) fs1) as (Hd & Hn & _).
    split; [by etrans|]. split; [lia|]. intros _. by apply Hd, Hok.
  - destruct (IH n fs1) as (Hd & Hn & Hfirst).
    split; [by etrans|]. split; [lia|]. done.
Qed.

Lemma wikimedia_results_spec (net : FishDataExtractor.network)
    (fish_id image_type : string) (target_count : Z) (titles : list string) :
  forall (n : Z) (fs : gmap string file),
    let r := FishDataExtractor.wikimedia_results net fish_id image_type
               target_count titles n fs in
    dom fs ⊆ dom r.1 /\
    n <= r.2 <= Z.max n target_count /\
    (n < r.2 ->
     FishDataExtractor.target_path fish_id image_type n ∈ dom r.1).
Proof.
  induction titles as [|title rest IH]; intros n fs; cbn zeta.
  { cbn. split; [done|]. lia. }
  cbn [FishDataExtractor.wikimedia_results].
  destruct (Z.leb_spec target_count n) as [Hge|Hlt].
  { cbn. split; [done|]. lia. }
  destruct (FishDataExtractor.usable
              (FishDataExtractor.get_wikimedia_image_url net title))
    as [image_url|].
  2: { destruct (IH n fs) as (Hd & Hn & Hfirst). done. }
  pose proof (download_image_from_url_dom net image_url
                (FishDataExtractor.target_path fish_id image_type n) fs)
    as [Hdom Hok].
  destruct (FishDataExtractor.download_image_from_url net image_url
              (FishDataExtractor.target_path fish_id image_type n) fs)
    as [fs1 [|]]; cbn [fst snd] in Hdom, Hok.
  - destruct (IH (n + 1) fs1) as (Hd & Hn & _).
    split; [by etrans|]. split; [lia|]. intros _. by apply Hd, Hok.
  - destruct (IH n fs1) as (Hd & Hn & Hfirst).
    split; [by etrans|]. split; [lia|]. done.
Qed.

Lemma wikimedia_queries_spec (net : FishDataExtractor.network)
    (fish_id image_type : string) (target_count : Z) (queries : list string) :
  forall (n : Z) (fs : gmap string file),
    let r := FishDataExtractor.wikimedia_queries net fish_id image_type
               target_count queries n fs in
    dom fs ⊆ dom r.1 /\
    n <= r.2 <= Z.max n target_count /\
    (n < r.2 ->
     FishDataExtractor.target_path fish_id image_type n ∈ dom r.1).
Proof.
  induction queries as [|query rest IH]; intros n fs; cbn zeta.
  { cbn. split; [done|]. lia. }
  cbn [FishDataExtractor.wikimedia_queries].
  destruct (Z.leb_spec target_count n) as [Hge|Hlt].
  { cbn. split; [done|]. lia. }
  destruct (FishDataExtractor.commons_search net _) as [|status [titles|]];
    try apply IH.
  destruct (status =? 200); [|apply IH].
  pose proof (wikimedia_results_spec net fish_id image_type target_count
                titles n fs) as (Hd1 & Hn1 & Hf1).
  destruct (FishDataExtractor.wikimedia_results net fish_id image_type
              target_count titles n fs) as [fs1 n1];
    cbn [fst snd] in Hd1, Hn1, Hf1.
  destruct (IH n1 fs1) as (Hd & Hn & Hfirst).
  split; [by etrans|]. split; [lia|].
  intros Hgt. destruct (decide (n < n1)) as [Hlt1|Hge1].
  - by apply Hd, Hf1.
  - assert (n1 = n) as -> by lia. by apply Hfirst.
Qed.

(** One call of a Wikimedia search: between 0 and the per-call target,
    and a positive count means the file of index 0 is there. *)
Lemma download_wikimedia_images_spec (net : FishDataExtractor.network)
    (fish_id search_term scientific_name image_type : string)
    (fs : gmap string file) :
  let r := FishDataExtractor.download_wikimedia_images net fish_id search_term
             scientific_name image_type fs in
  dom fs ⊆ dom r.1 /\
  0 <= r.2 <= FishDataExtractor.per_source_target image_type /\
  (0 < r.2 -> FishDataExtractor.target_path fish_id image_type 0 ∈ dom r.1).
Proof.
  cbn zeta. unfold FishDataExtractor.download_wikimedia_images,
    FishDataExtractor.per_source_target.
  pose proof (wikimedia_queries_spec net fish_id image_type
                (if decide (image_type = "natural") then 2 else 1)
                (FishDataExtractor.get_wikimedia_search_terms search_term
                   scientific_name image_type) 0 fs) as (Hd & Hn & Hf).
  split; [done|]. split; [|done].
  destruct (decide (image_type = "natural")); lia.
Qed.

Lemma adapter_ok_weaken (path : string) (b b' : Z)
    (f : gmap string file -> gmap string file * Z) :
  b <= b' -> adapter_ok path b f -> adapter_ok path b' f.
Proof.
  intros Hb Hf fs. destruct (Hf fs) as (Hd & Hn & Hp).
  split; [done|]. split; [lia|done].
Qed.

Lemma inert_adapter_ok (path : string) :
  adapter_ok path 0 (fun fs => (fs, 0)).
Proof. intros fs. cbn. split; [done|]. split; lia. Qed.

Lemma download_wikimedia_images_ok (net : FishDataExtractor.network)
    (fish_id search_term scientific_name image_type : string) :
  adapter_ok (FishDataExtractor.target_path fish_id image_type 0)
    (FishDataExtractor.per_source_target image_type)
    (FishDataExtractor.download_wikimedia_images net fish_id search_term
       scientific_name image_type).
Proof. intros fs. apply download_wikimedia_images_spec. Qed.

Lemma download_each_ok (net : FishDataExtractor.network)
    (fish_id image_type : string) (urls : list string) (bound : Z) :
  Z.of_nat (length urls) <= bound ->
  adapter_ok (FishDataExtractor.target_path fish_id image_type 0) bound
    (FishDataExtractor.download_each net fish_id image_type urls 0).
Proof.
  intros Hlen fs.
  destruct (download_each_spec net fish_id image_type urls 0 fs)
    as (Hd & Hn & Hp).
  split; [done|]. split; [lia|done].
Qed.

Lemma per_source_target_pos (image_type : string) :
  0 <= FishDataExtractor.per_source_target image_type <= 2.
Proof.
  unfold FishDataExtractor.per_source_target. case_decide; lia.
Qed.

Lemma length_take_target {A : Type} (image_type : string) (l : list A) :
  Z.of_nat (length (take (Z.to_nat
                            (FishDataExtractor.per_source_target image_type)) l))
  <= FishDataExtractor.per_source_target image_type.
Proof.
  pose proof (per_source_target_pos image_type).
  rewrite length_take. lia.
Qed.

Lemma length_omap_le {A B : Type} (f : A -> option B) (l : list A) :
  (length (omap f l) <= length l)%nat.
Proof.
  induction l as [|x l IH]; [done|]. cbn. destruct (f x); cbn; lia.
Qed.

Lemma download_fishbase_images_ok (net : FishDataExtractor.network)
    (fish_id common_name scientific_name image_type : string) :
  adapter_ok (FishDataExtractor.target_path fish_id image_type 0)
    (FishDataExtractor.per_source_target image_type)
    (FishDataExtractor.download_fishbase_images net fish_id common_name
       scientific_name image_type).
Proof.
  intros fs. unfold FishDataExtractor.download_fishbase_images.
  pose proof (per_source_target_pos image_type) as Hb.
  destruct (FishDataExtractor.page_matches net _) as [|status urls];
    [cbn; split; [done|]; split; lia|].
  destruct (status =? 200); [|cbn; split; [done|]; split; lia].
  apply download_each_ok, length_take_target.
Qed.

Lemma download_gbif_images_ok (net : FishDataExtractor.network)
    (fish_id scientific_name image_type : string) :
  adapter_ok (FishDataExtractor.target_path fish_id image_type 0)
    (FishDataExtractor.per_source_target image_type)
    (FishDataExtractor.download_gbif_images net fish_id scientific_name
       image_type).
Proof.
  intros fs. unfold FishDataExtractor.download_gbif_images.
  pose proof (per_source_target_pos image_type) as Hb.
  destruct (FishDataExtractor.gbif_species net _) as [|status [|key keys]];
    try (cbn; split; [done|]; split; lia).
  destruct (status =? 200); [|cbn; split; [done|]; split; lia].
  destruct (FishDataExtractor.gbif_occurrences net key) as [|status2 occs];
    [cbn; split; [done|]; split; lia|].
  destruct (status2 =? 200); [|cbn; split; [done|]; split; lia].
  apply download_each_ok.
  etrans; [|apply (length_take_target image_type occs)].
  apply inj_le, length_omap_le.
Qed.

Lemma download_inaturalist_images_ok (net : FishDataExtractor.network)
    (fish_id scientific_name image_type : string) :
  adapter_ok (FishDataExtractor.target_path fish_id image_type 0)
    (FishDataExtractor.per_source_target image_type)
    (FishDataExtractor.download_inaturalist_images net fish_id scientific_name
       image_type).
Proof.
  intros fs. unfold FishDataExtractor.download_inaturalist_images.
  pose proof (per_source_target_pos image_type) as Hb.
  destruct (FishDataExtractor.inaturalist_observations net _)
    as [|status obs]; [cbn; split; [done|]; split; lia|].
  destruct (status =? 200); [|cbn; split; [done|]; split; lia].
  apply download_each_ok.
  etrans; [|apply (length_take_target image_type obs)].
  apply inj_le, length_omap_le.
Qed.

Lemma download_first_ok (net : FishDataExtractor.network)
    (urls : list string) (filepath : string) :
  adapter_ok filepath 1 (FishDataExtractor.download_first net urls filepath).
Proof.
  intros fs. unfold FishDataExtractor.download_first.
  destruct urls as [|u rest]; [cbn; split; [done|]; split; lia|].
  pose proof (download_image_from_url_dom net u filepath fs) as [Hd Hok].
  destruct (FishDataExtractor.download_image_from_url net u filepath fs)
    as [fs1 [|]]; cbn [fst snd] in *.
  - split; [done|]. split; [lia|]. auto.
  - split; [done|]. split; lia.
Qed.

Lemma download_fishbase_diagrams_ok (net : FishDataExtractor.network)
    (fish_id scientific_name : string) :
  adapter_ok (FishDataExtractor.target_path fish_id "scientific" 0) 1
    (FishDataExtractor.download_fishbase_diagrams net fish_id scientific_name).
Proof.
  intros fs. unfold FishDataExtractor.download_fishbase_diagrams.
  destruct (FishDataExtractor.page_matches net _) as [|status urls];
    [cbn; split; [done|]; split; lia|].
  destruct (status =? 200); [|cbn; split; [done|]; split; lia].
  apply (download_first_ok net urls
           (FishDataExtractor.target_path fish_id "scientific" 0)).
Qed.

Lemma download_fishbase_maps_ok (net : FishDataExtractor.network)
    (fish_id scientific_name : string) :
  adapter_ok (FishDataExtractor.target_path fish_id "maps" 0) 1
    (FishDataExtractor.download_fishbase_maps net fish_id scientific_name).
Proof.
  intros fs. unfold FishDataExtractor.download_fishbase_maps.
  destruct (FishDataExtractor.page_matches net _) as [|status urls];
    [cbn; split; [done|]; split; lia|].
  destruct (status =? 200); [|cbn; split; [done|]; split; lia].
  apply (download_first_ok net urls
           (FishDataExtractor.target_path fish_id "maps" 0)).
Qed.

Lemma download_gbif_maps_ok (net : FishDataExtractor.network)
    (fish_id scientific_name : string) :
  adapter_ok (FishDataExtractor.target_path fish_id "maps" 0) 1
    (FishDataExtractor.download_gbif_maps net fish_id scientific_name).
Proof.
  intros fs. unfold FishDataExtractor.download_gbif_maps.
  destruct (FishDataExtractor.gbif_species net _) as [|status [|key keys]];
    try (cbn; split; [done|]; split; lia).
  destruct (status =? 200); [|cbn; split; [done|]; split; lia].
  apply (download_first_ok net _
           (FishDataExtractor.target_path fish_id "maps" 0)).
Qed.

Lemma sushi_terms_spec (net : FishDataExtractor.network)
    (fish_id common_name sushi_type : string) (terms : list string) :
  forall (n : Z) (fs : gmap string file),
    let r := FishDataExtractor.sushi_terms net fish_id common_name sushi_type
               terms n fs in
    dom fs ⊆ dom r.1 /\
    n <= r.2 <= Z.max n 2 /\
    (n < r.2 -> FishDataExtractor.target_path fish_id "sushi" 0 ∈ dom r.1).
Proof.
  induction terms as [|term rest IH]; intros n fs; cbn zeta.
  { cbn. split; [done|]. lia. }
  cbn [FishDataExtractor.sushi_terms].
  destruct (Z.leb_spec 2 n) as [Hge|Hlt].
  { cbn. split; [done|]. lia. }
  pose proof (download_wikimedia_images_spec net fish_id
                (term +:+ " " +:+ sushi_type) common_name "sushi" fs)
    as (Hd1 & Hn1 & Hf1).
  change (FishDataExtractor.per_source_target "sushi") with 1 in Hn1.
  destruct (FishDataExtractor.download_wikimedia_images net fish_id
              (term +:+ " " +:+ sushi_type) common_name "sushi" fs)
    as [fs1 result]; cbn [fst snd] in Hd1, Hn1, Hf1.
  destruct (Z.ltb_spec 0 result) as [Hpos|Hzero].
  - cbn [fst snd]. split; [done|]. split; [lia|]. auto.
  - assert (result = 0) as -> by lia. rewrite Z.add_0_r.
    destruct (IH n fs1) as (Hd & Hn & Hfirst).
    split; [by etrans|]. done.
Qed.

Lemma sushi_types_spec (net : FishDataExtractor.network)
    (fish_id common_name : string) (types terms : list string) :
  forall (n : Z) (fs : gmap string file),
    let r := FishDataExtractor.sushi_types net fish_id common_name types
               terms n fs in
    dom fs ⊆ dom r.1 /\
    n <= r.2 <= Z.max n 2 /\
    (n < r.2 -> FishDataExtractor.target_path fish_id "sushi" 0 ∈ dom r.1).
Proof.
  induction types as [|sushi_type rest IH]; intros n fs; cbn zeta.
  { cbn. split; [done|]. lia. }
  cbn [FishDataExtractor.sushi_types].
  pose proof (sushi_terms_spec net fish_id common_name sushi_type terms n fs)
    as (Hd1 & Hn1 & Hf1).
  destruct (FishDataExtractor.sushi_terms net fish_id common_name sushi_type
              terms n fs) as [fs1 n1]; cbn [fst snd] in Hd1, Hn1, Hf1.
  destruct (IH n1 fs1) as (Hd & Hn & Hfirst).
  split; [by etrans|]. split; [lia|].
  intros Hgt. destruct (decide (n < n1)) as [Hlt1|Hge1].
  - by apply Hd, Hf1.
  - assert (n1 = n) as -> by lia. by apply Hfirst.
Qed.

Lemma download_wikimedia_sushi_images_ok (net : FishDataExtractor.network)
    (fish_id common_name japanese_romaji : string) :
  adapter_ok (FishDataExtractor.target_path fish_id "sushi" 0) 2
    (FishDataExtractor.download_wikimedia_sushi_images net fish_id common_name
       japanese_romaji).
Proof.
  intros fs. unfold FishDataExtractor.download_wikimedia_sushi_images.
  pose proof (sushi_types_spec net fish_id common_name ["nigiri"; "sashimi"]
                [common_name; japanese_romaji] 0 fs) as (Hd & Hn & Hf).
  destruct (FishDataExtractor.sushi_types net fish_id common_name
              ["nigiri"; "sashimi"] [common_name; japanese_romaji] 0 fs)
    as [fs1 n1]; cbn [fst snd] in *.
  split; [done|]. split; [lia|]. intros Hpos. apply Hf. lia.
Qed.

Lemma returning_ok (path : string) (bound : Z)
    (f : gmap string file -> gmap string file * Z) :
  adapter_ok path bound f ->
  source_ok path bound (FishDataExtractor.returning f).
Proof.
  intros Hf fs. destruct (Hf fs) as (Hd & Hn & Hp).
  unfold FishDataExtractor.returning.
  destruct (f fs) as [fs1 n]; cbn [fst snd] in *. by exists n.
Qed.

Lemma run_sources_step (target : Z) (s : FishDataExtractor.source)
    (rest : list FishDataExtractor.source) (n : Z)
    (w : FishDataExtractor.world) (fs1 : gmap string file) (m : Z) :
  n < target ->
  s (FishDataExtractor.files w) = (fs1, FishDataExtractor.Returned m) ->
  FishDataExtractor.run_sources target (s :: rest) n w
  = FishDataExtractor.run_sources target rest (n + m)
      (FishDataExtractor.World fs1 (FishDataExtractor.events w)).
Proof.
  intros Hn Hs. cbn [FishDataExtractor.run_sources].
  rewrite (proj2 (Z.leb_gt _ _)) by lia. by rewrite Hs.
Qed.

(** The fallback loop over well-behaved sources: files are kept, the
    trace is not touched, the count does not decrease and stays below the
    target plus what the last source invoked may add, and a positive
    count means the file of index 0 exists. *)
Lemma run_sources_spec (path : string) (bound target : Z)
    (sources : list FishDataExtractor.source) :
  0 <= bound ->
  Forall (source_ok path bound) sources ->
  forall (n : Z) (w : FishDataExtractor.world),
    0 <= n ->
    let r := FishDataExtractor.run_sources target sources n w in
    dom (FishDataExtractor.files w) ⊆ dom (FishDataExtractor.files r.1) /\
    FishDataExtractor.events r.1 = FishDataExtractor.events w /\
    n <= r.2 <= Z.max n (target - 1 + bound) /\
    ((0 < n -> path ∈ dom (FishDataExtractor.files w)) ->
     0 < r.2 -> path ∈ dom (FishDataExtractor.files r.1)).
Proof.
  intros Hb. induction 1 as [|s rest Hs _ IH]; intros n w Hn; cbn zeta.
  { cbn. split; [done|]. split; [done|]. split; [lia|]. auto. }
  cbn [FishDataExtractor.run_sources].
  destruct (Z.leb_spec target n) as [Hge|Hlt].
  { cbn. split; [done|]. split; [done|]. split; [lia|]. auto. }
  destruct (Hs (FishDataExtractor.files w)) as (m & Hret & Hd & Hm & Hp).
  destruct (s (FishDataExtractor.files w)) as [fs1 o];
    cbn [fst snd] in Hret, Hd, Hp. subst o.
  destruct (IH (n + m)
              (FishDataExtractor.World fs1 (FishDataExtractor.events w)))
    as (Hd' & He' & Hn' & Hp'); [lia|].
  cbn [FishDataExtractor.files FishDataExtractor.events] in *.
  split; [by etrans|]. split; [done|]. split; [lia|].
  intros Hinit Hpos. apply Hp'; [|done].
  intros Hnm. destruct (decide (0 < n)) as [H0|H0].
  - by apply Hd, Hinit.
  - apply Hp. lia.
Qed.

Lemma natural_sources_ok (net : FishDataExtractor.network)
    (fish_id common_name scientific_name : string) :
  Forall (source_ok (FishDataExtractor.target_path fish_id "natural" 0) 2)
         (FishDataExtractor.natural_sources net fish_id common_name
                                            scientific_name).
Proof.
  unfold FishDataExtractor.natural_sources.
  repeat apply Forall_cons_2; try apply Forall_nil_2; apply returning_ok.
  - apply (download_wikimedia_images_ok net fish_id common_name
             scientific_name "natural").
  - apply (download_fishbase_images_ok net fish_id common_name
             scientific_name "natural").
  - apply (download_gbif_images_ok net fish_id scientific_name "natural").
  - apply (download_inaturalist_images_ok net fish_id scientific_name
             "natural").
Qed.

Lemma scientific_sources_ok (net : FishDataExtractor.network)
    (fish_id common_name scientific_name : string) :
  Forall (source_ok (FishDataExtractor.target_path fish_id "scientific" 0) 1)
         (FishDataExtractor.scientific_sources net fish_id common_name
                                               scientific_name).
Proof.
  unfold FishDataExtractor.scientific_sources.
  repeat apply Forall_cons_2; try apply Forall_nil_2; apply returning_ok.
  - apply download_fishbase_diagrams_ok.
  - apply (download_wikimedia_images_ok net fish_id _ scientific_name
             "scientific").
  - apply (download_wikimedia_images_ok net fish_id _ scientific_name
             "scientific").
  - apply (adapter_ok_weaken _ 0 1); [lia | apply inert_adapter_ok].
Qed.

Lemma map_sources_ok (net : FishDataExtractor.network)
    (fish_id common_name scientific_name : string) :
  Forall (source_ok (FishDataExtractor.target_path fish_id "maps" 0) 1)
         (FishDataExtractor.map_sources net fish_id common_name
                                        scientific_name).
Proof.
  unfold FishDataExtractor.map_sources.
  repeat apply Forall_cons_2; try apply Forall_nil_2; apply returning_ok.
  - apply download_fishbase_maps_ok.
  - apply download_gbif_maps_ok.
  - apply (adapter_ok_weaken _ 0 1); [lia | apply inert_adapter_ok].
  - apply (download_wikimedia_images_ok net fish_id _ scientific_name "maps").
Qed.

(** What each of the four [download_*] loops guarantees, for the bound
    given. *)
Lemma download_natural_images_spec (net : FishDataExtractor.network)
    (fish_id common_name scientific_name : string)
    (w : FishDataExtractor.world) :
  let r := FishDataExtractor.download_natural_images net fish_id common_name
             scientific_name w in
  dom (FishDataExtractor.files w) ⊆ dom (FishDataExtractor.files r.1) /\
  FishDataExtractor.events r.1 = FishDataExtractor.events w /\
  0 <= r.2 <= 3 /\
  (0 < r.2 -> FishDataExtractor.target_path fish_id "natural" 0
              ∈ dom (FishDataExtractor.files r.1)).
Proof.
  cbn zeta. unfold FishDataExtractor.download_natural_images.
  destruct (run_sources_spec _ 2 2 _ ltac:(lia)
              (natural_sources_ok net fish_id common_name scientific_name)
              0 w ltac:(lia)) as (Hd & He & Hn & Hp).
  split; [done|]. split; [done|]. split; [lia|].
  apply Hp. lia.
Qed.

Lemma download_scientific_diagrams_spec (net : FishDataExtractor.network)
    (fish_id common_name scientific_name : string)
    (w : FishDataExtractor.world) :
  let r := FishDataExtractor.download_scientific_diagrams net fish_id
             common_name scientific_name w in
  dom (FishDataExtractor.files w) ⊆ dom (FishDataExtractor.files r.1) /\
  FishDataExtractor.events r.1 = FishDataExtractor.events w /\
  0 <= r.2 <= 1 /\
  (0 < r.2 -> FishDataExtractor.target_path fish_id "scientific" 0
              ∈ dom (FishDataExtractor.files r.1)).
Proof.
  cbn zeta. unfold FishDataExtractor.download_scientific_diagrams.
  destruct (run_sources_spec _ 1 1 _ ltac:(lia)
              (scientific_sources_ok net fish_id common_name scientific_name)
              0 w ltac:(lia)) as (Hd & He & Hn & Hp).
  split; [done|]. split; [done|]. split; [lia|].
  apply Hp. lia.
Qed.

Lemma download_habitat_maps_spec (net : FishDataExtractor.network)
    (fish_id common_name scientific_name : string)
    (w : FishDataExtractor.world) :
  let r := FishDataExtractor.download_habitat_maps net fish_id common_name
             scientific_name w in
  dom (FishDataExtractor.files w) ⊆ dom (FishDataExtractor.files r.1) /\
  FishDataExtractor.events r.1 = FishDataExtractor.events w /\
  0 <= r.2 <= 1 /\
  (0 < r.2 -> FishDataExtractor.target_path fish_id "maps" 0
              ∈ dom (FishDataExtractor.files r.1)).
Proof.
  cbn zeta. unfold FishDataExtractor.download_habitat_maps.
  destruct (run_sources_spec _ 1 1 _ ltac:(lia)
              (map_sources_ok net fish_id common_name scientific_name)
              0 w ltac:(lia)) as (Hd & He & Hn & Hp).
  split; [done|]. split; [done|]. split; [lia|].
  apply Hp. lia.
Qed.

Lemma download_sushi_images_spec (net : FishDataExtractor.network)
    (fish_id common_name japanese_romaji : string)
    (w : FishDataExtractor.world) :
  let r := FishDataExtractor.download_sushi_images net fish_id common_name
             japanese_romaji w in
  dom (FishDataExtractor.files w) ⊆ dom (FishDataExtractor.files r.1) /\
  FishDataExtractor.events r.1 = FishDataExtractor.events w /\
  0 <= r.2 <= 2 /\
  (0 < r.2 -> FishDataExtractor.target_path fish_id "sushi" 0
              ∈ dom (FishDataExtractor.files r.1)).
Proof.
  cbn zeta. unfold FishDataExtractor.download_sushi_images,
    FishDataExtractor.sushi_sources.
  destruct (returning_ok _ _ _
              (download_wikimedia_sushi_images_ok net fish_id common_name
                 japanese_romaji) (FishDataExtractor.files w))
    as (n1 & Hret & Hd1 & Hn1 & Hp1).
  destruct (FishDataExtractor.returning
              (FishDataExtractor.download_wikimedia_sushi_images net fish_id
                 common_name japanese_romaji) (FishDataExtractor.files w))
    as [fs1 o] eqn:Hfirst; cbn [fst snd] in Hret, Hd1, Hp1. subst o.
  rewrite (run_sources_step 2 _ _ 0 w fs1 n1 ltac:(lia) Hfirst).
  rewrite Z.add_0_l.
  assert (Forall (source_ok (FishDataExtractor.target_path fish_id "sushi" 0) 0)
            [ FishDataExtractor.returning
                (FishDataExtractor.download_unsplash_sushi_images net fish_id
                   common_name japanese_romaji);
              FishDataExtractor.returning
                (FishDataExtractor.download_pexels_sushi_images net fish_id
                   common_name japanese_romaji) ]) as Hrest.
  { repeat apply Forall_cons_2; try apply Forall_nil_2;
      apply returning_ok, inert_adapter_ok. }
  destruct (run_sources_spec _ 0 2 _ ltac:(lia) Hrest n1
              (FishDataExtractor.World fs1 (FishDataExtractor.events w))
              ltac:(lia)) as (Hd & He & Hn & Hp).
  cbn [FishDataExtractor.files FishDataExtractor.events] in *.
  split; [by etrans|]. split; [done|]. split; [lia|].
  intros Hpos. apply Hp; [|done]. done.
Qed.

(** X1.  Whatever the network answers, the natural loop reports between
    0 and 3 images, the scientific and the map loop 0 or 1, and the sushi
    loop between 0 and 2; none of them touches the trace.  The bound 3 is
    reached: the natural loop can report one image more than its target
    of 2. *)
Theorem download_counts_bounded :
  (forall net fish_id common_name scientific_name japanese_romaji w,
     0 <= (FishDataExtractor.download_natural_images net fish_id common_name
             scientific_name w).2 <= 3 /\
     0 <= (FishDataExtractor.download_scientific_diagrams net fish_id
             common_name scientific_name w).2 <= 1 /\
     0 <= (FishDataExtractor.download_habitat_maps net fish_id common_name
             scientific_name w).2 <= 1 /\
     0 <= (FishDataExtractor.download_sushi_images net fish_id common_name
             japanese_romaji w).2 <= 2) /\
  (FishDataExtractor.download_natural_images overshooting "bluefin_tuna"
     "Bluefin Tuna" "Thunnus thynnus" (FishDataExtractor.World ∅ [])).2 = 3.
Proof.
  split; [|by vm_compute].
  intros net fish_id common_name scientific_name japanese_romaji w.
  pose proof (download_natural_images_spec net fish_id common_name
                scientific_name w) as (_ & _ & H1 & _).
  pose proof (download_scientific_diagrams_spec net fish_id common_name
                scientific_name w) as (_ & _ & H2 & _).
  pose proof (download_habitat_maps_spec net fish_id common_name
                scientific_name w) as (_ & _ & H3 & _).
  pose proof (download_sushi_images_spec net fish_id common_name
                japanese_romaji w) as (_ & _ & H4 & _).
  done.
Qed.

Lemma basic_loop_dom (fish_id image_type : string) (start_index : Z)
    (indices : list Z) :
  forall w,
    dom (FishDataExtractor.files w)
    ⊆ dom (FishDataExtractor.files
             (FishDataExtractor.basic_loop fish_id image_type start_index
                indices w)).
Proof.
  induction indices as [|i rest IH]; intros w; [done|].
  cbn [FishDataExtractor.basic_loop]. etrans; [|apply IH].
  cbn. rewrite dom_insert_L. apply union_subseteq_r.
Qed.

Lemma render_loop_dom (render_raises : string -> bool)
    (fish_id image_type : string) (color : Z * Z * Z) (text : string)
    (start_index : Z) (indices : list Z) :
  forall w,
    dom (FishDataExtractor.files w)
    ⊆ dom (FishDataExtractor.files
             (FishDataExtractor.render_loop render_raises fish_id image_type
                color text start_index indices w)).
Proof.
  induction indices as [|i rest IH]; intros w; [done|].
  cbn [FishDataExtractor.render_loop].
  destruct (render_raises _); [done|].
  etrans; [|apply IH]. cbn. rewrite dom_insert_L. apply union_subseteq_r.
Qed.

Lemma create_type_specific_placeholders_dom (pil : FishDataExtractor.pillow)
    (fish_id common_name scientific_name image_type : string)
    (start_index count : Z) (w : FishDataExtractor.world) :
  dom (FishDataExtractor.files w)
  ⊆ dom (FishDataExtractor.files
           (FishDataExtractor.create_type_specific_placeholders pil fish_id
              common_name scientific_name image_type start_index count w)).
Proof.
  unfold FishDataExtractor.create_type_specific_placeholders.
  destruct pil as [|render_raises].
  - unfold FishDataExtractor.create_basic_type_placeholders.
    etrans; [|apply basic_loop_dom]. done.
  - etrans; [|apply render_loop_dom]. done.
Qed.

Lemma missing_loop_dom (pil : FishDataExtractor.pillow)
    (fish_id common_name scientific_name : string)
    (success_counts : gmap string Z) (items : list (string * Z)) :
  forall w,
    dom (FishDataExtractor.files w)
    ⊆ dom (FishDataExtractor.files
             (FishDataExtractor.missing_loop pil fish_id common_name
                scientific_name success_counts items w)).
Proof.
  induction items as [|[image_type target_count] rest IH]; intros w; [done|].
  cbn [FishDataExtractor.missing_loop]. etrans; [|apply IH].
  destruct (0 <? _); [apply create_type_specific_placeholders_dom | done].
Qed.

(** With a Pillow that does not raise, the backfill leaves a file at
    every index from the number downloaded up to the target. *)
Lemma missing_loop_fills (pil : FishDataExtractor.pillow)
    (fish_id common_name scientific_name : string)
    (success_counts : gmap string Z) (items : list (string * Z)) :
  never_raises pil ->
  forall w image_type target_count i,
    (image_type, target_count) ∈ items ->
    default 0 (success_counts !! image_type) <= i < target_count ->
    FishDataExtractor.target_path fish_id image_type i
    ∈ dom (FishDataExtractor.files
             (FishDataExtractor.missing_loop pil fish_id common_name
                scientific_name success_counts items w)).
Proof.
  intros Hok.
  induction items as [|[t0 target0] rest IH]; intros w t target i Hin Hi.
  { by apply elem_of_nil in Hin. }
  cbn [FishDataExtractor.missing_loop].
  apply elem_of_cons in Hin as [Heq|Hin]; [|by eapply IH].
  injection Heq as Ht Htarget. subst t0 target0.
  apply missing_loop_dom.
  rewrite (proj2 (Z.ltb_lt _ _)) by lia.
  destruct (create_type_specific_placeholders_creates pil fish_id common_name
              scientific_name t (default 0 (success_counts !! t))
              (target - default 0 (success_counts !! t)) w Hok)
    as [_ Hsome].
  apply elem_of_dom.
  replace i with (default 0 (success_counts !! t)
                  + (i - default 0 (success_counts !! t))) by lia.
  apply Hsome. lia.
Qed.

Lemma counts_of_lookup (n1 n2 n3 n4 : Z) :
  counts_of n1 n2 n3 n4 !! "natural" = Some n1 /\
  counts_of n1 n2 n3 n4 !! "scientific" = Some n2 /\
  counts_of n1 n2 n3 n4 !! "maps" = Some n3 /\
  counts_of n1 n2 n3 n4 !! "sushi" = Some n4.
Proof.
  unfold counts_of, FishDataExtractor.add_count.
  repeat split;
    repeat (rewrite lookup_insert_eq || (rewrite lookup_insert_ne by done));
    done.
Qed.

Lemma download_images_for_unfold (net : FishDataExtractor.network)
    (pil : FishDataExtractor.pillow) (fish : FishDataExtractor.FishData)
    (w : FishDataExtractor.world) :
  let fish_id := FishDataExtractor.id fish in
  let common_name := FishDataExtractor.unique_name fish in
  let scientific_name := FishDataExtractor.fish_scientific_name fish in
  let r1 := FishDataExtractor.download_natural_images net fish_id common_name
              scientific_name w in
  let r2 := FishDataExtractor.download_scientific_diagrams net fish_id
              common_name scientific_name r1.1 in
  let r3 := FishDataExtractor.download_habitat_maps net fish_id common_name
              scientific_name r2.1 in
  let r4 := FishDataExtractor.download_sushi_images net fish_id common_name
              (FishDataExtractor.japanese_name_romaji fish) r3.1 in
  FishDataExtractor.download_images_for net pil fish w
  = (FishDataExtractor.create_missing_placeholders pil fish_id common_name
       scientific_name (counts_of r1.2 r2.2 r3.2 r4.2) r4.1,
     counts_of r1.2 r2.2 r3.2 r4.2).
Proof.
  cbn zeta. unfold FishDataExtractor.download_images_for.
  destruct (FishDataExtractor.download_natural_images net _ _ _ w)
    as [w1 n1]; cbn [fst snd].
  destruct (FishDataExtractor.download_scientific_diagrams net _ _ _ w1)
    as [w2 n2]; cbn [fst snd].
  destruct (FishDataExtractor.download_habitat_maps net _ _ _ w2)
    as [w3 n3]; cbn [fst snd].
  destruct (FishDataExtractor.download_sushi_images net _ _ _ w3)
    as [w4 n4]; cbn [fst snd].
  reflexivity.
Qed.

Lemma download_images_for_dom (net : FishDataExtractor.network)
    (pil : FishDataExtractor.pillow) (fish : FishDataExtractor.FishData)
    (w : FishDataExtractor.world) :
  dom (FishDataExtractor.files w)
  ⊆ dom (FishDataExtractor.files
           (FishDataExtractor.download_images_for net pil fish w).1).
Proof.
  rewrite download_images_for_unfold. cbn [fst].
  unfold FishDataExtractor.create_missing_placeholders.
  etrans; [|apply missing_loop_dom].
  etrans; [|apply download_sushi_images_spec].
  etrans; [|apply download_habitat_maps_spec].
  etrans; [|apply download_scientific_diagrams_spec].
  apply download_natural_images_spec.
Qed.

(** X2.  The image pass never removes a file: every path present before
    [download_free_images] is present after it, whatever the network
    answers and whatever Pillow does. *)
Theorem download_free_images_keeps_files
    (net : FishDataExtractor.network) (pil : FishDataExtractor.pillow)
    (fish_list : list FishDataExtractor.FishData) :
  forall w,
    dom (FishDataExtractor.files w)
    ⊆ dom (FishDataExtractor.files
             (FishDataExtractor.download_free_images net pil fish_list w)).
Proof.
  induction fish_list as [|fish rest IH]; intros w; [done|].
  cbn [FishDataExtractor.download_free_images].
  etrans; [|apply IH]. apply download_images_for_dom.
Qed.

(** X3.  When no placeholder rendering raises, the pass over one entity
    leaves, in every category, the file of index 0 and the files of all
    indices from the reported count up to the target.  For the two
    categories with target 1 this is the whole category: the diagram and
    the habitat map always exist afterwards. *)
Theorem download_images_for_fills
    (net : FishDataExtractor.network) (pil : FishDataExtractor.pillow)
    (fish : FishDataExtractor.FishData) (w : FishDataExtractor.world) :
  never_raises pil ->
  let r := FishDataExtractor.download_images_for net pil fish w in
  let fish_id := FishDataExtractor.id fish in
  (forall image_type target_count i,
     (image_type, target_count) ∈ FishDataExtractor.targets ->
     0 <= i < target_count ->
     i = 0 \/ default 0 (r.2 !! image_type) <= i ->
     FishDataExtractor.target_path fish_id image_type i
     ∈ dom (FishDataExtractor.files r.1)) /\
  FishDataExtractor.target_path fish_id "scientific" 0
  ∈ dom (FishDataExtractor.files r.1) /\
  FishDataExtractor.target_path fish_id "maps" 0
  ∈ dom (FishDataExtractor.files r.1).
Proof.
  intros Hok. cbn zeta.
  assert (forall image_type target_count i,
     (image_type, target_count) ∈ FishDataExtractor.targets ->
     0 <= i < target_count ->
     i = 0 \/ default 0
                ((FishDataExtractor.download_images_for net pil fish w).2
                   !! image_type) <= i ->
     FishDataExtractor.target_path (FishDataExtractor.id fish) image_type i
     ∈ dom (FishDataExtractor.files
              (FishDataExtractor.download_images_for net pil fish w).1))
    as Hall.
  2: { split; [exact Hall|]. split.
       - apply (Hall "scientific" 1 0); [|lia|by left].
         unfold FishDataExtractor.targets.
         apply elem_of_cons; right. apply elem_of_cons. by left.
       - apply (Hall "maps" 1 0); [|lia|by left].
         unfold FishDataExtractor.targets.
         do 2 (apply elem_of_cons; right). apply elem_of_cons. by left. }
  rewrite download_images_for_unfold. cbn [fst snd].
  set (fish_id := FishDataExtractor.id fish).
  set (common_name := FishDataExtractor.unique_name fish).
  set (scientific_name := FishDataExtractor.fish_scientific_name fish).
  set (r1 := FishDataExtractor.download_natural_images net fish_id common_name
               scientific_name w).
  set (r2 := FishDataExtractor.download_scientific_diagrams net fish_id
               common_name scientific_name r1.1).
  set (r3 := FishDataExtractor.download_habitat_maps net fish_id common_name
               scientific_name r2.1).
  set (r4 := FishDataExtractor.download_sushi_images net fish_id common_name
               (FishDataExtractor.japanese_name_romaji fish) r3.1).
  pose proof (download_natural_images_spec net fish_id common_name
                scientific_name w) as (_ & _ & Hn1 & Hp1).
  pose proof (download_scientific_diagrams_spec net fish_id common_name
                scientific_name r1.1) as (Hd2 & _ & Hn2 & Hp2).
  pose proof (download_habitat_maps_spec net fish_id common_name
                scientific_name r2.1) as (Hd3 & _ & Hn3 & Hp3).
  pose proof (download_sushi_images_spec net fish_id common_name
                (FishDataExtractor.japanese_name_romaji fish) r3.1)
    as (Hd4 & _ & Hn4 & Hp4).
  cbn zeta in Hn1, Hp1, Hd2, Hn2, Hp2, Hd3, Hn3, Hp3, Hd4, Hn4, Hp4.
  fold r1 in Hn1, Hp1. fold r2 in Hd2, Hn2, Hp2.
  fold r3 in Hd3, Hn3, Hp3. fold r4 in Hd4, Hn4, Hp4.
  destruct (counts_of_lookup r1.2 r2.2 r3.2 r4.2) as (Hc1 & Hc2 & Hc3 & Hc4).
  intros t target i Hin Hi Hcase.
  unfold FishDataExtractor.create_missing_placeholders.
  destruct (decide (default 0 (counts_of r1.2 r2.2 r3.2 r4.2 !! t) <= i))
    as [Hge|Hlt].
  { apply (missing_loop_fills pil fish_id common_name scientific_name
             (counts_of r1.2 r2.2 r3.2 r4.2) FishDataExtractor.targets
             Hok r4.1 t target i); [done | lia]. }
  destruct Hcase as [->|Hcase]; [|lia].
  apply missing_loop_dom.
  unfold FishDataExtractor.targets in Hin.
  repeat (apply elem_of_cons in Hin as [Hin|Hin];
          [injection Hin as Ht Htarget; subst t target|]);
    try (by apply elem_of_nil in Hin).
  - rewrite Hc1 in Hlt. change (~ r1.2 <= 0) in Hlt. apply Hd4, Hd3, Hd2, Hp1. lia.
  - rewrite Hc2 in Hlt. change (~ r2.2 <= 0) in Hlt. apply Hd4, Hd3, Hp2. lia.
  - rewrite Hc3 in Hlt. change (~ r3.2 <= 0) in Hlt. apply Hd4, Hp3. lia.
  - rewrite Hc4 in Hlt. change (~ r4.2 <= 0) in Hlt. apply Hp4. lia.
Qed.

Lemma download_images_for_fills_witness :
  FishDataExtractor.target_path "bluefin_tuna" "scientific" 0
  ∈ dom (FishDataExtractor.files
           (FishDataExtractor.download_images_for overlapping
              FishDataExtractor.NotInstalled bluefin_tuna
              (FishDataExtractor.World ∅ [])).1).
Proof.
  apply (download_images_for_fills overlapping FishDataExtractor.NotInstalled
           bluefin_tuna (FishDataExtractor.World ∅ []) I).
Defined.

(** ** More on the fallback loop and the backfill *)

(** X4.  Early stop: once the running count has reached the target, the
    sources that follow are not invoked; adding sources after that point
    changes neither the count nor the world. *)
Theorem run_sources_stops_at_target (target : Z)
    (sources more : list FishDataExtractor.source) :
  forall (n : Z) (w : FishDataExtractor.world),
    target <= (FishDataExtractor.run_sources target sources n w).2 ->
    FishDataExtractor.run_sources target (sources ++ more) n w
    = FishDataExtractor.run_sources target sources n w.
Proof.
  induction sources as [|s rest IH]; intros n w Hreached.
  - cbn in Hreached |- *. destruct more as [|s' more']; [done|].
    cbn [FishDataExtractor.run_sources].
    by rewrite (proj2 (Z.leb_le _ _)).
  - cbn [app FishDataExtractor.run_sources] in Hreached |- *.
    destruct (target <=? n); [done|].
    destruct (s (FishDataExtractor.files w)) as [fs1 [m|]]; by apply IH.
Qed.

Lemma run_sources_stops_at_target_witness :
  FishDataExtractor.run_sources 1
    ([fun fs => (fs, FishDataExtractor.Returned 1)]
       ++ [fun fs => (∅, FishDataExtractor.Raised)]) 0
    (FishDataExtractor.World {[ "maps/x_habitat.jpg" := RawBytes [] ]} [])
  = (FishDataExtractor.World {[ "maps/x_habitat.jpg" := RawBytes [] ]} [], 1).
Proof.
  rewrite (run_sources_stops_at_target 1
             [fun fs => (fs, FishDataExtractor.Returned 1)]
             [fun fs => (∅, FishDataExtractor.Raised)] 0
             (FishDataExtractor.World {[ "maps/x_habitat.jpg" := RawBytes [] ]}
                                      [])).
  - reflexivity.
  - cbn. lia.
Defined.

Lemma basic_loop_frame (fish_id image_type : string) (start_index : Z)
    (indices : list Z) (p : string) :
  forall w,
    (forall i, i ∈ indices ->
               p <> FishDataExtractor.target_path fish_id image_type
                      (start_index + i)) ->
    FishDataExtractor.files
      (FishDataExtractor.basic_loop fish_id image_type start_index indices w)
      !! p
    = FishDataExtractor.files w !! p.
Proof.
  induction indices as [|i rest IH]; intros w Hp; [done|].
  cbn [FishDataExtractor.basic_loop]. rewrite IH.
  - cbn. rewrite lookup_insert_ne; [done|].
    intros Heq. apply (Hp i); [by left | done].
  - intros j Hj. apply Hp. by right.
Qed.

Lemma render_loop_frame (render_raises : string -> bool)
    (fish_id image_type : string) (color : Z * Z * Z) (text : string)
    (start_index : Z) (indices : list Z) (p : string) :
  forall w,
    (forall i, i ∈ indices ->
               p <> FishDataExtractor.target_path fish_id image_type
                      (start_index + i)) ->
    FishDataExtractor.files
      (FishDataExtractor.render_loop render_raises fish_id image_type color
         text start_index indices w) !! p
    = FishDataExtractor.files w !! p.
Proof.
  induction indices as [|i rest IH]; intros w Hp; [done|].
  cbn [FishDataExtractor.render_loop].
  destruct (render_raises _); [done|]. rewrite IH.
  - cbn. rewrite lookup_insert_ne; [done|].
    intros Heq. apply (Hp i); [by left | done].
  - intros j Hj. apply Hp. by right.
Qed.

Lemma create_type_specific_placeholders_frame
    (pil : FishDataExtractor.pillow)
    (fish_id common_name scientific_name image_type : string)
    (start_index count : Z) (w : FishDataExtractor.world) (p : string) :
  (forall i, start_index <= i < start_index + count ->
             p <> FishDataExtractor.target_path fish_id image_type i) ->
  FishDataExtractor.files
    (FishDataExtractor.create_type_specific_placeholders pil fish_id
       common_name scientific_name image_type start_index count w) !! p
  = FishDataExtractor.files w !! p.
Proof.
  intros Hp.
  assert (forall i, i ∈ FishDataExtractor.range count ->
                    p <> FishDataExtractor.target_path fish_id image_type
                           (start_index + i)) as Hp'.
  { intros i Hi%elem_of_range. apply Hp. lia. }
  unfold FishDataExtractor.create_type_specific_placeholders.
  destruct pil as [|render_raises].
  - unfold FishDataExtractor.create_basic_type_placeholders.
    by rewrite basic_loop_frame.
  - by rewrite render_loop_frame.
Qed.

Lemma missing_loop_frame (pil : FishDataExtractor.pillow)
    (fish_id common_name scientific_name : string)
    (success_counts : gmap string Z) (items : list (string * Z))
    (p : string) :
  forall w,
    (forall image_type target_count i,
       (image_type, target_count) ∈ items ->
       default 0 (success_counts !! image_type) <= i < target_count ->
       p <> FishDataExtractor.target_path fish_id image_type i) ->
    FishDataExtractor.files
      (FishDataExtractor.missing_loop pil fish_id common_name scientific_name
         success_counts items w) !! p
    = FishDataExtractor.files w !! p.
Proof.
  induction items as [|[t target] rest IH]; intros w Hp; [done|].
  cbn [FishDataExtractor.missing_loop]. rewrite IH.
  - destruct (0 <? _); [|done].
    apply create_type_specific_placeholders_frame.
    intros i Hi. apply (Hp t target); [by left | lia].
  - intros t' target' i Hin. apply Hp. by right.
Qed.

Lemma scientific_path (fish_id : string) (index : Z) :
  FishDataExtractor.target_path fish_id "scientific" index
  = "scientific/" +:+ fish_id +:+ "_diagram.jpg".
Proof. reflexivity. Qed.

Lemma maps_path (fish_id : string) (index : Z) :
  FishDataExtractor.target_path fish_id "maps" index
  = "maps/" +:+ fish_id +:+ "_habitat.jpg".
Proof. reflexivity. Qed.

(** X5.  The backfill writes nowhere but at the paths of the missing
    indices: a path that is not the target path of an index between the
    number downloaded and the target of its category keeps its file.
    In particular a file named for an index below the number downloaded
    in its own category is not overwritten, and when every count has
    reached its target the world is returned as it was. *)
Theorem create_missing_placeholders_frame
    (pil : FishDataExtractor.pillow)
    (fish_id common_name scientific_name : string)
    (success_counts : gmap string Z) (w : FishDataExtractor.world) :
  let w' := FishDataExtractor.create_missing_placeholders pil fish_id
              common_name scientific_name success_counts w in
  (forall p,
     (forall image_type target_count i,
        (image_type, target_count) ∈ FishDataExtractor.targets ->
        default 0 (success_counts !! image_type) <= i < target_count ->
        p <> FishDataExtractor.target_path fish_id image_type i) ->
     FishDataExtractor.files w' !! p = FishDataExtractor.files w !! p) /\
  (forall image_type target_count i,
     (image_type, target_count) ∈ FishDataExtractor.targets ->
     0 <= i < default 0 (success_counts !! image_type) ->
     FishDataExtractor.files w'
       !! FishDataExtractor.target_path fish_id image_type i
     = FishDataExtractor.files w
         !! FishDataExtractor.target_path fish_id image_type i) /\
  ((forall image_type target_count,
      (image_type, target_count) ∈ FishDataExtractor.targets ->
      target_count <= default 0 (success_counts !! image_type)) ->
   w' = w).
Proof.
  cbn zeta. split; [|split].
  - intros p Hp. by apply missing_loop_frame.
  - intros t target i Hin Hi. apply missing_loop_frame.
    intros t' target' j Hin' Hj.
    destruct (decide (t = t')) as [<-|Hne].
    { eapply placeholder_names_fresh; [exact Hin' | exact Hi | exact Hj]. }
    clear Hi Hj. unfold FishDataExtractor.targets in Hin, Hin'.
    repeat (apply elem_of_cons in Hin as [Hin|Hin];
            [injection Hin as Ht _; subst t|]);
      try (by apply elem_of_nil in Hin);
      repeat (apply elem_of_cons in Hin' as [Hin'|Hin'];
              [injection Hin' as Ht' _; subst t'|]);
      try (by apply elem_of_nil in Hin');
      try done;
      rewrite ?natural_path, ?sushi_path, ?scientific_path, ?maps_path;
      intros Heq; vm_compute in Heq; discriminate Heq.
  - unfold FishDataExtractor.create_missing_placeholders.
    generalize FishDataExtractor.targets as items.
    induction items as [|[t target] rest IH]; intros Hfull; [done|].
    cbn [FishDataExtractor.missing_loop].
    rewrite (proj2 (Z.ltb_ge _ _)).
    + apply IH. intros t' target' Hin. apply Hfull. by right.
    + specialize (Hfull t target ltac:(by left)). lia.
Qed.

Lemma create_missing_placeholders_frame_witness :
  FishDataExtractor.files
    (FishDataExtractor.create_missing_placeholders
       FishDataExtractor.NotInstalled "bluefin_tuna" "Bluefin Tuna"
       "Thunnus thynnus" (counts_of 1 1 1 1)
       (FishDataExtractor.World
          {[ "natural/bluefin_tuna_natural_1.jpg" := RawBytes [xff] ]} []))
    !! "natural/bluefin_tuna_natural_1.jpg"
  = Some (RawBytes [xff]).
Proof.
  rewrite (proj1 (create_missing_placeholders_frame
                    FishDataExtractor.NotInstalled "bluefin_tuna"
                    "Bluefin Tuna" "Thunnus thynnus" (counts_of 1 1 1 1)
                    (FishDataExtractor.World
                       {[ "natural/bluefin_tuna_natural_1.jpg"
                          := RawBytes [xff] ]} []))).
  - reflexivity.
  - intros t target i Hin Hi.
    destruct (counts_of_lookup 1 1 1 1) as (H1 & H2 & H3 & H4).
    unfold FishDataExtractor.targets in Hin.
    repeat (apply elem_of_cons in Hin as [Hin|Hin];
            [injection Hin as -> ->|]);
      try (by apply elem_of_nil in Hin).
    + rewrite H1 in Hi. cbn in Hi. assert (i = 1) as -> by lia.
      vm_compute. discriminate.
    + rewrite H2 in Hi. cbn in Hi. lia.
    + rewrite H3 in Hi. cbn in Hi. lia.
    + rewrite H4 in Hi. cbn in Hi. assert (i = 1) as -> by lia.
      vm_compute. discriminate.
Defined.

(** ** File names *)

Lemma append_cancel_r (s1 s2 t : string) :
  s1 +:+ t = s2 +:+ t -> s1 = s2.
Proof.
  revert s2. induction s1 as [|a s1 IH]; intros [|b s2] H.
  - done.
  - apply (f_equal String.length) in H.
    rewrite !append_length in H. cbn in H. lia.
  - apply (f_equal String.length) in H.
    rewrite !append_length in H. cbn in H. lia.
  - change (String a (s1 +:+ t) = String b (s2 +:+ t)) in H.
    injection H as -> H. f_equal. by apply IH.
Qed.

Lemma to_int_not_nil (n : Z) :
  Z.to_int n <> Decimal.Pos Decimal.Nil /\ Z.to_int n <> Decimal.Neg Decimal.Nil.
Proof.
  destruct n as [|p|p]; cbn; split; try discriminate;
    intros H; injection H as H; by apply DecimalPos.Unsigned.to_uint_nonnil in H.
Qed.

Lemma str_of_int_inj (a b : Z) : Py.str_of_int a = Py.str_of_int b -> a = b.
Proof.
  unfold Py.str_of_int. intros H.
  apply (f_equal NilZero.int_of_string) in H.
  destruct (to_int_not_nil a) as [Ha1 Ha2].
  destruct (to_int_not_nil b) as [Hb1 Hb2].
  rewrite !NilZero.isi in H by done.
  injection H as H. by apply DecimalZ.to_int_inj.
Qed.

(** X6.  How [get_filename] uses the index.  For natural images the name
    determines the index.  For diagrams and habitat maps the index is
    ignored.  For sushi images only index 0 has a name of its own: every
    other index gives the sashimi name. *)
Theorem get_filename_indices (fish_id : string) :
  (forall i j,
     FishDataExtractor.get_filename fish_id "natural" i
     = FishDataExtractor.get_filename fish_id "natural" j -> i = j) /\
  (forall i j,
     FishDataExtractor.get_filename fish_id "scientific" i
     = FishDataExtractor.get_filename fish_id "scientific" j) /\
  (forall i j,
     FishDataExtractor.get_filename fish_id "maps" i
     = FishDataExtractor.get_filename fish_id "maps" j) /\
  (forall i j,
     FishDataExtractor.get_filename fish_id "sushi" i
     = FishDataExtractor.get_filename fish_id "sushi" j
     <-> (i = 0 <-> j = 0)).
Proof.
  split; [|split; [|split]]; try done.
  - intros i j H.
    change (fish_id +:+ "_natural_" +:+ Py.str_of_int (i + 1) +:+ ".jpg"
            = fish_id +:+ "_natural_" +:+ Py.str_of_int (j + 1) +:+ ".jpg")
      in H.
    do 2 apply (inj (String.app _)) in H.
    apply append_cancel_r, str_of_int_inj in H. lia.
  - intros i j.
    change (FishDataExtractor.get_filename fish_id "sushi" i)
      with (fish_id +:+ "_" +:+ (if i =? 0 then "nigiri" else "sashimi")
              +:+ ".jpg").
    change (FishDataExtractor.get_filename fish_id "sushi" j)
      with (fish_id +:+ "_" +:+ (if j =? 0 then "nigiri" else "sashimi")
              +:+ ".jpg").
    destruct (Z.eqb_spec i 0) as [->|Hi]; destruct (Z.eqb_spec j 0) as [->|Hj].
    + split; [done|done].
    + split; [|intros [H _]; by specialize (H eq_refl)].
      intros H. do 2 apply (inj (String.app _)) in H. discriminate H.
    + split; [|intros [_ H]; by specialize (H eq_refl)].
      intros H. do 2 apply (inj (String.app _)) in H. discriminate H.
    + split; [|done]. intros _. by split.
Qed.

(** ** Rendering and the basic fallback *)

Lemma render_loop_until_failure (render_raises : string -> bool)
    (fish_id image_type : string) (color : Z * Z * Z) (text : string)
    (start_index : Z) (indices : list Z) :
  forall w,
    let paths := map (fun i => FishDataExtractor.target_path fish_id image_type
                                 (start_index + i)) indices in
    let w' := FishDataExtractor.render_loop render_raises fish_id image_type
                color text start_index indices w in
    created_of (FishDataExtractor.events w')
    = created_of (FishDataExtractor.events w)
      ++ until_failure render_raises paths /\
    (forall p, p ∈ until_failure render_raises paths ->
               FishDataExtractor.files w' !! p
               = Some (JpegOf (FishDataExtractor.placeholder_image color text)))
    /\
    (forall p, p ∉ until_failure render_raises paths ->
               FishDataExtractor.files w' !! p
               = FishDataExtractor.files w !! p).
Proof.
  induction indices as [|i rest IH]; intros w; cbn zeta.
  { cbn. rewrite app_nil_r. repeat split; try done.
    intros p Hp. by apply elem_of_nil in Hp. }
  cbn [FishDataExtractor.render_loop map until_failure].
  set (p0 := FishDataExtractor.target_path fish_id image_type (start_index + i)).
  destruct (render_raises p0).
  { cbn. rewrite created_of_app. cbn. rewrite app_nil_r.
    repeat split; try done. intros p Hp. by apply elem_of_nil in Hp. }
  set (w1 := FishDataExtractor.emit _ _).
  destruct (IH w1) as (He & Hin & Hout). cbn zeta in He, Hin, Hout.
  split; [|split].
  - rewrite He. subst w1. cbn. rewrite created_of_app. cbn.
    by rewrite <- app_assoc.
  - intros p Hp.
    destruct (decide (p ∈ until_failure render_raises
                (map (fun i0 => FishDataExtractor.target_path fish_id image_type
                                  (start_index + i0)) rest))) as [Hr|Hr].
    + by apply Hin.
    + rewrite (Hout p Hr). apply elem_of_cons in Hp as [->|Hp]; [|done].
      subst w1. cbn. apply lookup_insert_eq.
  - intros p Hp. apply not_elem_of_cons in Hp as [Hne Hp].
    rewrite (Hout p Hp). subst w1. cbn. by rewrite lookup_insert_ne.
Qed.

(** X7.  With Pillow installed, the placeholders of a call are rendered
    in index order up to the first one that raises: exactly those are
    reported and written, each with the category's picture, and no other
    path is touched. *)
Theorem rendering_stops_at_first_failure
    (render_raises : string -> bool)
    (fish_id common_name scientific_name image_type : string)
    (start_index count : Z) (w : FishDataExtractor.world) :
  let paths := map (fun i => FishDataExtractor.target_path fish_id image_type
                               (start_index + i)) (seqZ 0 count) in
  let picture :=
    FishDataExtractor.placeholder_image
      (default (128, 128, 128) (FishDataExtractor.color_map !! image_type))
      (default common_name
         (FishDataExtractor.text_map common_name scientific_name
            !! image_type)) in
  let w' := FishDataExtractor.create_type_specific_placeholders
              (FishDataExtractor.Installed render_raises) fish_id common_name
              scientific_name image_type start_index count w in
  created_of (FishDataExtractor.events w')
  = created_of (FishDataExtractor.events w) ++ until_failure render_raises paths
  /\
  (forall p, p ∈ until_failure render_raises paths ->
             FishDataExtractor.files w' !! p = Some (JpegOf picture)) /\
  (forall p, p ∉ until_failure render_raises paths ->
             FishDataExtractor.files w' !! p = FishDataExtractor.files w !! p).
Proof.
  cbn zeta. unfold FishDataExtractor.create_type_specific_placeholders.
  destruct (render_loop_until_failure render_raises fish_id image_type
              (default (128, 128, 128)
                       (FishDataExtractor.color_map !! image_type))
              (default common_name
                       (FishDataExtractor.text_map common_name scientific_name
                          !! image_type))
              start_index (FishDataExtractor.range count)
              (FishDataExtractor.emit
                 (FishDataExtractor.CreatingPlaceholders image_type
                    start_index count) w)) as (He & Hin & Hout).
  cbn zeta in He, Hin, Hout. split; [|split]; [|done..].
  rewrite He. cbn [FishDataExtractor.emit FishDataExtractor.events].
  rewrite created_of_app. cbn. by rewrite app_nil_r.
Qed.

Lemma rendering_stops_at_first_failure_witness :
  FishDataExtractor.files
    (FishDataExtractor.create_type_specific_placeholders
       (FishDataExtractor.Installed
          (fun p => String.eqb p "natural/bluefin_tuna_natural_2.jpg"))
       "bluefin_tuna" "Bluefin Tuna" "Thunnus thynnus" "natural" 0 2
       (FishDataExtractor.World ∅ []))
    !! "natural/bluefin_tuna_natural_2.jpg"
  = None.
Proof.
  rewrite (proj2 (proj2 (rendering_stops_at_first_failure
                           (fun p => String.eqb p
                                       "natural/bluefin_tuna_natural_2.jpg")
                           "bluefin_tuna" "Bluefin Tuna" "Thunnus thynnus"
                           "natural" 0 2 (FishDataExtractor.World ∅ [])))).
  - reflexivity.
  - vm_compute. intros H. apply list_elem_of_singleton in H. discriminate H.
Defined.

Lemma create_if_absent_spec (items : list (string * string)) (p : string) :
  forall w,
    FishDataExtractor.files (FishDataExtractor.create_if_absent items w) !! p
    = match FishDataExtractor.files w !! p with
      | Some f => Some f
      | None =>
          if bool_decide
               (p ∈ map (fun item => FishDataExtractor.image_path item.1 item.2)
                        items)
          then Some (RawBytes FishDataExtractor.minimal_jpeg)
          else None
      end.
Proof.
  induction items as [|[folder filename] rest IH]; intros w.
  { cbn. by destruct (FishDataExtractor.files w !! p). }
  cbn [FishDataExtractor.create_if_absent map fst snd].
  set (q := FishDataExtractor.image_path folder filename).
  destruct (FishDataExtractor.files w !! q) as [g|] eqn:Hq.
  - rewrite IH. destruct (FishDataExtractor.files w !! p) as [f|] eqn:Hp;
      [done|].
    assert (p <> q) as Hne by (intros ->; congruence).
    destruct (decide (p ∈ map (fun item =>
                FishDataExtractor.image_path item.1 item.2) rest)) as [Hin|Hin].
    + rewrite !bool_decide_eq_true_2; [done| by right | done].
    + rewrite !bool_decide_eq_false_2; [done| |done].
      intros Hc. apply elem_of_cons in Hc as [Hc|Hc]; done.
  - rewrite IH. cbn.
    destruct (decide (p = q)) as [->|Hne].
    + rewrite lookup_insert_eq, Hq.
      rewrite bool_decide_eq_true_2; [done | by left].
    + rewrite lookup_insert_ne by done.
      destruct (FishDataExtractor.files w !! p) as [f|]; [done|].
      destruct (decide (p ∈ map (fun item =>
                  FishDataExtractor.image_path item.1 item.2) rest))
        as [Hin|Hin].
      * rewrite !bool_decide_eq_true_2; [done| by right | done].
      * rewrite !bool_decide_eq_false_2; [done| |done].
        intros Hc. apply elem_of_cons in Hc as [Hc|Hc]; done.
Qed.

(** X8.  [create_basic_placeholders] fills gaps and nothing else: a file
    that exists is kept as it is, each of the six paths of the entity
    that was missing receives the fixed JPEG bytes, and no other path is
    created.  Running it again changes nothing. *)
Theorem create_basic_placeholders_fills_gaps
    (fish_id common_name scientific_name : string)
    (w : FishDataExtractor.world) :
  let w' := FishDataExtractor.create_basic_placeholders fish_id common_name
              scientific_name w in
  (forall p,
     FishDataExtractor.files w' !! p
     = match FishDataExtractor.files w !! p with
       | Some f => Some f
       | None =>
           if bool_decide (p ∈ basic_paths fish_id)
           then Some (RawBytes FishDataExtractor.minimal_jpeg)
           else None
       end) /\
  basic_paths fish_id
  = [ FishDataExtractor.target_path fish_id "natural" 0;
      FishDataExtractor.target_path fish_id "natural" 1;
      FishDataExtractor.target_path fish_id "sushi" 0;
      FishDataExtractor.target_path fish_id "sushi" 1;
      FishDataExtractor.target_path fish_id "maps" 0;
      FishDataExtractor.target_path fish_id "scientific" 0 ] /\
  FishDataExtractor.files
    (FishDataExtractor.create_basic_placeholders fish_id common_name
       scientific_name w')
  = FishDataExtractor.files w'.
Proof.
  cbn zeta. split; [|split].
  - intros p. apply create_if_absent_spec.
  - reflexivity.
  - apply map_eq. intros p.
    unfold FishDataExtractor.create_basic_placeholders.
    rewrite !create_if_absent_spec.
    destruct (FishDataExtractor.files w !! p); [done|].
    by destruct (bool_decide _).
Qed.

(** ** Records and the dataset *)

Lemma build_description_some (common_name : string)
    (fishbase_data wikipedia_data : option (gmap string string)) :
  exists text,
    FishDataExtractor.build_description common_name fishbase_data
                                        wikipedia_data
    = Some (FishDataExtractor.truncate_description text).
Proof.
  unfold FishDataExtractor.build_description.
  destruct (FishDataExtractor.field wikipedia_data "extract") as [e|];
    destruct (FishDataExtractor.field fishbase_data "Comments") as [c|];
    cbn [FishDataExtractor.append_if_present app]; eauto.
  destruct (FishDataExtractor.fallback_descriptions !! common_name) as [t|];
    cbn; eauto.
Qed.


Lemma extract_fish_data_unfold
    (net : FishDataExtractor.network)
    (species : FishDataExtractor.species_info) :
  exists text,
    FishDataExtractor.extract_fish_data net species
    = if extractable net species then
        let fish_id := FishDataExtractor.generate_fish_id
                         (FishDataExtractor.common_name species) in
        Some {| FishDataExtractor.id := fish_id;
                FishDataExtractor.unique_name :=
                  FishDataExtractor.common_name species;
                FishDataExtractor.description :=
                  FishDataExtractor.truncate_description text;
                FishDataExtractor.fish_scientific_name :=
                  FishDataExtractor.scientific_name species;
                FishDataExtractor.japanese_name_romaji :=
                  FishDataExtractor.japanese_romaji species;
                FishDataExtractor.sushi_images :=
                  FishDataExtractor.get_image_paths fish_id "sushi";
                FishDataExtractor.wild_images :=
                  FishDataExtractor.get_image_paths fish_id "natural";
                FishDataExtractor.habitat_map_image :=
                  "assets/images/maps/" +:+ fish_id +:+ "_habitat.jpg" |}
      else None.
Proof.
  unfold FishDataExtractor.extract_fish_data, extractable.
  set (fishbase_data := FishDataExtractor.fetch_fishbase_data net _).
  set (wikipedia_data := FishDataExtractor.fetch_wikipedia_data net _).
  destruct (build_description_some (FishDataExtractor.common_name species)
              (FishDataExtractor.text_entries <$> fishbase_data)
              wikipedia_data) as [text Htext].
  exists text.
  assert (FishDataExtractor.describe (FishDataExtractor.common_name species)
            fishbase_data wikipedia_data
          = if describable fishbase_data wikipedia_data
            then Some (FishDataExtractor.truncate_description text)
            else None) as ->.
  { unfold FishDataExtractor.describe, describable. rewrite Htext.
    destruct (FishDataExtractor.entry fishbase_data FishDataExtractor.Comments)
      as [[]|];
      destruct (FishDataExtractor.field wikipedia_data "extract"); done. }
  destruct (describable fishbase_data wikipedia_data); [|done].
  unfold measurable, FishDataExtractor.extract_size,
    FishDataExtractor.extract_weight.
  cbn [mbind option_bind andb].
  destruct (FishDataExtractor.entry _ FishDataExtractor.Length) as [cm|];
    [destruct (FishDataExtractor.times_float cm); [|done]|];
    (destruct (FishDataExtractor.entry _ FishDataExtractor.Weight) as [kg|];
     [by destruct (FishDataExtractor.times_float kg)|done]).
Qed.



Lemma omap_extract_fish_data (net : FishDataExtractor.network)
    (l : list FishDataExtractor.species_info) :
  map FishDataExtractor.unique_name
      (omap (FishDataExtractor.extract_fish_data net) l)
  = map FishDataExtractor.common_name (List.filter (extractable net) l) /\
  map FishDataExtractor.id
      (omap (FishDataExtractor.extract_fish_data net) l)
  = map (fun s => FishDataExtractor.generate_fish_id
                    (FishDataExtractor.common_name s))
        (List.filter (extractable net) l).
Proof.
  induction l as [|s rest [IH1 IH2]]; [done|].
  destruct (extract_fish_data_unfold net s) as [text Hex].
  cbn [omap list_omap List.filter]. rewrite Hex.
  destruct (extractable net s); [|done].
  cbn. by rewrite IH1, IH2.
Qed.

Lemma filter_all_true {A : Type} (f : A -> bool) (l : list A) :
  (forall x, x ∈ l -> f x = true) -> List.filter f l = l.
Proof.
  induction l as [|x l IH]; intros Hall; [done|].
  cbn. rewrite (Hall x) by (by left). f_equal. apply IH.
  intros y Hy. apply Hall. by right.
Qed.

Lemma NoDup_map_filter {A B : Type} (g : A -> B) (f : A -> bool)
    (l : list A) :
  NoDup (map g l) -> NoDup (map g (List.filter f l)).
Proof.
  induction l as [|x l IH]; intros Hnd; [done|].
  cbn in Hnd. apply NoDup_cons in Hnd as [Hx Hnd].
  cbn. destruct (f x); [|by apply IH].
  cbn. apply NoDup_cons. split; [|by apply IH].
  intros Hin. apply Hx. apply list_elem_of_fmap in Hin as (y & -> & Hy).
  apply list_elem_of_fmap. exists y. split; [done|].
  apply list_elem_of_In, filter_In in Hy as [Hy _].
  by apply list_elem_of_In.
Qed.

(** X10.  With [extract_fish_data] as the extraction step,
    [run_extraction] keeps, in the order of the species list, exactly
    the species whose extraction does not raise.  The ids of the
    records are pairwise distinct and [total_species] is their number,
    at most 20; it is 20, with every species of the list present, when
    no extraction raises, whatever the rest of the network answers and
    whatever Pillow does. *)
Theorem run_extraction_dataset
    (net : FishDataExtractor.network) (pil : FishDataExtractor.pillow)
    (w : FishDataExtractor.world) :
  let d := (FishDataExtractor.run_extraction
              (FishDataExtractor.extract_fish_data net) net pil w).2 in
  let kept := List.filter (extractable net)
                          FishDataExtractor.get_top_20_fish_species in
  map FishDataExtractor.unique_name (FishDataExtractor.fish_database d)
  = map FishDataExtractor.common_name kept /\
  map FishDataExtractor.id (FishDataExtractor.fish_database d)
  = map (fun s => FishDataExtractor.generate_fish_id
                    (FishDataExtractor.common_name s)) kept /\
  NoDup (map FishDataExtractor.id (FishDataExtractor.fish_database d)) /\
  FishDataExtractor.total_species d
  = Z.of_nat (length (FishDataExtractor.fish_database d)) /\
  FishDataExtractor.total_species d = Z.of_nat (length kept) /\
  FishDataExtractor.total_species d <= 20 /\
  ((forall s, s ∈ FishDataExtractor.get_top_20_fish_species ->
              extractable net s = true) ->
   map FishDataExtractor.unique_name (FishDataExtractor.fish_database d)
   = map FishDataExtractor.common_name
         FishDataExtractor.get_top_20_fish_species /\
   FishDataExtractor.total_species d = 20).
Proof.
  cbn zeta.
  assert (NoDup (map (fun s => FishDataExtractor.generate_fish_id
                                 (FishDataExtractor.common_name s))
                     FishDataExtractor.get_top_20_fish_species)) as Hnd.
  { apply (bool_decide_unpack _). by vm_compute. }
  assert (length FishDataExtractor.get_top_20_fish_species = 20%nat) as Hlen
    by reflexivity.
  revert Hnd Hlen. unfold FishDataExtractor.run_extraction.
  generalize FishDataExtractor.get_top_20_fish_species as species_list.
  intros species_list Hnd Hlen.
  pose proof (extract_all_spec (FishDataExtractor.extract_fish_data net)
                species_list [] w) as (H1 & _).
  destruct (FishDataExtractor.extract_all _ species_list [] w) as [w' l].
  cbn [snd app] in H1. subst l.
  cbn [snd FishDataExtractor.generate_json_dataset
       FishDataExtractor.fish_database FishDataExtractor.total_species].
  destruct (omap_extract_fish_data net species_list) as [Hn Hi].
  assert (length (omap (FishDataExtractor.extract_fish_data net) species_list)
          = length (List.filter (extractable net) species_list)) as Hcount.
  { rewrite <- (length_map FishDataExtractor.unique_name), Hn.
    by rewrite length_map. }
  pose proof (List.filter_length_le (extractable net) species_list) as Hle.
  split; [done|]. split; [done|].
  split; [rewrite Hi; by apply NoDup_map_filter|].
  split; [done|]. split; [by rewrite Hcount|]. split; [lia|].
  intros Hall. rewrite Hn, Hcount, (filter_all_true _ _ Hall).
  split; [done | lia].
Qed.

(** FishBase does not answer: twenty records. *)
Lemma run_extraction_dataset_witness :
  FishDataExtractor.total_species
    (FishDataExtractor.run_extraction
       (FishDataExtractor.extract_fish_data overlapping) overlapping
       FishDataExtractor.NotInstalled (FishDataExtractor.World ∅ [])).2
  = 20.
Proof.
  apply (proj2 (proj2 (proj2 (proj2 (proj2 (proj2
           (run_extraction_dataset overlapping FishDataExtractor.NotInstalled
              (FishDataExtractor.World ∅ [])))))))).
  intros s _. reflexivity.
Defined.

(** ** Aliases *)

(** X11.  [get_aliases] returns each alias once: the romaji name is
    always among them, the others are exactly the entries of the alias
    table for the display name, and a name absent from the table gives
    the romaji name alone. *)
Theorem get_aliases_spec (common_name japanese_romaji : string) :
  NoDup (FishDataExtractor.get_aliases common_name japanese_romaji) /\
  japanese_romaji
  ∈ FishDataExtractor.get_aliases common_name japanese_romaji /\
  (forall a,
     a ∈ FishDataExtractor.get_aliases common_name japanese_romaji <->
     a = japanese_romaji \/
     exists more, FishDataExtractor.alias_map !! common_name = Some more /\
                  a ∈ more) /\
  (FishDataExtractor.alias_map !! common_name = None ->
   FishDataExtractor.get_aliases common_name japanese_romaji
   = [japanese_romaji]) /\
  length (FishDataExtractor.get_aliases "Bluefin Tuna" "Kuro-maguro") = 3%nat.
Proof.
  assert (forall a,
     a ∈ FishDataExtractor.get_aliases common_name japanese_romaji <->
     a = japanese_romaji \/
     exists more, FishDataExtractor.alias_map !! common_name = Some more /\
                  a ∈ more) as Hmem.
  { intros a. unfold FishDataExtractor.get_aliases.
    rewrite elem_of_elements, elem_of_list_to_set.
    destruct (FishDataExtractor.alias_map !! common_name) as [more|].
    - rewrite elem_of_app, list_elem_of_singleton. split.
      + intros [->|Hin]; [by left | right; eauto].
      + intros [->|(m & Hm & Hin)]; [by left|].
        injection Hm as <-. by right.
    - rewrite list_elem_of_singleton. split; [by left|].
      intros [->|(m & Hm & _)]; [done | discriminate Hm]. }
  split; [apply NoDup_elements|]. split; [apply Hmem; by left|].
  split; [exact Hmem|]. split; [|by vm_compute].
  intros Hnone. unfold FishDataExtractor.get_aliases. rewrite Hnone.
  cbn [list_to_set foldr]. rewrite union_empty_r_L.
  apply elements_singleton.
Qed.

Lemma get_aliases_spec_witness :
  FishDataExtractor.get_aliases "Pacific Saury" "Sanma" = ["Sanma"].
Proof.
  apply (proj1 (proj2 (proj2 (proj2 (get_aliases_spec "Pacific Saury"
                                       "Sanma"))))).
  reflexivity.
Defined.

(** ** The stored body *)

Lemma received_concat (content : FishDataExtractor.body) :
  FishDataExtractor.received content
  = concat (FishDataExtractor.chunks content).
Proof.
  unfold FishDataExtractor.received.
  induction (FishDataExtractor.chunks content) as [|c rest IH]; [done|].
  cbn. destruct c as [|b c]; cbn; [done|]. by rewrite IH.
Qed.

(** X12.  When [download_image_from_url] returns True, the target file
    holds the whole body: the bytes of all chunks in the order received.
    Skipping the empty chunks loses nothing. *)
Theorem download_stores_whole_body
    (net : FishDataExtractor.network) (url filepath : string)
    (fs : gmap string file) :
  (FishDataExtractor.download_image_from_url net url filepath fs).2 = true ->
  exists status content_type content,
    FishDataExtractor.get_image net url
    = FishDataExtractor.Fetched status content_type content /\
    FishDataExtractor.breaks content = false /\
    (FishDataExtractor.download_image_from_url net url filepath fs).1
      !! filepath
    = Some (RawBytes (concat (FishDataExtractor.chunks content))).
Proof.
  unfold FishDataExtractor.download_image_from_url.
  destruct (FishDataExtractor.get_image net url) as [|status ct content];
    [done|].
  destruct (status =? 200); [|done].
  destruct (Py.contains "image" (default "" ct)); [|done].
  destruct (FishDataExtractor.breaks content) eqn:Hb; [done|].
  intros _. exists status, ct, content. split; [done|]. split; [done|].
  cbn [fst]. rewrite lookup_insert_eq. by rewrite received_concat.
Qed.

Lemma download_stores_whole_body_witness :
  (FishDataExtractor.download_image_from_url (always good_jpeg) "u"
     "maps/x_habitat.jpg" ∅).1 !! "maps/x_habitat.jpg"
  = Some (RawBytes [xff; xd8; xff; xd9]).
Proof.
  destruct (download_stores_whole_body (always good_jpeg) "u"
              "maps/x_habitat.jpg" ∅ eq_refl)
    as (status & ct & content & Hget & _ & Hfile).
  rewrite Hfile. injection Hget as _ _ <-. reflexivity.
Defined.

(** ** The fix-and-resize script: what it touches *)

Lemma fixer_download_frame (net : FishDataExtractor.network)
    (url filepath : string) (fs : gmap string file) :
  let r := ImageFixerResizer.download_image_from_url net url filepath fs in
  (forall p, p <> filepath -> r.1 !! p = fs !! p) /\
  (forall p, is_Some (fs !! p) -> is_Some (r.1 !! p)) /\
  (r.2 = true -> exists data, r.1 !! filepath = Some (RawBytes data)).
Proof.
  cbn zeta. unfold ImageFixerResizer.download_image_from_url.
  destruct (FishDataExtractor.get_image net url) as [|status ct content];
    [done|].
  destruct (status =? 200); [|done].
  destruct (Py.contains "image" (default "" ct)); [|done].
  assert (forall p, is_Some (fs !! p) ->
            is_Some (<[filepath := RawBytes
                         (FishDataExtractor.received content)]> fs !! p))
    as Hkeep.
  { intros p Hp. destruct (decide (filepath = p)) as [->|Hne].
    - rewrite lookup_insert_eq. eauto.
    - by rewrite lookup_insert_ne. }
  destruct (FishDataExtractor.breaks content); cbn [fst snd].
  - split; [|split; [done|done]].
    intros p Hp. by rewrite lookup_insert_ne.
  - split; [|split; [done|]].
    + intros p Hp. by rewrite lookup_insert_ne.
    + intros _. eexists. apply lookup_insert_eq.
Qed.

Lemma try_each_frame (net : FishDataExtractor.network) (filepath : string)
    (titles : list string) :
  forall fs,
    let r := try_each net filepath titles fs in
    (forall p, p <> filepath -> r.1 !! p = fs !! p) /\
    (forall p, is_Some (fs !! p) -> is_Some (r.1 !! p)) /\
    (r.2 = true -> exists data, r.1 !! filepath = Some (RawBytes data)).
Proof.
  induction titles as [|title rest IH]; intros fs; cbn zeta; [done|].
  cbn [try_each].
  destruct (FishDataExtractor.usable (get_wikimedia_image_url net title))
    as [image_url|]; [|apply IH].
  pose proof (fixer_download_frame net image_url filepath fs)
    as (Hf & Hk & Hs).
  destruct (ImageFixerResizer.download_image_from_url net image_url filepath fs)
    as [fs1 [|]]; cbn [fst snd] in Hf, Hk, Hs; [done|].
  destruct (IH fs1) as (Hf' & Hk' & Hs').
  split; [|split; [|done]].
  - intros p Hp. by rewrite Hf', Hf.
  - intros p Hp. by apply Hk', Hk.
Qed.

(** X13.  A replacement download writes to its target path only: every
    other path keeps its file, no file disappears, and a result of True
    means the target path now holds downloaded bytes. *)
Theorem try_wikimedia_download_frame
    (net : FishDataExtractor.network)
    (search_term filepath image_type : string) (fs : gmap string file) :
  let r := try_wikimedia_download net search_term filepath image_type fs in
  (forall p, p <> filepath -> r.1 !! p = fs !! p) /\
  (forall p, is_Some (fs !! p) -> is_Some (r.1 !! p)) /\
  (r.2 = true -> exists data, r.1 !! filepath = Some (RawBytes data)).
Proof.
  cbn zeta. unfold try_wikimedia_download.
  destruct (FishDataExtractor.commons_search net _) as [|status [titles|]];
    try done.
  destruct (status =? 200); [|done]. apply try_each_frame.
Qed.

Lemma try_wikimedia_download_frame_witness :
  (try_wikimedia_download all_found "red snapper fish"
     "natural/red_snapper_natural_2.jpg" "natural"
     {[ "notes.txt" := RawBytes [x00] ]}).1 !! "notes.txt"
  = Some (RawBytes [x00]).
Proof.
  rewrite (proj1 (try_wikimedia_download_frame all_found "red snapper fish"
                    "natural/red_snapper_natural_2.jpg" "natural"
                    {[ "notes.txt" := RawBytes [x00] ]})).
  - reflexivity.
  - discriminate.
Defined.

Lemma replace_each_frame (net : FishDataExtractor.network)
    (images : list string) :
  forall previous_key fs fs',
    replace_each net images previous_key fs = Some fs' ->
    (forall p, p ∉ images -> fs' !! p = fs !! p) /\
    (forall p, is_Some (fs !! p) -> is_Some (fs' !! p)).
Proof.
  induction images as [|q rest IH]; intros previous_key fs fs' Hrun.
  { cbn in Hrun. by injection Hrun as <-. }
  cbn [replace_each] in Hrun.
  destruct (replace_one net q previous_key fs) as [[fs1 key]|] eqn:Hone;
    [|done].
  cbn in Hrun. destruct (IH _ _ _ Hrun) as [Hf Hk].
  unfold replace_one in Hone.
  destruct (Py.split "/" q !! 0%nat) as [folder|]; [|done].
  destruct (Py.split "/" q !! 1%nat) as [filename|]; [|done].
  cbn [mbind option_bind] in Hone.
  destruct (if decide (folder = "natural") then _ else _) as [fish_key|];
    [|done].
  cbn [mbind option_bind] in Hone. injection Hone as <- _.
  destruct (try_wikimedia_download_frame net
              (default (Py.replace "_" " " fish_key)
                       (fish_search_terms !! fish_key)) q folder fs)
    as (Hf1 & Hk1 & _).
  split.
  - intros p Hp. apply not_elem_of_cons in Hp as [Hne Hp].
    by rewrite (Hf p Hp), Hf1.
  - intros p Hp. by apply Hk, Hk1.
Qed.

Lemma resize_one_frame (pil : pillow) (st : pass) (q p : string) :
  p <> q -> files (resize_one pil st q) !! p = files st !! p.
Proof.
  intros Hne. unfold resize_one.
  destruct (files st !! q) as [g|]; [|done].
  destruct (open_image pil g) as [img|]; [|done].
  case_decide; [|done].
  destruct (resize_raises pil img); [done|].
  destruct (save_raises pil (resized (to_rgb img))); cbn;
    by rewrite lookup_insert_ne.
Qed.

Lemma resize_paths_frame (pil : pillow) (paths : list string) (p : string) :
  p ∉ paths ->
  forall st, files (foldl (resize_one pil) st paths) !! p = files st !! p.
Proof.
  induction paths as [|q rest IH]; intros Hp st; [done|].
  apply not_elem_of_cons in Hp as [Hne Hp].
  cbn [foldl]. rewrite (IH Hp). by apply resize_one_frame.
Qed.

Lemma resize_folders_frame (pil : pillow) (dirs : list string) (p : string) :
  (forall d, d ∈ dirs -> in_folder d p = false) ->
  forall st, files (foldl (resize_folder pil) st dirs) !! p = files st !! p.
Proof.
  induction dirs as [|d rest IH]; intros Hp st; [done|].
  cbn [foldl]. rewrite IH by (intros d' Hd'; apply Hp; by right).
  unfold resize_folder. apply resize_paths_frame.
  intros Hin. apply elem_of_glob in Hin as [Hin _].
  rewrite (Hp d) in Hin; [done | by left].
Qed.

(** X14.  [run_fix_and_resize] completes when no placeholder of the
    list raises, and is ended by the exception when one does.  After a
    run that completes, the paths present are those present before
    together with the six listed ones, and a file that is neither listed
    nor a [.jpg] directly under one of the four image folders is exactly
    as it was. *)
Theorem run_fix_and_resize_frame
    (net : FishDataExtractor.network) (pil : pillow)
    (fs : gmap string file) :
  (Forall (fun p => placeholder_raises pil p = false) broken_images ->
   is_Some (run_fix_and_resize net pil fs)) /\
  (Exists (fun p => placeholder_raises pil p = true) broken_images ->
   run_fix_and_resize net pil fs = None) /\
  forall r,
    run_fix_and_resize net pil fs = Some r ->
    (forall p, is_Some (files r !! p)
               <-> is_Some (fs !! p) \/ p ∈ broken_images) /\
    (forall p, p ∉ broken_images -> out_of_scope p ->
               files r !! p = fs !! p).
Proof.
  destruct (replace_each_total net broken_images broken_images_known None fs)
    as [fs1 Hfs1].
  destruct (replace_each_frame net broken_images None fs fs1 Hfs1)
    as [Hf1 Hk1].
  assert (run_fix_and_resize net pil fs
          = resize_all_images pil <$> fix_each pil broken_images fs1) as ->.
  { unfold run_fix_and_resize, download_better_replacement_images,
      fix_broken_images.
    rewrite Hfs1. cbn [mbind option_bind].
    by destruct (fix_each pil broken_images fs1). }
  split; [|split].
  - intros Hok.
    destruct (fix_each_spec pil broken_images broken_images_known
                broken_images_nodup Hok fs1) as (fs2 & -> & _).
    by eexists.
  - intros Hbad.
    destruct (fix_each pil broken_images fs1) as [fs2|] eqn:Hfix; [|done].
    exfalso.
    pose proof (fix_each_completes pil _ broken_images_known fs1
                  ltac:(by rewrite Hfix)) as Hok.
    apply Exists_exists in Hbad as (p & Hp & Hraises).
    rewrite Forall_forall in Hok. specialize (Hok p Hp). congruence.
  - intros r Hr.
    destruct (fix_each pil broken_images fs1) as [fs2|] eqn:Hfix; [|done].
    cbn [fmap option_fmap option_map] in Hr. injection Hr as <-.
    pose proof (fix_each_completes pil _ broken_images_known fs1
                  ltac:(by rewrite Hfix)) as Hok.
    destruct (fix_each_spec pil broken_images broken_images_known
                broken_images_nodup Hok fs1) as (fs2' & Hfs2 & Hin2 & Hout2).
    rewrite Hfix in Hfs2. injection Hfs2 as <-.
    destruct (resize_folders_settle pil folders (Pass fs2 0 []))
      as (_ & _ & Hdom).
    fold (resize_all_images pil fs2) in Hdom. cbn [files] in Hdom.
    split.
    + intros p. rewrite Hdom.
      destruct (decide (p ∈ broken_images)) as [Hin|Hnin].
      * destruct (Hin2 p Hin) as (img & _ & _ & Hlook). rewrite Hlook.
        split; [by right | eauto].
      * rewrite (Hout2 p Hnin), (Hf1 p Hnin). split; [by left|].
        intros [H|H]; done.
    + intros p Hnin Hscope. unfold resize_all_images.
      rewrite resize_folders_frame by exact Hscope. cbn [files].
      by rewrite (Hout2 p Hnin), (Hf1 p Hnin).
Qed.

(** Notes outside the image folders survive a run that replaces, fixes
    and resizes. *)
Lemma run_fix_and_resize_frame_witness :
  exists r,
    run_fix_and_resize all_found (readable_as (800, 600))
      {[ "notes/readme.txt" := RawBytes [x00] ]} = Some r /\
    files r !! "notes/readme.txt" = Some (RawBytes [x00]).
Proof.
  destruct (run_fix_and_resize_frame all_found (readable_as (800, 600))
              {[ "notes/readme.txt" := RawBytes [x00] ]})
    as (Hcompletes & _ & Hframe).
  destruct Hcompletes as [r Hr].
  { unfold broken_images. repeat constructor. }
  exists r. split; [exact Hr|].
  destruct (Hframe r Hr) as [_ Hout].
  rewrite Hout; [vm_compute; reflexivity | |].
  - apply (bool_decide_unpack _). by vm_compute.
  - intros folder Hfolder. unfold folders in Hfolder.
    repeat (apply elem_of_cons in Hfolder as [->|Hfolder];
            [vm_compute; reflexivity|]).
    exfalso. exact (proj1 (elem_of_nil folder) Hfolder).
Defined.

(** ** The resize pass: what it leaves *)

(** X15.  After [resize_all_images], every [.jpg] directly under one of
    the four folders that Pillow can open, and whose resizing does not
    raise, measures 400x300. *)
Theorem resize_makes_uniform (pil : pillow) (fs : gmap string file)
    (folder p : string) (f : file) (img : image) :
  folder ∈ folders -> in_folder folder p = true ->
  files (resize_all_images pil fs) !! p = Some f ->
  open_image pil f = Some img ->
  resize_raises pil img = false ->
  size img = (400, 300).
Proof.
  intros Hd Hin Hf Hopen Hok.
  destruct (resize_folders_settle pil folders (Pass fs 0 []))
    as (Hsettled & _ & _).
  fold (resize_all_images pil fs) in Hsettled.
  specialize (Hsettled folder p f Hd Hin Hf). unfold settled in Hsettled.
  rewrite Hopen in Hsettled. destruct Hsettled as [H|H]; [done | congruence].
Qed.

Lemma resize_makes_uniform_witness :
  size (resized (to_rgb (Image (800, 600) "P" (FromBytes [x47]))))
  = (400, 300).
Proof.
  apply (resize_makes_uniform (readable_as (800, 600))
           {[ "scientific/x_diagram.jpg" := JpegOf (Image (800, 600) "P"
                                                      (FromBytes [x47])) ]}
           "scientific" "scientific/x_diagram.jpg"
           (JpegOf (resized (to_rgb (Image (800, 600) "P"
                                           (FromBytes [x47])))))).
  - unfold folders. apply elem_of_cons; right. apply elem_of_cons. by left.
  - reflexivity.
  - vm_compute. reflexivity.
  - reflexivity.
  - reflexivity.
Defined.







(** ** Where the downloads write *)

Lemma download_image_from_url_frame (net : FishDataExtractor.network)
    (url filepath : string) (fs : gmap string file) (p : string) :
  p <> filepath ->
  (FishDataExtractor.download_image_from_url net url filepath fs).1 !! p
  = fs !! p.
Proof.
  intros Hne. unfold FishDataExtractor.download_image_from_url.
  destruct (FishDataExtractor.get_image net url) as [|status ct content];
    [done|].
  destruct (status =? 200); [|done].
  destruct (Py.contains "image" (default "" ct)); [|done].
  destruct (FishDataExtractor.breaks content); cbn [fst];
    by rewrite lookup_insert_ne.
Qed.

Lemma download_each_frame (net : FishDataExtractor.network)
    (fish_id image_type : string) (urls : list string) (p : string) :
  forall (n : Z) (fs : gmap string file),
    (forall i, n <= i < n + Z.of_nat (length urls) ->
               p <> FishDataExtractor.target_path fish_id image_type i) ->
    (FishDataExtractor.download_each net fish_id image_type urls n fs).1 !! p
    = fs !! p.
Proof.
  induction urls as [|u rest IH]; intros n fs Hp; [done|].
  cbn [FishDataExtractor.download_each]. cbn [length] in Hp.
  pose proof (download_image_from_url_frame net u
                (FishDataExtractor.target_path fish_id image_type n) fs p
                (Hp n ltac:(lia))) as Hone.
  destruct (FishDataExtractor.download_image_from_url net u
              (FishDataExtractor.target_path fish_id image_type n) fs)
    as [fs1 [|]]; cbn [fst] in Hone; rewrite <- Hone; apply IH;
    intros i Hi; apply Hp; lia.
Qed.

Lemma wikimedia_results_frame (net : FishDataExtractor.network)
    (fish_id image_type : string) (target_count : Z) (titles : list string)
    (p : string) :
  forall (n : Z) (fs : gmap string file),
    (forall i, n <= i < target_count ->
               p <> FishDataExtractor.target_path fish_id image_type i) ->
    (FishDataExtractor.wikimedia_results net fish_id image_type target_count
       titles n fs).1 !! p
    = fs !! p.
Proof.
  induction titles as [|title rest IH]; intros n fs Hp; [done|].
  cbn [FishDataExtractor.wikimedia_results].
  destruct (Z.leb_spec target_count n) as [Hge|Hlt]; [done|].
  destruct (FishDataExtractor.usable
              (FishDataExtractor.get_wikimedia_image_url net title))
    as [image_url|]; [|by apply IH].
  pose proof (download_image_from_url_frame net image_url
                (FishDataExtractor.target_path fish_id image_type n) fs p
                (Hp n ltac:(lia))) as Hone.
  destruct (FishDataExtractor.download_image_from_url net image_url
              (FishDataExtractor.target_path fish_id image_type n) fs)
    as [fs1 [|]]; cbn [fst] in Hone; rewrite <- Hone; apply IH;
    intros i Hi; apply Hp; lia.
Qed.

Lemma wikimedia_queries_frame (net : FishDataExtractor.network)
    (fish_id image_type : string) (target_count : Z) (queries : list string)
    (p : string) :
  forall (n : Z) (fs : gmap string file),
    (forall i, n <= i < target_count ->
               p <> FishDataExtractor.target_path fish_id image_type i) ->
    (FishDataExtractor.wikimedia_queries net fish_id image_type target_count
       queries n fs).1 !! p
    = fs !! p.
Proof.
  induction queries as [|query rest IH]; intros n fs Hp; [done|].
  cbn [FishDataExtractor.wikimedia_queries].
  destruct (Z.leb_spec target_count n) as [Hge|Hlt]; [done|].
  destruct (FishDataExtractor.commons_search net _) as [|status [titles|]];
    try by apply IH.
  destruct (status =? 200); [|by apply IH].
  pose proof (wikimedia_results_frame net fish_id image_type target_count
                titles p n fs Hp) as Hone.
  pose proof (wikimedia_results_spec net fish_id image_type target_count
                titles n fs) as (_ & Hn & _).
  destruct (FishDataExtractor.wikimedia_results net fish_id image_type
              target_count titles n fs) as [fs1 n1]; cbn [fst snd] in Hone, Hn.
  rewrite <- Hone. apply IH. intros i Hi. apply Hp. lia.
Qed.

Lemma download_wikimedia_images_writes (net : FishDataExtractor.network)
    (fish_id search_term scientific_name image_type : string) :
  writes_only (names_below fish_id image_type
                 (FishDataExtractor.per_source_target image_type))
    (FishDataExtractor.download_wikimedia_images net fish_id search_term
       scientific_name image_type).
Proof.
  intros fs p Hp. unfold FishDataExtractor.download_wikimedia_images.
  apply wikimedia_queries_frame. intros i Hi ->. apply Hp.
  exists i. split; [|done]. unfold FishDataExtractor.per_source_target. lia.
Qed.

Lemma download_each_writes (net : FishDataExtractor.network)
    (fish_id image_type : string) (urls : list string) (k : Z) :
  Z.of_nat (length urls) <= k ->
  writes_only (names_below fish_id image_type k)
    (FishDataExtractor.download_each net fish_id image_type urls 0).
Proof.
  intros Hlen fs p Hp. apply download_each_frame.
  intros i Hi ->. apply Hp. exists i. split; [lia|done].
Qed.

Lemma inert_writes (P : string -> Prop) : writes_only P (fun fs => (fs, 0)).
Proof. by intros fs p _. Qed.

Lemma download_fishbase_images_writes (net : FishDataExtractor.network)
    (fish_id common_name scientific_name image_type : string) :
  writes_only (names_below fish_id image_type
                 (FishDataExtractor.per_source_target image_type))
    (FishDataExtractor.download_fishbase_images net fish_id common_name
       scientific_name image_type).
Proof.
  intros fs p Hp. unfold FishDataExtractor.download_fishbase_images.
  destruct (FishDataExtractor.page_matches net _) as [|status urls]; [done|].
  destruct (status =? 200); [|done].
  apply (download_each_writes net fish_id image_type _
           (FishDataExtractor.per_source_target image_type));
    [apply length_take_target | done].
Qed.

Lemma download_gbif_images_writes (net : FishDataExtractor.network)
    (fish_id scientific_name image_type : string) :
  writes_only (names_below fish_id image_type
                 (FishDataExtractor.per_source_target image_type))
    (FishDataExtractor.download_gbif_images net fish_id scientific_name
       image_type).
Proof.
  intros fs p Hp. unfold FishDataExtractor.download_gbif_images.
  destruct (FishDataExtractor.gbif_species net _) as [|status [|key keys]];
    try done.
  destruct (status =? 200); [|done].
  destruct (FishDataExtractor.gbif_occurrences net key) as [|status2 occs];
    [done|].
  destruct (status2 =? 200); [|done].
  apply (download_each_writes net fish_id image_type _
           (FishDataExtractor.per_source_target image_type)); [|done].
  etrans; [|apply (length_take_target image_type occs)].
  apply inj_le, length_omap_le.
Qed.

Lemma download_inaturalist_images_writes (net : FishDataExtractor.network)
    (fish_id scientific_name image_type : string) :
  writes_only (names_below fish_id image_type
                 (FishDataExtractor.per_source_target image_type))
    (FishDataExtractor.download_inaturalist_images net fish_id scientific_name
       image_type).
Proof.
  intros fs p Hp. unfold FishDataExtractor.download_inaturalist_images.
  destruct (FishDataExtractor.inaturalist_observations net _)
    as [|status obs]; [done|].
  destruct (status =? 200); [|done].
  apply (download_each_writes net fish_id image_type _
           (FishDataExtractor.per_source_target image_type)); [|done].
  etrans; [|apply (length_take_target image_type obs)].
  apply inj_le, length_omap_le.
Qed.

Lemma download_first_writes (net : FishDataExtractor.network)
    (urls : list string) (fish_id image_type : string) :
  writes_only (names_below fish_id image_type 1)
    (FishDataExtractor.download_first net urls
       (FishDataExtractor.target_path fish_id image_type 0)).
Proof.
  intros fs p Hp. unfold FishDataExtractor.download_first.
  destruct urls as [|u rest]; [done|].
  pose proof (download_image_from_url_frame net u
                (FishDataExtractor.target_path fish_id image_type 0) fs p)
    as Hone.
  destruct (FishDataExtractor.download_image_from_url net u
              (FishDataExtractor.target_path fish_id image_type 0) fs)
    as [fs1 [|]]; cbn [fst] in *; apply Hone;
    intros ->; apply Hp; exists 0; (split; [lia|done]).
Qed.

Lemma download_fishbase_diagrams_writes (net : FishDataExtractor.network)
    (fish_id scientific_name : string) :
  writes_only (names_below fish_id "scientific" 1)
    (FishDataExtractor.download_fishbase_diagrams net fish_id scientific_name).
Proof.
  intros fs p Hp. unfold FishDataExtractor.download_fishbase_diagrams.
  destruct (FishDataExtractor.page_matches net _) as [|status urls]; [done|].
  destruct (status =? 200); [|done].
  by apply (download_first_writes net urls fish_id "scientific").
Qed.

Lemma download_fishbase_maps_writes (net : FishDataExtractor.network)
    (fish_id scientific_name : string) :
  writes_only (names_below fish_id "maps" 1)
    (FishDataExtractor.download_fishbase_maps net fish_id scientific_name).
Proof.
  intros fs p Hp. unfold FishDataExtractor.download_fishbase_maps.
  destruct (FishDataExtractor.page_matches net _) as [|status urls]; [done|].
  destruct (status =? 200); [|done].
  by apply (download_first_writes net urls fish_id "maps").
Qed.

Lemma download_gbif_maps_writes (net : FishDataExtractor.network)
    (fish_id scientific_name : string) :
  writes_only (names_below fish_id "maps" 1)
    (FishDataExtractor.download_gbif_maps net fish_id scientific_name).
Proof.
  intros fs p Hp. unfold FishDataExtractor.download_gbif_maps.
  destruct (FishDataExtractor.gbif_species net _) as [|status [|key keys]];
    try done.
  destruct (status =? 200); [|done].
  by apply (download_first_writes net _ fish_id "maps").
Qed.

Lemma sushi_terms_frame (net : FishDataExtractor.network)
    (fish_id common_name sushi_type : string) (terms : list string)
    (p : string) :
  p <> FishDataExtractor.target_path fish_id "sushi" 0 ->
  forall (n : Z) (fs : gmap string file),
    (FishDataExtractor.sushi_terms net fish_id common_name sushi_type terms
       n fs).1 !! p
    = fs !! p.
Proof.
  intros Hp. induction terms as [|term rest IH]; intros n fs; [done|].
  cbn [FishDataExtractor.sushi_terms].
  destruct (2 <=? n); [done|].
  pose proof (download_wikimedia_images_writes net fish_id
                (term +:+ " " +:+ sushi_type) common_name "sushi" fs p)
    as Hone.
  destruct (FishDataExtractor.download_wikimedia_images net fish_id
              (term +:+ " " +:+ sushi_type) common_name "sushi" fs)
    as [fs1 result]; cbn [fst] in Hone.
  rewrite <- Hone.
  - destruct (0 <? result); [done | apply IH].
  - intros (i & Hi & ->). apply Hp.
    change (FishDataExtractor.per_source_target "sushi") with 1 in Hi.
    by assert (i = 0) as -> by lia.
Qed.

Lemma sushi_types_frame (net : FishDataExtractor.network)
    (fish_id common_name : string) (types terms : list string) (p : string) :
  p <> FishDataExtractor.target_path fish_id "sushi" 0 ->
  forall (n : Z) (fs : gmap string file),
    (FishDataExtractor.sushi_types net fish_id common_name types terms
       n fs).1 !! p
    = fs !! p.
Proof.
  intros Hp. induction types as [|sushi_type rest IH]; intros n fs; [done|].
  cbn [FishDataExtractor.sushi_types].
  pose proof (sushi_terms_frame net fish_id common_name sushi_type terms p Hp
                n fs) as Hone.
  destruct (FishDataExtractor.sushi_terms net fish_id common_name sushi_type
              terms n fs) as [fs1 n1]; cbn [fst] in Hone.
  rewrite <- Hone. apply IH.
Qed.

Lemma download_wikimedia_sushi_images_writes (net : FishDataExtractor.network)
    (fish_id common_name japanese_romaji : string) :
  writes_only (names_below fish_id "sushi" 1)
    (FishDataExtractor.download_wikimedia_sushi_images net fish_id common_name
       japanese_romaji).
Proof.
  intros fs p Hp. unfold FishDataExtractor.download_wikimedia_sushi_images.
  pose proof (sushi_types_frame net fish_id common_name ["nigiri"; "sashimi"]
                [common_name; japanese_romaji] p) as Hone.
  destruct (FishDataExtractor.sushi_types net fish_id common_name
              ["nigiri"; "sashimi"] [common_name; japanese_romaji] 0 fs)
    as [fs1 n1] eqn:Heq.
  cbn [fst]. specialize (Hone ltac:(intros ->; apply Hp; exists 0;
                                    split; [lia|done]) 0 fs).
  by rewrite Heq in Hone.
Qed.

Lemma returning_writes (P : string -> Prop)
    (f : gmap string file -> gmap string file * Z) :
  writes_only P f -> source_writes_only P (FishDataExtractor.returning f).
Proof.
  intros Hf fs p Hp. specialize (Hf fs p Hp).
  unfold FishDataExtractor.returning. by destruct (f fs).
Qed.

Lemma run_sources_frame (P : string -> Prop) (target : Z)
    (sources : list FishDataExtractor.source) :
  Forall (source_writes_only P) sources ->
  forall n w p,
    ~ P p ->
    FishDataExtractor.files
      (FishDataExtractor.run_sources target sources n w).1 !! p
    = FishDataExtractor.files w !! p.
Proof.
  induction 1 as [|s rest Hs _ IH]; intros n w p Hp; [done|].
  cbn [FishDataExtractor.run_sources].
  destruct (target <=? n); [done|].
  specialize (Hs (FishDataExtractor.files w) p Hp).
  destruct (s (FishDataExtractor.files w)) as [fs1 [m|]]; cbn [fst] in Hs;
    rewrite IH by done; done.
Qed.

Lemma natural_sources_write (net : FishDataExtractor.network)
    (fish_id common_name scientific_name : string) :
  Forall (source_writes_only (names_below fish_id "natural" 2))
         (FishDataExtractor.natural_sources net fish_id common_name
                                            scientific_name).
Proof.
  unfold FishDataExtractor.natural_sources.
  repeat apply Forall_cons_2; try apply Forall_nil_2; apply returning_writes.
  - apply (download_wikimedia_images_writes net fish_id common_name
             scientific_name "natural").
  - apply (download_fishbase_images_writes net fish_id common_name
             scientific_name "natural").
  - apply (download_gbif_images_writes net fish_id scientific_name "natural").
  - apply (download_inaturalist_images_writes net fish_id scientific_name
             "natural").
Qed.

Lemma scientific_sources_write (net : FishDataExtractor.network)
    (fish_id common_name scientific_name : string) :
  Forall (source_writes_only (names_below fish_id "scientific" 1))
         (FishDataExtractor.scientific_sources net fish_id common_name
                                               scientific_name).
Proof.
  unfold FishDataExtractor.scientific_sources.
  repeat apply Forall_cons_2; try apply Forall_nil_2; apply returning_writes.
  - apply download_fishbase_diagrams_writes.
  - apply (download_wikimedia_images_writes net fish_id _ scientific_name
             "scientific").
  - apply (download_wikimedia_images_writes net fish_id _ scientific_name
             "scientific").
  - apply inert_writes.
Qed.

Lemma map_sources_write (net : FishDataExtractor.network)
    (fish_id common_name scientific_name : string) :
  Forall (source_writes_only (names_below fish_id "maps" 1))
         (FishDataExtractor.map_sources net fish_id common_name
                                        scientific_name).
Proof.
  unfold FishDataExtractor.map_sources.
  repeat apply Forall_cons_2; try apply Forall_nil_2; apply returning_writes.
  - apply download_fishbase_maps_writes.
  - apply download_gbif_maps_writes.
  - apply inert_writes.
  - apply (download_wikimedia_images_writes net fish_id _ scientific_name
             "maps").
Qed.

Lemma sushi_sources_write (net : FishDataExtractor.network)
    (fish_id common_name japanese_romaji : string) :
  Forall (source_writes_only (names_below fish_id "sushi" 1))
         (FishDataExtractor.sushi_sources net fish_id common_name
                                          japanese_romaji).
Proof.
  unfold FishDataExtractor.sushi_sources.
  repeat apply Forall_cons_2; try apply Forall_nil_2; apply returning_writes.
  - apply download_wikimedia_sushi_images_writes.
  - apply inert_writes.
  - apply inert_writes.
Qed.

Lemma names_below_own (fish_id image_type : string) (k target_count : Z)
    (p : string) :
  (image_type, target_count) ∈ FishDataExtractor.targets ->
  k <= target_count ->
  names_below fish_id image_type k p -> own_names fish_id p.
Proof.
  intros Hin Hk (i & Hi & ->). exists image_type, target_count, i.
  split; [done|]. split; [lia|done].
Qed.

Lemma targets_natural : ("natural", 2) ∈ FishDataExtractor.targets.
Proof. unfold FishDataExtractor.targets. apply elem_of_cons. by left. Qed.

Lemma targets_scientific : ("scientific", 1) ∈ FishDataExtractor.targets.
Proof.
  unfold FishDataExtractor.targets. do 1 apply elem_of_cons, or_intror.
  apply elem_of_cons. by left.
Qed.

Lemma targets_maps : ("maps", 1) ∈ FishDataExtractor.targets.
Proof.
  unfold FishDataExtractor.targets. do 2 apply elem_of_cons, or_intror.
  apply elem_of_cons. by left.
Qed.

Lemma targets_sushi : ("sushi", 2) ∈ FishDataExtractor.targets.
Proof.
  unfold FishDataExtractor.targets. do 3 apply elem_of_cons, or_intror.
  apply elem_of_cons. by left.
Qed.

Lemma download_images_for_frame (net : FishDataExtractor.network)
    (pil : FishDataExtractor.pillow) (fish : FishDataExtractor.FishData)
    (w : FishDataExtractor.world) (p : string) :
  ~ own_names (FishDataExtractor.id fish) p ->
  FishDataExtractor.files
    (FishDataExtractor.download_images_for net pil fish w).1 !! p
  = FishDataExtractor.files w !! p.
Proof.
  intros Hp. rewrite download_images_for_unfold. cbn [fst].
  set (fish_id := FishDataExtractor.id fish) in *.
  set (common_name := FishDataExtractor.unique_name fish).
  set (scientific_name := FishDataExtractor.fish_scientific_name fish).
  set (r1 := FishDataExtractor.download_natural_images net fish_id common_name
               scientific_name w).
  set (r2 := FishDataExtractor.download_scientific_diagrams net fish_id
               common_name scientific_name r1.1).
  set (r3 := FishDataExtractor.download_habitat_maps net fish_id common_name
               scientific_name r2.1).
  set (r4 := FishDataExtractor.download_sushi_images net fish_id common_name
               (FishDataExtractor.japanese_name_romaji fish) r3.1).
  pose proof (download_natural_images_spec net fish_id common_name
                scientific_name w) as (_ & _ & Hn1 & _).
  pose proof (download_scientific_diagrams_spec net fish_id common_name
                scientific_name r1.1) as (_ & _ & Hn2 & _).
  pose proof (download_habitat_maps_spec net fish_id common_name
                scientific_name r2.1) as (_ & _ & Hn3 & _).
  pose proof (download_sushi_images_spec net fish_id common_name
                (FishDataExtractor.japanese_name_romaji fish) r3.1)
    as (_ & _ & Hn4 & _).
  fold r1 in Hn1. fold r2 in Hn2. fold r3 in Hn3. fold r4 in Hn4.
  unfold FishDataExtractor.create_missing_placeholders.
  rewrite missing_loop_frame.
  - unfold r4, FishDataExtractor.download_sushi_images.
    rewrite (run_sources_frame _ _ _ (sushi_sources_write net fish_id
               common_name (FishDataExtractor.japanese_name_romaji fish)))
      by (intros H; apply Hp;
          exact (names_below_own fish_id "sushi" 1 2 p targets_sushi
                   ltac:(lia) H)).
    unfold r3, FishDataExtractor.download_habitat_maps.
    rewrite (run_sources_frame _ _ _ (map_sources_write net fish_id
               common_name scientific_name))
      by (intros H; apply Hp;
          exact (names_below_own fish_id "maps" 1 1 p targets_maps
                   ltac:(lia) H)).
    unfold r2, FishDataExtractor.download_scientific_diagrams.
    rewrite (run_sources_frame _ _ _ (scientific_sources_write net fish_id
               common_name scientific_name))
      by (intros H; apply Hp;
          exact (names_below_own fish_id "scientific" 1 1 p
                   targets_scientific ltac:(lia) H)).
    unfold r1, FishDataExtractor.download_natural_images.
    apply (run_sources_frame _ _ _ (natural_sources_write net fish_id
             common_name scientific_name)).
    intros H. apply Hp.
    exact (names_below_own fish_id "natural" 2 2 p targets_natural
             ltac:(lia) H).
  - intros t target i Hin Hi ->. apply Hp. exists t, target, i.
    split; [done|]. split; [|done].
    destruct (counts_of_lookup r1.2 r2.2 r3.2 r4.2) as (H1 & H2 & H3 & H4).
    unfold FishDataExtractor.targets in Hin.
    repeat (apply elem_of_cons in Hin as [Hin|Hin];
            [injection Hin as -> ->|]);
      try (by apply elem_of_nil in Hin).
    + rewrite H1 in Hi. cbn [default from_option id] in Hi. lia.
    + rewrite H2 in Hi. cbn [default from_option id] in Hi. lia.
    + rewrite H3 in Hi. cbn [default from_option id] in Hi. lia.
    + rewrite H4 in Hi. cbn [default from_option id] in Hi. lia.
Qed.

(** X17.  Each download loop writes only the first names of its own
    category, whatever the network answers: the natural loop only the
    files of indices 0 and 1, the diagram, map and sushi loops only the
    file of index 0.  So the sushi loop, whose target is 2, never writes
    [sushi/<id>_sashimi.jpg]: that file can only come from a
    placeholder. *)
Theorem downloads_write_first_names (net : FishDataExtractor.network)
    (fish_id common_name scientific_name japanese_romaji : string)
    (w : FishDataExtractor.world) :
  (forall p,
     p <> FishDataExtractor.target_path fish_id "natural" 0 ->
     p <> FishDataExtractor.target_path fish_id "natural" 1 ->
     FishDataExtractor.files
       (FishDataExtractor.download_natural_images net fish_id common_name
          scientific_name w).1 !! p
     = FishDataExtractor.files w !! p) /\
  (forall p,
     p <> FishDataExtractor.target_path fish_id "scientific" 0 ->
     FishDataExtractor.files
       (FishDataExtractor.download_scientific_diagrams net fish_id common_name
          scientific_name w).1 !! p
     = FishDataExtractor.files w !! p) /\
  (forall p,
     p <> FishDataExtractor.target_path fish_id "maps" 0 ->
     FishDataExtractor.files
       (FishDataExtractor.download_habitat_maps net fish_id common_name
          scientific_name w).1 !! p
     = FishDataExtractor.files w !! p) /\
  (forall p,
     p <> FishDataExtractor.target_path fish_id "sushi" 0 ->
     FishDataExtractor.files
       (FishDataExtractor.download_sushi_images net fish_id common_name
          japanese_romaji w).1 !! p
     = FishDataExtractor.files w !! p) /\
  FishDataExtractor.files
    (FishDataExtractor.download_sushi_images net fish_id common_name
       japanese_romaji w).1
    !! ("sushi/" +:+ fish_id +:+ "_sashimi.jpg")
  = FishDataExtractor.files w !! ("sushi/" +:+ fish_id +:+ "_sashimi.jpg").
Proof.
  assert (forall p,
            p <> FishDataExtractor.target_path fish_id "sushi" 0 ->
            FishDataExtractor.files
              (FishDataExtractor.download_sushi_images net fish_id common_name
                 japanese_romaji w).1 !! p
            = FishDataExtractor.files w !! p) as Hsushi.
  { intros p Hp. unfold FishDataExtractor.download_sushi_images.
    apply (run_sources_frame _ _ _ (sushi_sources_write net fish_id
             common_name japanese_romaji)).
    intros (i & Hi & ->). apply Hp. by assert (i = 0) as -> by lia. }
  split; [|split; [|split; [|split]]].
  - intros p Hp0 Hp1. unfold FishDataExtractor.download_natural_images.
    apply (run_sources_frame _ _ _ (natural_sources_write net fish_id
             common_name scientific_name)).
    intros (i & Hi & ->).
    assert (i = 0 \/ i = 1) as [-> | ->] by lia; [by apply Hp0|by apply Hp1].
  - intros p Hp. unfold FishDataExtractor.download_scientific_diagrams.
    apply (run_sources_frame _ _ _ (scientific_sources_write net fish_id
             common_name scientific_name)).
    intros (i & Hi & ->). apply Hp. by assert (i = 0) as -> by lia.
  - intros p Hp. unfold FishDataExtractor.download_habitat_maps.
    apply (run_sources_frame _ _ _ (map_sources_write net fish_id
             common_name scientific_name)).
    intros (i & Hi & ->). apply Hp. by assert (i = 0) as -> by lia.
  - exact Hsushi.
  - apply Hsushi.
    change (FishDataExtractor.target_path fish_id "sushi" 0)
      with ("sushi/" +:+ fish_id +:+ "_nigiri.jpg").
    intros Heq. do 2 apply (inj (String.app _)) in Heq. discriminate Heq.
Qed.

Lemma downloads_write_first_names_witness :
  FishDataExtractor.files
    (FishDataExtractor.download_natural_images overshooting "bluefin_tuna"
       "Bluefin Tuna" "Thunnus thynnus"
       (FishDataExtractor.World ∅ [])).1
    !! "natural/bluefin_tuna_natural_3.jpg"
  = None.
Proof.
  rewrite (proj1 (downloads_write_first_names overshooting "bluefin_tuna"
                    "Bluefin Tuna" "Thunnus thynnus" "maguro"
                    (FishDataExtractor.World ∅ []))).
  - reflexivity.
  - vm_compute. discriminate.
  - vm_compute. discriminate.
Defined.

(** X18.  The image pass touches nothing but the files of its entities:
    a path that is not one of the six file names of an entity of the list
    (two natural, the diagram, the map, nigiri and sashimi) holds after
    [download_free_images] what it held before. *)
Theorem download_free_images_frame
    (net : FishDataExtractor.network) (pil : FishDataExtractor.pillow)
    (fish_list : list FishDataExtractor.FishData) (p : string) :
  (forall fish, fish ∈ fish_list ->
                ~ own_names (FishDataExtractor.id fish) p) ->
  forall w,
    FishDataExtractor.files
      (FishDataExtractor.download_free_images net pil fish_list w) !! p
    = FishDataExtractor.files w !! p.
Proof.
  induction fish_list as [|fish rest IH]; intros Hp w; [done|].
  cbn [FishDataExtractor.download_free_images].
  rewrite IH by (intros f Hf; apply Hp, elem_of_cons; by right).
  apply download_images_for_frame, Hp, elem_of_cons. by left.
Qed.

Lemma download_free_images_frame_witness :
  FishDataExtractor.files
    (FishDataExtractor.download_free_images all_found
       FishDataExtractor.NotInstalled [bluefin_tuna]
       (FishDataExtractor.World
          {[ "natural/red_snapper_natural_1.jpg" := RawBytes [xff] ]} []))
    !! "natural/red_snapper_natural_1.jpg"
  = Some (RawBytes [xff]).
Proof.
  rewrite (download_free_images_frame all_found
             FishDataExtractor.NotInstalled [bluefin_tuna]
             "natural/red_snapper_natural_1.jpg").
  - reflexivity.
  - intros fish Hfish (t & target & i & Hin & _ & Heq).
    apply list_elem_of_singleton in Hfish as ->.
    unfold FishDataExtractor.targets in Hin.
    repeat (apply elem_of_cons in Hin as [Hin|Hin];
            [injection Hin as -> ->|]);
      try (by apply elem_of_nil in Hin);
      vm_compute in Heq; discriminate Heq.
Defined.

(** ** The extractor's file names under the resizer's glob *)

Lemma app_cons (c : ascii) (a b : string) :
  String c a +:+ b = String c (a +:+ b).
Proof. reflexivity. Qed.

Lemma contains_slash_cons (c : ascii) (s : string) :
  Py.contains "/" (String c s)
  = (if Ascii.eqb c "/" then true else Py.contains "/" s).
Proof.
  cbn [Py.contains String.prefix].
  destruct (ascii_dec "/" c) as [<-|Hne]; [by destruct s|].
  destruct (Ascii.eqb_spec c "/") as [->|_]; done.
Qed.

Lemma contains_slash_app (a b : string) :
  Py.contains "/" (a +:+ b) = Py.contains "/" a || Py.contains "/" b.
Proof.
  induction a as [|c a IH]; [done|].
  rewrite app_cons, !contains_slash_cons, IH. by destruct (Ascii.eqb c "/").
Qed.

Lemma split_no_slash (s : string) :
  Py.contains "/" s = false -> Py.split "/" s = [s].
Proof.
  induction s as [|c s IH]; [done|].
  rewrite contains_slash_cons. cbn [Py.split].
  destruct (Ascii.eqb c "/"); [done|]. intros Hs. by rewrite IH.
Qed.

Lemma split_at_slash (a b : string) :
  Py.contains "/" a = false ->
  Py.split "/" (a +:+ "/" +:+ b) = a :: Py.split "/" b.
Proof.
  induction a as [|c a IH]; [done|].
  rewrite contains_slash_cons, app_cons. cbn [Py.split].
  destruct (Ascii.eqb c "/"); [done|]. intros Ha. by rewrite IH.
Qed.

Lemma no_slash_uint (d : Decimal.uint) :
  Py.contains "/" (NilEmpty.string_of_uint d) = false.
Proof.
  induction d; cbn [NilEmpty.string_of_uint]; [done|..];
    by rewrite contains_slash_cons.
Qed.

Lemma no_slash_str_of_int (n : Z) : Py.contains "/" (Py.str_of_int n) = false.
Proof.
  unfold Py.str_of_int, NilZero.string_of_int, NilZero.string_of_uint.
  destruct (Z.to_int n) as [d|d]; destruct d;
    rewrite ?contains_slash_cons; cbn [Ascii.eqb Bool.eqb];
    try done; rewrite <- ?contains_slash_cons;
    first [ exact (no_slash_uint (Decimal.D0 d))
          | exact (no_slash_uint (Decimal.D1 d))
          | exact (no_slash_uint (Decimal.D2 d))
          | exact (no_slash_uint (Decimal.D3 d))
          | exact (no_slash_uint (Decimal.D4 d))
          | exact (no_slash_uint (Decimal.D5 d))
          | exact (no_slash_uint (Decimal.D6 d))
          | exact (no_slash_uint (Decimal.D7 d))
          | exact (no_slash_uint (Decimal.D8 d))
          | exact (no_slash_uint (Decimal.D9 d)) ].
Qed.

Lemma length_app_string (a b : string) :
  String.length (a +:+ b) = (String.length a + String.length b)%nat.
Proof. induction a as [|c a IH]; [done|]. rewrite app_cons. cbn. by rewrite IH. Qed.

Lemma drop_app_string (a b : string) : Py.drop (String.length a) (a +:+ b) = b.
Proof. induction a as [|c a IH]; [by destruct b|]. by rewrite app_cons. Qed.

Lemma endswith_app (a suffix : string) :
  Py.endswith suffix (a +:+ suffix) = true.
Proof.
  unfold Py.endswith. rewrite length_app_string.
  apply andb_true_intro. split; [apply Nat.leb_le; lia|].
  replace (String.length a + String.length suffix - String.length suffix)%nat
    with (String.length a) by lia.
  rewrite drop_app_string. apply String.eqb_refl.
Qed.

Lemma app_assoc_string (a b c : string) : (a +:+ b) +:+ c = a +:+ b +:+ c.
Proof. induction a as [|x a IH]; [done|]. by rewrite !app_cons, IH. Qed.

Lemma in_folder_intro (folder name : string) :
  Py.contains "/" folder = false -> Py.contains "/" name = false ->
  Py.endswith ".jpg" name = true ->
  forall d, in_folder d (FishDataExtractor.image_path folder name)
            = bool_decide (folder = d).
Proof.
  intros Hf Hn Hjpg d. unfold in_folder, FishDataExtractor.image_path.
  rewrite split_at_slash, split_no_slash by done. rewrite Hjpg.
  by rewrite andb_true_r.
Qed.

Lemma jpg_name_in_folder (folder stem : string) :
  Py.contains "/" folder = false -> Py.contains "/" stem = false ->
  forall d, in_folder d (FishDataExtractor.image_path folder (stem +:+ ".jpg"))
            = bool_decide (folder = d).
Proof.
  intros Hf Hs. apply in_folder_intro; [done| |apply endswith_app].
  by rewrite contains_slash_app, Hs.
Qed.

(** X19.  When the id of an entity contains no slash, each of its file
    names is a [.jpg] directly under the folder of its category, and
    under no other folder.  The four category folders are the ones
    [resize_all_images] scans, so [glob] finds every such file that
    exists: the files the extractor writes are the files the resizer
    visits. *)
Theorem extractor_files_are_scanned (fish_id image_type : string)
    (target_count index : Z) :
  Py.contains "/" fish_id = false ->
  (image_type, target_count) ∈ FishDataExtractor.targets ->
  image_type ∈ folders /\
  (forall folder,
     in_folder folder
       (FishDataExtractor.target_path fish_id image_type index)
     = bool_decide (image_type = folder)) /\
  (forall fs,
     is_Some (fs !! FishDataExtractor.target_path fish_id image_type index) ->
     FishDataExtractor.target_path fish_id image_type index
     ∈ glob fs image_type).
Proof.
  intros Hid Hin.
  assert (image_type ∈ folders /\
          forall folder,
            in_folder folder
              (FishDataExtractor.target_path fish_id image_type index)
            = bool_decide (image_type = folder)) as [Hfolder Hscan].
  { unfold FishDataExtractor.targets in Hin.
    repeat (apply elem_of_cons in Hin as [Hin|Hin];
            [injection Hin as -> ->|]);
      try (by apply elem_of_nil in Hin).
    - split; [unfold folders; apply elem_of_cons; by left|].
      change (FishDataExtractor.target_path fish_id "natural" index)
        with (FishDataExtractor.image_path "natural"
                (fish_id +:+ "_natural_" +:+ Py.str_of_int (index + 1)
                 +:+ ".jpg")).
      rewrite <- !app_assoc_string. apply jpg_name_in_folder; [done|].
      by rewrite !contains_slash_app, Hid, no_slash_str_of_int.
    - split; [unfold folders; do 1 apply elem_of_cons, or_intror;
              apply elem_of_cons; by left|].
      change (FishDataExtractor.target_path fish_id "scientific" index)
        with (FishDataExtractor.image_path "scientific"
                (fish_id +:+ "_diagram" +:+ ".jpg")).
      rewrite <- !app_assoc_string. apply jpg_name_in_folder; [done|].
      by rewrite !contains_slash_app, Hid.
    - split; [unfold folders; do 2 apply elem_of_cons, or_intror;
              apply elem_of_cons; by left|].
      change (FishDataExtractor.target_path fish_id "maps" index)
        with (FishDataExtractor.image_path "maps"
                (fish_id +:+ "_habitat" +:+ ".jpg")).
      rewrite <- !app_assoc_string. apply jpg_name_in_folder; [done|].
      by rewrite !contains_slash_app, Hid.
    - split; [unfold folders; do 3 apply elem_of_cons, or_intror;
              apply elem_of_cons; by left|].
      change (FishDataExtractor.target_path fish_id "sushi" index)
        with (FishDataExtractor.image_path "sushi"
                (fish_id +:+ "_"
                 +:+ (if index =? 0 then "nigiri" else "sashimi")
                 +:+ ".jpg")).
      rewrite <- !app_assoc_string. apply jpg_name_in_folder; [done|].
      rewrite !contains_slash_app, Hid. by destruct (index =? 0). }
  split; [done|]. split; [done|].
  intros fs Hsome. apply elem_of_glob. split; [|done].
  rewrite Hscan. by apply bool_decide_eq_true.
Qed.

Lemma extractor_files_are_scanned_witness :
  "sushi/bluefin_tuna_sashimi.jpg"
  ∈ glob {[ "sushi/bluefin_tuna_sashimi.jpg"
            := RawBytes FishDataExtractor.minimal_jpeg ]} "sushi".
Proof.
  apply (extractor_files_are_scanned "bluefin_tuna" "sushi" 2 1).
  - vm_compute. reflexivity.
  - unfold FishDataExtractor.targets. do 3 apply elem_of_cons, or_intror.
    apply elem_of_cons. by left.
  - vm_compute. eexists. reflexivity.
Defined.

(** ** The backfill, file by file *)

Lemma created_of_created (f : Z -> string) (l : list Z) :
  created_of (map (fun i => FishDataExtractor.CreatedPlaceholder (f i)) l)
  = map f l.
Proof. induction l as [|x l IH]; [done|]. cbn. f_equal. apply IH. Qed.

(** One call of the generator, whatever Pillow does. *)
Lemma create_type_specific_placeholders_rendered
    (pil : FishDataExtractor.pillow)
    (fish_id common_name scientific_name image_type : string)
    (start_index count : Z) (w : FishDataExtractor.world) :
  let paths := call_paths fish_id (image_type, start_index, count) in
  let w' := FishDataExtractor.create_type_specific_placeholders pil fish_id
              common_name scientific_name image_type start_index count w in
  created_of (FishDataExtractor.events w')
  = created_of (FishDataExtractor.events w) ++ rendered pil paths /\
  (forall p, p ∈ rendered pil paths ->
             is_Some (FishDataExtractor.files w' !! p)) /\
  (forall p, p ∉ rendered pil paths ->
             FishDataExtractor.files w' !! p = FishDataExtractor.files w !! p).
Proof.
  cbn zeta. unfold call_paths. cbn [fst snd].
  unfold FishDataExtractor.create_type_specific_placeholders.
  destruct pil as [|render_raises]; cbn [rendered].
  - unfold FishDataExtractor.create_basic_type_placeholders.
    destruct (basic_loop_spec fish_id image_type start_index
                (FishDataExtractor.range count)
                (FishDataExtractor.emit
                   (FishDataExtractor.CreatingPlaceholders image_type
                      start_index count) w)) as (He & _ & Hnew).
    split; [|split].
    + rewrite He, created_of_app,
        (created_of_created
           (fun i => FishDataExtractor.target_path fish_id image_type
                       (start_index + i))).
      cbn [FishDataExtractor.emit FishDataExtractor.events].
      rewrite created_of_app. cbn. by rewrite app_nil_r.
    + intros p Hp. apply list_elem_of_fmap in Hp as (i & -> & Hi).
      by rewrite (Hnew i Hi).
    + intros p Hp. rewrite basic_loop_frame; [done|].
      intros i Hi ->. apply Hp. apply list_elem_of_fmap. by exists i.
  - destruct (render_loop_until_failure render_raises fish_id image_type
                (default (128, 128, 128)
                         (FishDataExtractor.color_map !! image_type))
                (default common_name
                         (FishDataExtractor.text_map common_name
                            scientific_name !! image_type))
                start_index (FishDataExtractor.range count)
                (FishDataExtractor.emit
                   (FishDataExtractor.CreatingPlaceholders image_type
                      start_index count) w)) as (He & Hin & Hout).
    cbn zeta in He, Hin, Hout. split; [|split]; [| |done].
    + rewrite He. cbn [FishDataExtractor.emit FishDataExtractor.events].
      rewrite created_of_app. cbn. by rewrite app_nil_r.
    + intros p Hp. by rewrite (Hin p Hp).
Qed.

(** The loop of the backfill, whatever Pillow does. *)
Lemma missing_loop_rendered (pil : FishDataExtractor.pillow)
    (fish_id common_name scientific_name : string)
    (success_counts : gmap string Z) (items : list (string * Z)) :
  forall w,
    let paths :=
      concat (map (fun call => rendered pil (call_paths fish_id call))
                  (omap (shortfall success_counts) items)) in
    let w' := FishDataExtractor.missing_loop pil fish_id common_name
                scientific_name success_counts items w in
    created_of (FishDataExtractor.events w')
    = created_of (FishDataExtractor.events w) ++ paths /\
    (forall p, p ∈ paths -> is_Some (FishDataExtractor.files w' !! p)) /\
    (forall p, p ∉ paths ->
               FishDataExtractor.files w' !! p
               = FishDataExtractor.files w !! p).
Proof.
  induction items as [|[t target] rest IH]; intros w; cbn zeta.
  { cbn. rewrite app_nil_r. repeat split; try done.
    intros p Hp. by apply elem_of_nil in Hp. }
  cbn [FishDataExtractor.missing_loop omap list_omap].
  assert (shortfall success_counts (t, target)
          = if 0 <? target - default 0 (success_counts !! t)
            then Some (t, default 0 (success_counts !! t),
                       target - default 0 (success_counts !! t))
            else None) as -> by reflexivity.
  destruct (0 <? target - default 0 (success_counts !! t)).
  - cbn [map concat].
    destruct (create_type_specific_placeholders_rendered pil fish_id
                common_name scientific_name t
                (default 0 (success_counts !! t))
                (target - default 0 (success_counts !! t)) w)
      as (He1 & Hin1 & Hout1).
    cbn zeta in He1, Hin1, Hout1.
    set (w1 := FishDataExtractor.create_type_specific_placeholders _ _ _ _ _
                 _ _ w) in *.
    destruct (IH w1) as (He & Hin & Hout). cbn zeta in He, Hin, Hout.
    split; [|split].
    + by rewrite He, He1, <- app_assoc.
    + intros p Hp. apply elem_of_app in Hp as [Hp|Hp]; [|by apply Hin].
      apply elem_of_dom.
      apply (missing_loop_dom pil fish_id common_name scientific_name
               success_counts rest w1).
      apply elem_of_dom. by apply Hin1.
    + intros p Hp. apply not_elem_of_app in Hp as [Hp1 Hp2].
      by rewrite (Hout p Hp2), (Hout1 p Hp1).
  - apply IH.
Qed.

Lemma rendered_never_raises (pil : FishDataExtractor.pillow)
    (paths : list string) :
  never_raises pil -> rendered pil paths = paths.
Proof.
  destruct pil as [|render_raises]; [done|]. cbn. intros Hok.
  induction paths as [|p rest IH]; [done|]. cbn. by rewrite Hok, IH.
Qed.

Lemma rendered_all_raise (paths : list string) :
  rendered (FishDataExtractor.Installed (fun _ => true)) paths = [].
Proof. by destruct paths. Qed.

(** C2.  When every source returns zero (or raises) the count of the
    loop is zero, and the counts of the four loops are what the pass
    over an entity hands to the backfill.  [create_missing_placeholders]
    calls the generator once per category that is short, with the start
    index equal to the number downloaded and the count equal to the
    target minus that number; with nothing downloaded these calls are
    (natural, 0, 2),
    (scientific, 0, 1), (maps, 0, 1), (sushi, 0, 2), which owe the six
    files of the entity.  A call renders its indices in order, and the
    backfill reports and writes exactly the paths rendered and touches
    no other path.  When no rendering raises these are all the paths
    owed, and their names differ from the names of the indices below the
    number downloaded.  But a call stops at the first index whose
    rendering raises: with a Pillow that raises every time the four
    calls are made with the right arguments and not one of the six
    placeholders is rendered or written. *)
Theorem placeholders_cover_the_shortfall :
  (forall target sources w,
     Forall returns_zero sources ->
     snd (FishDataExtractor.run_sources target sources 0 w) = 0) /\
  (forall net pil fish w,
     let fish_id := FishDataExtractor.id fish in
     let common_name := FishDataExtractor.unique_name fish in
     let scientific_name := FishDataExtractor.fish_scientific_name fish in
     let r1 := FishDataExtractor.download_natural_images net fish_id
                 common_name scientific_name w in
     let r2 := FishDataExtractor.download_scientific_diagrams net fish_id
                 common_name scientific_name r1.1 in
     let r3 := FishDataExtractor.download_habitat_maps net fish_id
                 common_name scientific_name r2.1 in
     let r4 := FishDataExtractor.download_sushi_images net fish_id
                 common_name (FishDataExtractor.japanese_name_romaji fish)
                 r3.1 in
     let success_counts := counts_of r1.2 r2.2 r3.2 r4.2 in
     (FishDataExtractor.download_images_for net pil fish w).1
     = FishDataExtractor.create_missing_placeholders pil fish_id common_name
         scientific_name success_counts r4.1 /\
     success_counts !! "natural" = Some r1.2 /\
     success_counts !! "scientific" = Some r2.2 /\
     success_counts !! "maps" = Some r3.2 /\
     success_counts !! "sushi" = Some r4.2) /\
  (forall pil fish_id common_name scientific_name success_counts w,
     calls_of (FishDataExtractor.events
                 (FishDataExtractor.create_missing_placeholders pil fish_id
                    common_name scientific_name success_counts w))
     = calls_of (FishDataExtractor.events w)
       ++ omap (shortfall success_counts) FishDataExtractor.targets) /\
  (forall fish_id success_counts,
     (forall image_type, default 0 (success_counts !! image_type) = 0) ->
     omap (shortfall success_counts) FishDataExtractor.targets
     = [ ("natural", 0, 2); ("scientific", 0, 1);
         ("maps", 0, 1); ("sushi", 0, 2) ] /\
     owed_paths fish_id success_counts
     = [ FishDataExtractor.target_path fish_id "natural" 0;
         FishDataExtractor.target_path fish_id "natural" 1;
         FishDataExtractor.target_path fish_id "scientific" 0;
         FishDataExtractor.target_path fish_id "maps" 0;
         FishDataExtractor.target_path fish_id "sushi" 0;
         FishDataExtractor.target_path fish_id "sushi" 1 ]) /\
  (forall pil fish_id common_name scientific_name success_counts w,
     let w' := FishDataExtractor.create_missing_placeholders pil fish_id
                 common_name scientific_name success_counts w in
     created_of (FishDataExtractor.events w')
     = created_of (FishDataExtractor.events w)
       ++ rendered_paths pil fish_id success_counts /\
     (forall p, p ∈ rendered_paths pil fish_id success_counts ->
                is_Some (FishDataExtractor.files w' !! p)) /\
     (forall p, p ∉ rendered_paths pil fish_id success_counts ->
                FishDataExtractor.files w' !! p
                = FishDataExtractor.files w !! p)) /\
  (forall pil fish_id success_counts,
     never_raises pil ->
     rendered_paths pil fish_id success_counts
     = owed_paths fish_id success_counts) /\
  (forall fish_id image_type target_count downloaded i j,
     (image_type, target_count) ∈ FishDataExtractor.targets ->
     0 <= i < downloaded -> downloaded <= j < target_count ->
     FishDataExtractor.target_path fish_id image_type i
     <> FishDataExtractor.target_path fish_id image_type j) /\
  (forall fish_id common_name scientific_name success_counts w,
     let w' := FishDataExtractor.create_missing_placeholders
                 (FishDataExtractor.Installed (fun _ => true)) fish_id
                 common_name scientific_name success_counts w in
     created_of (FishDataExtractor.events w')
     = created_of (FishDataExtractor.events w) /\
     FishDataExtractor.files w' = FishDataExtractor.files w).
Proof.
  assert (forall fish_id success_counts,
            rendered_paths (FishDataExtractor.Installed (fun _ => true))
                           fish_id success_counts = []) as Hnone.
  { intros fish_id success_counts. unfold rendered_paths.
    induction (omap (shortfall success_counts) FishDataExtractor.targets)
      as [|call calls IH]; [done|].
    cbn [map concat]. by rewrite rendered_all_raise, IH. }
  split; [|split; [|split; [|split; [|split; [|split; [|split]]]]]].
  - intros target sources w Hz. by apply run_sources_all_zero.
  - intros net pil fish w. cbn zeta.
    rewrite download_images_for_unfold. split; [done|].
    apply counts_of_lookup.
  - intros. apply missing_loop_calls.
  - intros fish_id success_counts Hz.
    assert (omap (shortfall success_counts) FishDataExtractor.targets
            = [ ("natural", 0, 2); ("scientific", 0, 1);
                ("maps", 0, 1); ("sushi", 0, 2) ]) as Hcalls.
    { unfold FishDataExtractor.targets, shortfall.
      cbn [omap list_omap fst snd]. rewrite !Hz. reflexivity. }
    split; [done|]. unfold owed_paths. rewrite Hcalls. reflexivity.
  - intros. apply missing_loop_rendered.
  - intros pil fish_id success_counts Hok.
    unfold rendered_paths, owed_paths.
    induction (omap (shortfall success_counts) FishDataExtractor.targets)
      as [|call calls IH]; [done|].
    cbn [map concat]. by rewrite (rendered_never_raises pil _ Hok), IH.
  - intros. by eapply placeholder_names_fresh.
  - intros fish_id common_name scientific_name success_counts w.
    destruct (missing_loop_rendered
                (FishDataExtractor.Installed (fun _ => true)) fish_id
                common_name scientific_name success_counts
                FishDataExtractor.targets w) as (He & _ & Hout).
    cbn zeta in He, Hout.
    fold (rendered_paths (FishDataExtractor.Installed (fun _ => true))
            fish_id success_counts) in He, Hout.
    rewrite Hnone in He, Hout. rewrite app_nil_r in He.
    split; [exact He|]. apply map_eq. intros p. apply Hout.
    apply not_elem_of_nil.
Qed.

Lemma counts_of_zero (image_type : string) :
  default 0 (counts_of 0 0 0 0 !! image_type) = 0.
Proof.
  unfold counts_of, FishDataExtractor.add_count.
  repeat (rewrite lookup_insert_eq || (rewrite lookup_insert_ne by done)).
  cbn [default from_option id].
  destruct (decide (image_type = "sushi")) as [->|?];
    [by rewrite lookup_insert_eq | rewrite lookup_insert_ne by done].
  destruct (decide (image_type = "maps")) as [->|?];
    [by rewrite lookup_insert_eq | rewrite lookup_insert_ne by done].
  destruct (decide (image_type = "scientific")) as [->|?];
    [by rewrite lookup_insert_eq | rewrite lookup_insert_ne by done].
  destruct (decide (image_type = "natural")) as [->|?];
    [by rewrite lookup_insert_eq | rewrite lookup_insert_ne by done].
  destruct (decide (image_type = "natural")) as [->|?]; [done|].
  destruct (decide (image_type = "scientific")) as [->|?]; [done|].
  destruct (decide (image_type = "maps")) as [->|?]; [done|].
  destruct (decide (image_type = "sushi")) as [->|?]; [done|].
  cbn. by rewrite !lookup_insert_ne, lookup_empty by done.
Qed.

(** Nothing downloaded for a tuna.  Pillow absent: the six placeholders
    are written.  Pillow raising: none is. *)
Lemma placeholders_cover_the_shortfall_witness :
  snd (FishDataExtractor.run_sources 2
         [ (fun fs => (fs, FishDataExtractor.Raised));
           (fun fs => (fs, FishDataExtractor.Returned 0)) ] 0
         (FishDataExtractor.World ∅ [])) = 0
  /\ is_Some (FishDataExtractor.files
                (FishDataExtractor.create_missing_placeholders
                   FishDataExtractor.NotInstalled "bluefin_tuna"
                   "Bluefin Tuna" "Thunnus thynnus" (counts_of 0 0 0 0)
                   (FishDataExtractor.World ∅ []))
              !! "sushi/bluefin_tuna_sashimi.jpg")
  /\ FishDataExtractor.target_path "bluefin_tuna" "natural" 0
     <> FishDataExtractor.target_path "bluefin_tuna" "natural" 1
  /\ FishDataExtractor.files
       (FishDataExtractor.create_missing_placeholders
          (FishDataExtractor.Installed (fun _ => true)) "bluefin_tuna"
          "Bluefin Tuna" "Thunnus thynnus" (counts_of 0 0 0 0)
          (FishDataExtractor.World ∅ []))
     = ∅.
Proof.
  destruct placeholders_cover_the_shortfall
    as (Hzero & _ & _ & Hcalls & Hfiles & Hall & Hfresh & Hbug).
  split; [|split; [|split]].
  - apply Hzero. repeat constructor; intros fs; cbn; auto.
  - apply (proj1 (proj2 (Hfiles FishDataExtractor.NotInstalled "bluefin_tuna"
                           "Bluefin Tuna" "Thunnus thynnus"
                           (counts_of 0 0 0 0)
                           (FishDataExtractor.World ∅ [])))).
    rewrite (Hall FishDataExtractor.NotInstalled "bluefin_tuna"
               (counts_of 0 0 0 0) I).
    rewrite (proj2 (Hcalls "bluefin_tuna" (counts_of 0 0 0 0)
                      counts_of_zero)).
    vm_compute. do 5 right. left.
  - apply (Hfresh "bluefin_tuna" "natural" 2 1 0 1); [|lia|lia].
    unfold FishDataExtractor.targets. apply elem_of_cons. by left.
  - apply (proj2 (Hbug "bluefin_tuna" "Bluefin Tuna" "Thunnus thynnus"
                    (counts_of 0 0 0 0) (FishDataExtractor.World ∅ []))).
Defined.
